(** * polyWantsACracker: probability estimation and risk-bounded sizing

    A shallow embedding of the numerical core of the trading bot:
    [risk_manager.py] (Kelly sizing, bet sizing, the position ledger and
    its JSON persistence), [btc_strategy.py] (indicators, the
    price-crossing probability model, side selection) and
    [weather_strategy.py] (the threshold models and their side selection).

    Numbers.  The Python code computes on IEEE binary64 floats.  The
    ledger, sizing and model laws are stated over exact rationals [Q],
    the arithmetic the formulas denote; rounding error of the individual
    float operations is not part of that reading.  [kelly_size], the one
    function whose returned float the specification pins down to a
    literal, is written over an abstract arithmetic [PyFloat] and is run
    both on [Q] and on the kernel's binary64 floats.

    Python features rendered explicitly: exceptions as the [Raise] case
    of an [outcome], a [nan] or a failed lookup as [None]; the mutable
    [RiskManager] object, the state file, the trade log and the clock as
    one [World] threaded through a state-and-exception monad; the
    library functions [norm.cdf], [np.sqrt], [np.exp] and [np.log] as
    the methods of a class [SciLibs].  Text parsing of market questions
    and the network feeds are inputs: each analysis takes the parsed
    values and the feed's answers as arguments.  Logging calls have no
    effect on any modelled state and are left out. *)

From Stdlib Require Import QArith Qround Qabs ZArith String Ascii DecimalString List Bool Lia Lqa.
From Stdlib Require Import Floats.PrimFloat Uint63.
Import ListNotations.

Set Warnings "-inexact-float,-register-all".
Local Open Scope Q_scope.

(* ================================================================== *)
(** ** Arithmetic *)

(** The operations of Python's [float] that the sizing formula uses.
    [lit n d] is the float written as the decimal literal [n/d]. *)
Class PyFloat (F : Type) : Type := {
  lit : Z -> positive -> F;
  fadd : F -> F -> F;
  fsub : F -> F -> F;
  fmul : F -> F -> F;
  fdiv : F -> F -> F;
  fle : F -> F -> bool;
  flt : F -> F -> bool
}.

Definition Qlt_bool (x y : Q) : bool := negb (Qle_bool y x).

(** Exact arithmetic. *)
#[export] Instance Q_PyFloat : PyFloat Q := {|
  lit n d := n # d;
  fadd := Qplus;
  fsub := Qminus;
  fmul := Qmult;
  fdiv := Qdiv;
  fle := Qle_bool;
  flt := Qlt_bool
|}.

(** Binary64, round to nearest even: the arithmetic CPython runs.  A
    decimal literal denotes the float nearest to it, which is what the
    correctly rounded quotient of two exactly representable integers
    yields. *)
Definition float_of_Z (z : Z) : float :=
  match z with
  | Z0 => PrimFloat.zero
  | Zpos _ => PrimFloat.of_uint63 (Uint63.of_Z z)
  | Zneg p => PrimFloat.opp (PrimFloat.of_uint63 (Uint63.of_Z (Zpos p)))
  end.

#[export] Instance binary64_PyFloat : PyFloat float := {|
  lit n d := PrimFloat.div (float_of_Z n) (float_of_Z (Zpos d));
  fadd := PrimFloat.add;
  fsub := PrimFloat.sub;
  fmul := PrimFloat.mul;
  fdiv := PrimFloat.div;
  fle := PrimFloat.leb;
  flt := PrimFloat.ltb
|}.

(** Python's [min(a, b)] and [max(a, b)]: the first argument wins ties. *)
Definition py_min (a b : Q) : Q := if Qlt_bool b a then b else a.
Definition py_max (a b : Q) : Q := if Qlt_bool a b then b else a.

(** [np.clip(x, lo, hi)] is [minimum(maximum(x, lo), hi)]. *)
Definition np_clip (x lo hi : Q) : Q :=
  let y := if Qlt_bool x lo then lo else x in
  if Qlt_bool hi y then hi else y.

(** Nearest integer, ties to the even one. *)
Definition round_half_even (x : Q) : Z :=
  let f := Qfloor x in
  match Qcompare (x - inject_Z f) (1 # 2) with
  | Lt => f
  | Gt => (f + 1)%Z
  | Eq => if Z.even f then f else (f + 1)%Z
  end.

(** [round(x, ndigits)] for a float [x]: the nearest multiple of
    [10 ** -ndigits], ties to even. *)
Definition py_round (x : Q) (ndigits : nat) : Q :=
  let scale := inject_Z (10 ^ Z.of_nat ndigits) in
  inject_Z (round_half_even (x * scale)) / scale.

Fixpoint Qsum (l : list Q) : Q :=
  match l with
  | [] => 0
  | x :: l' => x + Qsum l'
  end.

(** The Python slice [l[-n:]]: the last [n] items, the whole list when
    [n = 0] (since [-0 = 0]) or when [n] exceeds the length. *)
Definition last_n {A : Type} (n : nat) (l : list A) : list A :=
  match n with
  | O => l
  | _ => skipn (length l - n) l
  end.

(** [l[-1]], an [IndexError] on an empty sequence. *)
Definition py_last {A : Type} (l : list A) : option A :=
  nth_error l (length l - 1).

(* ================================================================== *)
(** ** config.py *)

Module config.
Definition INITIAL_BANKROLL : Q := 1000.
Definition KELLY_FRACTION {F} `{PyFloat F} : F := lit 5 10.
Definition MAX_SINGLE_BET_PCT : Q := 5 # 100.
Definition MIN_EDGE_THRESHOLD : Q := 3 # 100.
Definition MAX_OPEN_POSITIONS : nat := 10.
Definition MIN_BET_SIZE_USD : Q := 1.
Definition BTC_RSI_PERIOD : nat := 14.
Definition BTC_RSI_OVERSOLD : Q := 30.
Definition BTC_RSI_OVERBOUGHT : Q := 70.
End config.

(* ================================================================== *)
(** ** risk_manager.py: Kelly criterion *)

Section Kelly.
Context {F : Type} `{PyFloat F}.

(** [RiskManager.kelly_size(our_prob, market_prob, fraction=None)]. *)
Definition kelly_size (our_prob market_prob : F) (fraction : option F) : F :=
  let fraction :=
    match fraction with
    | None => config.KELLY_FRACTION
    | Some f => f
    end in
  if fle market_prob (lit 0 1) || fle (lit 1 1) market_prob
     || fle our_prob (lit 0 1) || fle (lit 1 1) our_prob
  then lit 0 1
  else
    let b := fsub (fdiv (lit 1 1) market_prob) (lit 1 1) in
    if fle b (lit 0 1) then lit 0 1
    else
      let p := our_prob in
      let q := fsub (lit 1 1) p in
      let kelly_full := fdiv (fsub (fmul p b) q) b in
      if fle kelly_full (lit 0 1) then lit 0 1
      else fmul kelly_full fraction.

(** The intermediate values of [kelly_size], for statements about them. *)
Definition net_odds (market_prob : F) : F :=
  fsub (fdiv (lit 1 1) market_prob) (lit 1 1).

Definition kelly_full (our_prob market_prob : F) : F :=
  let b := net_odds market_prob in
  fdiv (fsub (fmul our_prob b) (fsub (lit 1 1) our_prob)) b.
End Kelly.

(* ================================================================== *)
(** ** Python values, exceptions and formatting *)

Local Open Scope string_scope.

Inductive PyExc : Type :=
| IndexError
| TypeError
| AttributeError
| ZeroDivisionError
| ImportError.

(** The result of evaluating a Python expression or call. *)
Inductive outcome (A : Type) : Type :=
| Return (a : A)
| Raise (e : PyExc).
Arguments Return {A} a.
Arguments Raise {A} e.

(** What [json.dump] writes and [json.load] reads back.  Objects keep
    their keys in insertion order, as Python dicts do. *)
Inductive json : Type :=
| JNull
| JBool (b : bool)
| JNum (x : Q)
| JStr (s : string)
| JList (l : list json)
| JDict (kv : list (string * json)).

(** [d.get(key)]. *)
Fixpoint dict_get (key : string) (kv : list (string * json)) : option json :=
  match kv with
  | [] => None
  | (k, v) :: kv' => if String.eqb k key then Some v else dict_get key kv'
  end.

(** [d[key] = v]: an existing key keeps its place, a new one goes last. *)
Fixpoint dict_set (key : string) (v : json) (kv : list (string * json))
  : list (string * json) :=
  match kv with
  | [] => [(key, v)]
  | (k, v0) :: kv' =>
      if String.eqb k key then (k, v) :: kv' else (k, v0) :: dict_set key v kv'
  end.

(** [d.update(extra)]. *)
Definition dict_update (kv extra : list (string * json)) : list (string * json) :=
  fold_left (fun d '(k, v) => dict_set k v d) extra kv.

Definition decimal (z : Z) : string :=
  NilZero.string_of_uint (N.to_uint (Z.to_N z)).

Fixpoint zeros (n : nat) : string :=
  match n with
  | O => ""
  | S n' => "0" ++ zeros n'
  end.

(** [s.zfill(width)] for an unsigned numeral [s]. *)
Definition zfill (width : nat) (s : string) : string :=
  zeros (width - String.length s)%nat ++ s.

(** [f"{x:.<digits>f}"]: fixed point, rounded half to even, the sign
    of [x] kept even when the digits are all zero. *)
Definition format_fixed (digits : nat) (x : Q) : string :=
  let scale := (10 ^ Z.of_nat digits)%Z in
  let n := round_half_even (Qabs x * inject_Z scale) in
  (if Qlt_bool x 0 then "-" else "")
    ++ decimal (n / scale)
    ++ match digits with
       | O => ""
       | _ => "." ++ zfill digits (decimal (n mod scale))
       end.

(* ================================================================== *)
(** ** risk_manager.py: the ledger *)

Record Position : Type := {
  market_id : string;
  market_question : string;
  token_id : string;
  side : string;
  entry_price : Q;
  size_usd : Q;
  shares : Q;
  our_probability : Q;
  market_probability : Q;
  edge : Q;
  kelly_fraction : Q;
  strategy : string;
  reasoning : string;
  timestamp : string;
  status : string
}.

Definition set_timestamp (p : Position) (t : string) : Position :=
  {| market_id := market_id p; market_question := market_question p;
     token_id := token_id p; side := side p; entry_price := entry_price p;
     size_usd := size_usd p; shares := shares p;
     our_probability := our_probability p;
     market_probability := market_probability p; edge := edge p;
     kelly_fraction := kelly_fraction p; strategy := strategy p;
     reasoning := reasoning p; timestamp := t; status := status p |}.

Definition set_status (p : Position) (st : string) : Position :=
  {| market_id := market_id p; market_question := market_question p;
     token_id := token_id p; side := side p; entry_price := entry_price p;
     size_usd := size_usd p; shares := shares p;
     our_probability := our_probability p;
     market_probability := market_probability p; edge := edge p;
     kelly_fraction := kelly_fraction p; strategy := strategy p;
     reasoning := reasoning p; timestamp := timestamp p; status := st |}.

(** The attributes of a [RiskManager] instance. *)
Record RiskManager : Type := {
  bankroll : Q;
  positions : list Position;
  trade_history : list json
}.

(** Everything the ledger code reads or writes: the manager object, the
    snapshot [logs/state.json] (absent until first written), the lines of
    [logs/trades.jsonl], and the clock.  [utc_now n] is what the [n]-th
    evaluation of [datetime.now(timezone.utc).isoformat()] returns. *)
Record World : Type := {
  self : RiskManager;
  state_file : option json;
  trade_log : list json;
  utc_now : nat -> string;
  clock_reads : nat
}.

(** State and exceptions: a raised exception keeps the effects that
    happened before it. *)
Definition M (A : Type) : Type := World -> outcome A * World.

Definition ret {A : Type} (a : A) : M A := fun w => (Return a, w).

Definition raise {A : Type} (e : PyExc) : M A := fun w => (Raise e, w).

Definition bind {A B : Type} (m : M A) (k : A -> M B) : M B :=
  fun w =>
    match m w with
    | (Return a, w') => k a w'
    | (Raise e, w') => (Raise e, w')
    end.

Declare Scope py_scope.
Delimit Scope py_scope with py.
Notation "x <- m ;; k" := (bind m (fun x => k))
  (at level 61, m at next level, right associativity) : py_scope.
Notation "m ;; k" := (bind m (fun _ => k))
  (at level 61, right associativity) : py_scope.
Local Open Scope py_scope.

(** [try: body / except Exception: pass]. *)
Definition try_except (body : M unit) : M unit :=
  fun w =>
    match body w with
    | (Return _, w') => (Return tt, w')
    | (Raise _, w') => (Return tt, w')
    end.

Definition get_self : M RiskManager := fun w => (Return (self w), w).

Definition put_self (rm : RiskManager) : M unit :=
  fun w =>
    (Return tt,
     {| self := rm; state_file := state_file w; trade_log := trade_log w;
        utc_now := utc_now w; clock_reads := clock_reads w |}).

Definition set_bankroll (b : Q) : M unit :=
  rm <- get_self ;;
  put_self {| bankroll := b; positions := positions rm;
              trade_history := trade_history rm |}.

Definition set_positions (ps : list Position) : M unit :=
  rm <- get_self ;;
  put_self {| bankroll := bankroll rm; positions := ps;
              trade_history := trade_history rm |}.

Definition set_trade_history (h : list json) : M unit :=
  rm <- get_self ;;
  put_self {| bankroll := bankroll rm; positions := positions rm;
              trade_history := h |}.

(** [datetime.now(timezone.utc).isoformat()]. *)
Definition now_isoformat : M string :=
  fun w =>
    (Return (utc_now w (clock_reads w)),
     {| self := self w; state_file := state_file w; trade_log := trade_log w;
        utc_now := utc_now w; clock_reads := S (clock_reads w) |}).

Definition read_state_file : M (option json) :=
  fun w => (Return (state_file w), w).

Definition write_state_file (j : json) : M unit :=
  fun w =>
    (Return tt,
     {| self := self w; state_file := Some j; trade_log := trade_log w;
        utc_now := utc_now w; clock_reads := clock_reads w |}).

Definition append_trade_log (j : json) : M unit :=
  fun w =>
    (Return tt,
     {| self := self w; state_file := state_file w;
        trade_log := trade_log w ++ [j];
        utc_now := utc_now w; clock_reads := clock_reads w |}).

(** [dataclasses.asdict(position)]. *)
Definition asdict (p : Position) : json :=
  JDict [("market_id", JStr (market_id p));
         ("market_question", JStr (market_question p));
         ("token_id", JStr (token_id p));
         ("side", JStr (side p));
         ("entry_price", JNum (entry_price p));
         ("size_usd", JNum (size_usd p));
         ("shares", JNum (shares p));
         ("our_probability", JNum (our_probability p));
         ("market_probability", JNum (market_probability p));
         ("edge", JNum (edge p));
         ("kelly_fraction", JNum (kelly_fraction p));
         ("strategy", JStr (strategy p));
         ("reasoning", JStr (reasoning p));
         ("timestamp", JStr (timestamp p));
         ("status", JStr (status p))].

Definition Position_fields : list string :=
  ["market_id"; "market_question"; "token_id"; "side"; "entry_price";
   "size_usd"; "shares"; "our_probability"; "market_probability"; "edge";
   "kelly_fraction"; "strategy"; "reasoning"; "timestamp"; "status"].

(** A keyword argument of the [Position] constructor.  A missing argument without
    a default is a [TypeError].  The record is typed here, the dataclass
    is not: a JSON value of another shape than the field's, which CPython
    would store as it is, is rendered as a [TypeError] as well.  The
    ledger never writes such a value. *)
Definition kw_str (key : string) (default : option string)
    (kw : list (string * json)) : outcome string :=
  match dict_get key kw with
  | Some (JStr s) => Return s
  | Some _ => Raise TypeError
  | None =>
      match default with
      | Some d => Return d
      | None => Raise TypeError
      end
  end.

Definition kw_num (key : string) (kw : list (string * json)) : outcome Q :=
  match dict_get key kw with
  | Some (JNum x) => Return x
  | _ => Raise TypeError
  end.

Definition outcome_bind {A B : Type} (o : outcome A) (k : A -> outcome B)
  : outcome B :=
  match o with
  | Return a => k a
  | Raise e => Raise e
  end.

Notation "x <-- o ;; k" := (outcome_bind o (fun x => k))
  (at level 61, o at next level, right associativity) : py_scope.

(** The generated [Position.__init__]: binds the keyword arguments to
    the fields, [timestamp] and [status] defaulting to [""] and
    ["open"]; an unexpected keyword is a [TypeError]. *)
Definition Position_init (kw : list (string * json)) : outcome Position :=
  if negb (forallb (fun '(k, _) => existsb (String.eqb k) Position_fields) kw)
  then Raise TypeError
  else
    a1 <-- kw_str "market_id" None kw ;;
    a2 <-- kw_str "market_question" None kw ;;
    a3 <-- kw_str "token_id" None kw ;;
    a4 <-- kw_str "side" None kw ;;
    a5 <-- kw_num "entry_price" kw ;;
    a6 <-- kw_num "size_usd" kw ;;
    a7 <-- kw_num "shares" kw ;;
    a8 <-- kw_num "our_probability" kw ;;
    a9 <-- kw_num "market_probability" kw ;;
    a10 <-- kw_num "edge" kw ;;
    a11 <-- kw_num "kelly_fraction" kw ;;
    a12 <-- kw_str "strategy" None kw ;;
    a13 <-- kw_str "reasoning" None kw ;;
    a14 <-- kw_str "timestamp" (Some "") kw ;;
    a15 <-- kw_str "status" (Some "open") kw ;;
    Return {| market_id := a1; market_question := a2; token_id := a3;
              side := a4; entry_price := a5; size_usd := a6; shares := a7;
              our_probability := a8; market_probability := a9; edge := a10;
              kelly_fraction := a11; strategy := a12; reasoning := a13;
              timestamp := a14; status := a15 |}.

(** [Position.__post_init__]: an unset timestamp is stamped from the clock. *)
Definition __post_init__ (p : Position) : M Position :=
  if String.eqb (timestamp p) ""
  then t <- now_isoformat ;; ret (set_timestamp p t)
  else ret p.

(** The constructor call [Position] with the keywords of a dict. *)
Definition new_Position (kw : list (string * json)) : M Position :=
  match Position_init kw with
  | Return p => __post_init__ p
  | Raise e => raise e
  end.

Definition is_open (p : Position) : bool := String.eqb (status p) "open".

(** [RiskManager.calculate_bet_size(our_prob, market_prob, strategy)]:
    the triple [(bet_size_usd, kelly_fraction, rejection_reason)]. *)
Definition calculate_bet_size (our_prob market_prob : Q) (strategy : string)
  : M (Q * Q * string) :=
  let edge := our_prob - market_prob in
  if Qlt_bool edge config.MIN_EDGE_THRESHOLD
  then ret (0, 0, "Edge " ++ format_fixed 3 edge ++ " below threshold 0.03")
  else
    let kf := kelly_size our_prob market_prob None in
    if Qle_bool kf 0
    then ret (0, 0, "Kelly says don't bet (negative EV)")
    else
      rm <- get_self ;;
      let bet_usd := bankroll rm * kf in
      let max_bet := bankroll rm * config.MAX_SINGLE_BET_PCT in
      let bet_usd := if Qlt_bool max_bet bet_usd then max_bet else bet_usd in
      if Qlt_bool bet_usd config.MIN_BET_SIZE_USD
      then ret (0, kf, "Bet size $" ++ format_fixed 2 bet_usd
                         ++ " below minimum $1.0")
      else
        let open_positions := filter is_open (positions rm) in
        if (config.MAX_OPEN_POSITIONS <=? length open_positions)%nat
        then ret (0, kf, "Max open positions (10) reached")
        else
          let total_exposure := Qsum (map size_usd open_positions) in
          if Qlt_bool (bankroll rm * (1 # 2)) (total_exposure + bet_usd)
          then
            let remaining := bankroll rm * (1 # 2) - total_exposure in
            if Qlt_bool remaining config.MIN_BET_SIZE_USD
            then ret (0, kf, "Total exposure would exceed 50% of bankroll")
            else ret (py_round (py_min bet_usd remaining) 2, kf, "")
          else ret (py_round bet_usd 2, kf, "").

(** [RiskManager._log_trade(action, position, extra)]. *)
Definition _log_trade (action : string) (position : Position)
    (extra : option (list (string * json))) : M unit :=
  t <- now_isoformat ;;
  let record := [("action", JStr action); ("timestamp", JStr t);
                 ("position", asdict position)] in
  let record :=
    match extra with
    | None | Some [] => record
    | Some e => dict_update record e
    end in
  append_trade_log (JDict record).

(** [RiskManager._save_state()]: [snapshot] is its [state] dict.  The
    file is kept as the JSON value that [json.dump] serialises;
    [json.load] of that text yields the same value. *)
Definition snapshot (rm : RiskManager) : json :=
  JDict [("bankroll", JNum (bankroll rm));
         ("positions", JList (map asdict (positions rm)));
         ("trade_history", JList (trade_history rm))].

Definition _save_state : M unit :=
  rm <- get_self ;;
  write_state_file (snapshot rm).

Fixpoint mapM {A B : Type} (f : A -> M B) (l : list A) : M (list B) :=
  match l with
  | [] => ret []
  | x :: l' => y <- f x ;; ys <- mapM f l' ;; ret (y :: ys)
  end.

(** What [for p in v] runs over when every item must then be a mapping:
    a list gives its items; an empty string or dict gives nothing; any
    other value fails, at the loop or at the first [Position] call. *)
Definition iter_items (v : json) : M (list json) :=
  match v with
  | JList l => ret l
  | JStr "" => ret []
  | JDict [] => ret []
  | _ => raise TypeError
  end.

Definition Position_of_json (p : json) : M Position :=
  match p with
  | JDict kw => new_Position kw
  | _ => raise TypeError
  end.

(** [RiskManager._load_state()]. *)
Definition _load_state : M unit :=
  f <- read_state_file ;;
  match f with
  | None => ret tt
  | Some state =>
      try_except
        (kv <- match state with
               | JDict kv => ret kv
               | _ => raise AttributeError
               end ;;
         rm <- get_self ;;
         b <- match dict_get "bankroll" kv with
              | None => ret (bankroll rm)
              | Some (JNum x) => ret x
              | Some _ => raise TypeError
              end ;;
         set_bankroll b ;;
         items <- iter_items match dict_get "positions" kv with
                             | None => JList []
                             | Some v => v
                             end ;;
         ps <- mapM Position_of_json items ;;
         set_positions ps ;;
         h <- match dict_get "trade_history" kv with
              | None => ret []
              | Some (JList l) => ret l
              | Some _ => raise TypeError
              end ;;
         set_trade_history h)
  end.

(** [RiskManager.__init__(bankroll=None)]. *)
Definition __init__ (bankroll : option Q) : M unit :=
  let b :=
    match bankroll with
    | None => config.INITIAL_BANKROLL
    | Some b => if Qeq_bool b 0 then config.INITIAL_BANKROLL else b
    end in
  put_self {| bankroll := b; positions := []; trade_history := [] |} ;;
  _load_state.

(** [RiskManager.open_position(...)]. *)
Definition open_position (market_id market_question token_id side : string)
    (entry_price size_usd our_prob market_prob : Q)
    (strategy reasoning : string) : M Position :=
  let shares := if Qlt_bool 0 entry_price then size_usd / entry_price else 0 in
  let edge := our_prob - market_prob in
  let kf := kelly_size our_prob market_prob None in
  pos <- __post_init__
           {| market_id := market_id; market_question := market_question;
              token_id := token_id; side := side; entry_price := entry_price;
              size_usd := size_usd; shares := shares;
              our_probability := our_prob; market_probability := market_prob;
              edge := edge; kelly_fraction := kf; strategy := strategy;
              reasoning := reasoning; timestamp := ""; status := "open" |} ;;
  rm <- get_self ;;
  set_positions (positions rm ++ [pos]) ;;
  rm <- get_self ;;
  set_bankroll (bankroll rm - size_usd) ;;
  _log_trade "OPEN" pos None ;;
  _save_state ;;
  ret pos.

(** The [Position] object handed to [close_position]: the one held at
    [self.positions[i]], or an object that is not in the list. *)
Inductive PosRef : Type :=
| Held (i : nat)
| Detached (p : Position).

Fixpoint list_set {A : Type} (i : nat) (x : A) (l : list A) : list A :=
  match l, i with
  | [], _ => []
  | _ :: l', O => x :: l'
  | y :: l', S i' => y :: list_set i' x l'
  end.

Definition deref (r : PosRef) : M Position :=
  match r with
  | Held i =>
      rm <- get_self ;;
      match nth_error (positions rm) i with
      | Some p => ret p
      | None => raise IndexError
      end
  | Detached p => ret p
  end.

(** An attribute assignment through the reference: a held object changes
    inside [self.positions]. *)
Definition assign (r : PosRef) (p : Position) : M unit :=
  match r with
  | Held i => rm <- get_self ;; set_positions (list_set i p (positions rm))
  | Detached _ => ret tt
  end.

(** [RiskManager.close_position(position, exit_price, pnl, reason)]. *)
Definition close_position (position : PosRef) (exit_price pnl : Q)
    (reason : string) : M unit :=
  p <- deref position ;;
  let p := set_status p "closed" in
  assign position p ;;
  rm <- get_self ;;
  set_bankroll (bankroll rm + (size_usd p + pnl)) ;;
  t <- now_isoformat ;;
  let record := JDict [("action", JStr "CLOSE"); ("reason", JStr reason);
                       ("exit_price", JNum exit_price); ("pnl", JNum pnl);
                       ("position", asdict p); ("timestamp", JStr t)] in
  rm <- get_self ;;
  set_trade_history (trade_history rm ++ [record]) ;;
  _log_trade "CLOSE" p (Some [("pnl", JNum pnl); ("reason", JStr reason)]) ;;
  _save_state.

(** A call on the ledger, and a sequence of calls run in order.  A call
    whose [Held i] does not name a position stops the run with the
    [IndexError] the caller's [positions[i]] raises. *)
Inductive Call : Type :=
| Open (market_id market_question token_id side : string)
       (entry_price size_usd our_prob market_prob : Q)
       (strategy reasoning : string)
| Close (position : PosRef) (exit_price pnl : Q) (reason : string).

Definition call (c : Call) : M unit :=
  match c with
  | Open a1 a2 a3 a4 a5 a6 a7 a8 a9 a10 =>
      open_position a1 a2 a3 a4 a5 a6 a7 a8 a9 a10 ;; ret tt
  | Close r x pnl reason => close_position r x pnl reason
  end.

Fixpoint run (cs : list Call) : M unit :=
  match cs with
  | [] => ret tt
  | c :: cs' => call c ;; run cs'
  end.

(** The stake a call debits, and the amount it credits: for a close, the
    stake of the position it is handed, read in the world of the call. *)
Definition stake_opened (c : Call) : Q :=
  match c with
  | Open _ _ _ _ _ size_usd _ _ _ _ => size_usd
  | Close _ _ _ _ => 0
  end.

Definition credit_closed (c : Call) (w : World) : Q :=
  match c with
  | Open _ _ _ _ _ _ _ _ _ _ => 0
  | Close r _ pnl _ =>
      match fst (deref r w) with
      | Return p => size_usd p + pnl
      | Raise _ => 0
      end
  end.

Fixpoint stakes_opened (cs : list Call) : Q :=
  match cs with
  | [] => 0
  | c :: cs' => stake_opened c + stakes_opened cs'
  end.

Fixpoint credits_closed (cs : list Call) (w : World) : Q :=
  match cs with
  | [] => 0
  | c :: cs' => credit_closed c w + credits_closed cs' (snd (call c w))
  end.

(** Every [Held i] of the sequence names a position held when its call runs. *)
Fixpoint well_referenced (cs : list Call) (held : nat) : bool :=
  match cs with
  | [] => true
  | Open _ _ _ _ _ _ _ _ _ _ :: cs' => well_referenced cs' (S held)
  | Close (Held i) _ _ _ :: cs' => (i <? held)%nat && well_referenced cs' held
  | Close (Detached _) _ _ _ :: cs' => well_referenced cs' held
  end.

(* ================================================================== *)
(** ** btc_strategy.py *)

(** The library functions the strategies call.  [scipy_installed] tells
    whether [from scipy.stats import norm] succeeds. *)
Class SciLibs : Type := {
  scipy_installed : bool;
  norm_cdf : Q -> Q;
  np_sqrt : Q -> Q;
  np_exp : Q -> Q;
  np_log : Q -> Q
}.

(** [np.mean]; [None] stands for the [nan] it gives on an empty array. *)
Definition np_mean (l : list Q) : option Q :=
  match l with
  | [] => None
  | _ => Some (Qsum l / inject_Z (Z.of_nat (length l)))
  end.

(** [np.diff]. *)
Fixpoint np_diff (l : list Q) : list Q :=
  match l with
  | x :: ((y :: _) as l') => (y - x) :: np_diff l'
  | _ => []
  end.

(** Elementwise arithmetic on arrays of one shape. *)
Fixpoint zip_with {A B C : Type} (f : A -> B -> C) (l1 : list A) (l2 : list B)
  : list C :=
  match l1, l2 with
  | x :: l1', y :: l2' => f x y :: zip_with f l1' l2'
  | _, _ => []
  end.

Module btc_strategy.

(** A kline row; the columns past [volume] are not read. *)
Record Bar : Type := {
  open_time : Q;
  open_ : Q;
  high : Q;
  low : Q;
  close : Q;
  volume : Q
}.

(** An entry of [get_recent_trades], [qty] already a number. *)
Record TradePrint : Type := {
  qty : Q;
  isBuyerMaker : bool
}.

Record Components : Type := {
  c_rsi : Q;
  c_vwap_deviation : Q;
  c_volatility : Q;
  c_momentum : Q;
  c_order_flow : Q
}.

(** [BTCSignal], without the market's identifiers and the rationale
    text, which are copied or formatted from the other fields. *)
Record BTCSignal : Type := {
  target_price : Q;
  direction : string;
  current_price : Q;
  our_probability : Q;
  market_probability : Q;
  edge : Q;
  recommended_side : string;
  components : Components
}.

(** [_calculate_rsi(closes, period)]; [None] is a [nan] result. *)
Definition _calculate_rsi (closes : list Q) (period : nat) : option Q :=
  if (length closes <? period + 1)%nat then Some 50
  else
    let deltas := np_diff closes in
    let gains := map (fun d => if Qlt_bool 0 d then d else 0) deltas in
    let losses := map (fun d => if Qlt_bool d 0 then - d else 0) deltas in
    match np_mean (last_n period gains), np_mean (last_n period losses) with
    | Some avg_gain, Some avg_loss =>
        if Qeq_bool avg_loss 0 then Some 100
        else
          let rs := avg_gain / avg_loss in
          Some (100 - 100 / (1 + rs))
    | _, _ => None
    end.

(** [_calculate_vwap(highs, lows, closes, volumes)], the four arrays
    being columns of one kline table. *)
Definition _calculate_vwap (highs lows closes volumes : list Q) : outcome Q :=
  let typical_price :=
    map (fun s => s / 3) (zip_with Qplus (zip_with Qplus highs lows) closes) in
  let n := Nat.min 60 (length typical_price) in
  let tp := last_n n typical_price in
  let vol := last_n n volumes in
  let total_vol := Qsum vol in
  if Qeq_bool total_vol 0
  then match py_last closes with
       | Some c => Return c
       | None => Raise IndexError
       end
  else Return (Qsum (zip_with Qmult tp vol) / total_vol).

(** [(current_price - vwap) / vwap if vwap > 0 else 0]. *)
Definition vwap_deviation_of (current_price vwap : Q) : Q :=
  if Qlt_bool 0 vwap then (current_price - vwap) / vwap else 0.

(** [_analyze_order_flow(trades)]. *)
Definition _analyze_order_flow (trades : list TradePrint) : Q :=
  match trades with
  | [] => 0
  | _ =>
      let '(buy_volume, sell_volume) :=
        fold_left
          (fun '(b, s) t =>
             if isBuyerMaker t then (b, s + qty t) else (b + qty t, s))
          trades (0, 0) in
      let total := buy_volume + sell_volume in
      if Qeq_bool total 0 then 0 else (buy_volume - sell_volume) / total
  end.

(** [_calculate_momentum(closes, lookback)].  Both lookups succeed once
    the length test has passed.  A zero reference close, where numpy
    divides to [inf] or [nan], is outside the rationals ([x / 0] is 0
    in [Q]). *)
Definition _calculate_momentum (closes : list Q) (lookback : nat) : Q :=
  if (length closes <? lookback + 1)%nat then 0
  else
    match py_last closes, nth_error closes (length closes - (lookback + 1)) with
    | Some c, Some c0 => (c - c0) / c0
    | _, _ => 0
    end.

Section WithLibs.
Context {libs : SciLibs}.

(** [np.std]: the root of the mean squared deviation from the mean. *)
Definition np_std (l : list Q) : option Q :=
  match np_mean l with
  | None => None
  | Some m =>
      match np_mean (map (fun x => (x - m) * (x - m)) l) with
      | None => None
      | Some v => Some (np_sqrt v)
      end
  end.

(** [_calculate_volatility(closes, lookback)].  [returns] holds
    [lookback >= 2] items where [np.std] is taken, so its [nan] case is
    not reached. *)
Definition _calculate_volatility (closes : list Q) (lookback : nat) : Q :=
  let lookback :=
    if (length closes <? lookback + 1)%nat
    then (Z.of_nat (length closes) - 1)%Z
    else Z.of_nat lookback in
  if (lookback <? 2)%Z then 1 # 1000
  else
    let returns :=
      np_diff (map np_log (last_n (Z.to_nat (lookback + 1)) closes)) in
    match np_std returns with
    | Some s => s
    | None => 1 # 1000
    end.

(** [_estimate_probability(...)].  [current_price] is a Python float,
    so dividing by a zero price raises. *)
Definition _estimate_probability (current_price target_price : Q)
    (direction : string)
    (rsi vwap_deviation volatility momentum order_flow : Q) : outcome Q :=
  if Qeq_bool current_price 0 then Raise ZeroDivisionError
  else
    let distance := (target_price - current_price) / current_price in
    let expected_move := volatility * np_sqrt 15 in
    let expected_move :=
      if Qlt_bool expected_move (1 # 10000) then 1 # 10000
      else expected_move in
    let above := String.eqb direction "above" in
    base_prob <--
      (if above then
         let z_score := distance / expected_move in
         if scipy_installed then Return (1 - norm_cdf z_score)
         else Raise ImportError
       else
         let z_score := - distance / expected_move in
         if scipy_installed then Return (1 - norm_cdf z_score)
         else Return (1 / (1 + np_exp (z_score * 2)))) ;;
    let adjustment := 0 in
    let adjustment :=
      if Qlt_bool rsi config.BTC_RSI_OVERSOLD then
        let rsi_adj :=
          (5 # 100) * (config.BTC_RSI_OVERSOLD - rsi)
          / config.BTC_RSI_OVERSOLD in
        adjustment + (if above then rsi_adj else - rsi_adj)
      else if Qlt_bool config.BTC_RSI_OVERBOUGHT rsi then
        let rsi_adj :=
          (5 # 100) * (rsi - config.BTC_RSI_OVERBOUGHT)
          / (100 - config.BTC_RSI_OVERBOUGHT) in
        adjustment + (if above then - rsi_adj else rsi_adj)
      else adjustment in
    let adjustment :=
      if Qlt_bool (1 # 1000) (Qabs vwap_deviation) then
        let vwap_adj := - vwap_deviation * (5 # 10) in
        adjustment + (if above then vwap_adj else - vwap_adj)
      else adjustment in
    let mom_adj := momentum * 10 in
    let adjustment := adjustment + (if above then mom_adj else - mom_adj) in
    let flow_adj := order_flow * (3 # 100) in
    let adjustment := adjustment + (if above then flow_adj else - flow_adj) in
    Return (np_clip (base_prob + adjustment) (2 # 100) (98 # 100)).

(** [analyze_market(market, market_probability)], from the parsed
    question and the feed's answers: [parsed] is the result of
    [_parse_btc_market], [price], [klines] and [trades] what
    [get_current_price], [get_klines] and [get_recent_trades] return. *)
Definition analyze_market (parsed : option (Q * string))
    (price : option Q) (klines : option (list Bar))
    (trades : option (list TradePrint)) (market_probability : Q)
  : outcome (option BTCSignal) :=
  match parsed, price, klines with
  | None, _, _ | _, None, _ | _, _, None => Return None
  | Some (target_price, direction), Some current_price, Some klines =>
      if (length klines <? 20)%nat then Return None
      else
        let closes := map close klines in
        let highs := map high klines in
        let lows := map low klines in
        let volumes := map volume klines in
        match _calculate_rsi closes config.BTC_RSI_PERIOD with
        | None => Return None (* nan: not reached, see [rsi_defined] *)
        | Some rsi =>
            vwap <-- _calculate_vwap highs lows closes volumes ;;
            let vwap_deviation := vwap_deviation_of current_price vwap in
            let volatility := _calculate_volatility closes 20 in
            let momentum := _calculate_momentum closes 10 in
            let order_flow :=
              match trades with
              | None | Some [] => 0
              | Some ts => _analyze_order_flow ts
              end in
            our_prob <--
              _estimate_probability current_price target_price direction
                rsi vwap_deviation volatility momentum order_flow ;;
            let edge := our_prob - market_probability in
            let '(recommended_side, our_prob, market_probability, edge) :=
              if Qlt_bool 0 edge
              then ("YES", our_prob, market_probability, edge)
              else if Qlt_bool config.MIN_EDGE_THRESHOLD
                        ((1 - our_prob) - (1 - market_probability))
              then ("NO", 1 - our_prob, 1 - market_probability,
                    (1 - our_prob) - (1 - market_probability))
              else ("YES", our_prob, market_probability, edge) in
            Return
              (Some {| target_price := target_price;
                       direction := direction;
                       current_price := current_price;
                       our_probability := our_prob;
                       market_probability := market_probability;
                       edge := edge;
                       recommended_side := recommended_side;
                       components :=
                         {| c_rsi := rsi;
                            c_vwap_deviation := vwap_deviation;
                            c_volatility := volatility;
                            c_momentum := momentum;
                            c_order_flow := order_flow |} |})
        end
  end.
End WithLibs.
End btc_strategy.

(* ================================================================== *)
(** ** weather_strategy.py *)

(** [needle in hay] on strings. *)
Fixpoint str_contains (needle hay : string) : bool :=
  String.prefix needle hay
  || match hay with
     | EmptyString => false
     | String _ hay' => str_contains needle hay'
     end.

(** [max(l)] and [min(l)] of a sequence, [None] (a [ValueError]) when empty. *)
Definition py_max_list (l : list Q) : option Q :=
  match l with
  | [] => None
  | x :: l' => Some (fold_left py_max l' x)
  end.

Definition py_min_list (l : list Q) : option Q :=
  match l with
  | [] => None
  | x :: l' => Some (fold_left py_min l' x)
  end.

Module weather_strategy.

(** [WeatherSignal], without the market's identifiers, the rationale
    text and the echoed forecast data. *)
Record WeatherSignal : Type := {
  our_probability : Q;
  market_probability : Q;
  edge : Q;
  recommended_side : string;
  market_type : string
}.

(** An entry of [get_precipitation_forecast]. *)
Record PrecipHour : Type := {
  time : string;
  probability : Q;
  amount_mm : Q
}.

(** The lines that close each of the three analyses: the edge, the
    side ("YES" if edge > 0 else "NO"), the complement taken on the
    "NO" side, and the signal built from them. *)
Definition emit_signal (market_type : string) (our_prob market_prob : Q)
  : WeatherSignal :=
  let edge := our_prob - market_prob in
  let recommended_side := if Qlt_bool 0 edge then "YES" else "NO" in
  if String.eqb recommended_side "NO"
  then {| our_probability := 1 - our_prob;
          market_probability := 1 - market_prob;
          edge := (1 - our_prob) - (1 - market_prob);
          recommended_side := recommended_side;
          market_type := market_type |}
  else {| our_probability := our_prob;
          market_probability := market_prob;
          edge := edge;
          recommended_side := recommended_side;
          market_type := market_type |}.

(** The band of the temperature model: the estimate from the forecast
    extremes, the threshold in Celsius and the direction. *)
Definition temperature_probability (max_temp min_temp temp_c : Q)
    (direction : string) : Q :=
  if String.eqb direction "above" || String.eqb direction "hit" then
    if Qlt_bool (temp_c + 2) max_temp then 90 # 100
    else if Qlt_bool temp_c max_temp then
      let margin := (max_temp - temp_c) / 2 in
      (5 # 10) + py_min (margin * (2 # 10)) (4 # 10)
    else if Qlt_bool (temp_c - 2) max_temp then
      let margin := (temp_c - max_temp) / 2 in
      (5 # 10) - py_min (margin * (2 # 10)) (4 # 10)
    else 10 # 100
  else
    if Qlt_bool min_temp (temp_c - 2) then 90 # 100
    else if Qlt_bool min_temp temp_c then
      let margin := (temp_c - min_temp) / 2 in
      (5 # 10) + py_min (margin * (2 # 10)) (4 # 10)
    else if Qlt_bool min_temp (temp_c + 2) then
      let margin := (min_temp - temp_c) / 2 in
      (5 # 10) - py_min (margin * (2 # 10)) (4 # 10)
    else 10 # 100.

(** [_analyze_temperature_market]: [parsed] is the result of
    [_parse_temperature], [forecast] of [get_temperature_forecast],
    [target_date] the parsed date as [strftime("%Y-%m-%d")] prints it. *)
Definition _analyze_temperature_market (parsed : option (Q * string))
    (forecast : option (list (string * Q))) (target_date : option string)
    (market_prob : Q) : option WeatherSignal :=
  match parsed, forecast with
  | None, _ | _, None | _, Some [] => None
  | Some (temp_f, direction), Some forecast =>
      let temp_c := (temp_f - 32) * 5 / 9 in
      let relevant :=
        match target_date with
        | Some d => filter (fun '(t, _) => str_contains d t) forecast
        | None => firstn 48 forecast
        end in
      let temps := map snd relevant in
      match py_max_list temps, py_min_list temps with
      | Some max_temp, Some min_temp =>
          let our_prob :=
            temperature_probability max_temp min_temp temp_c direction in
          Some (emit_signal "temperature" our_prob market_prob)
      | _, _ => None
      end
  end.

(** The estimate of the precipitation model before clipping;
    [threshold_mm] is the result of [_parse_precipitation_threshold]. *)
Definition precipitation_probability (relevant : list PrecipHour)
    (threshold_mm : option Q) : option Q :=
  match py_max_list (map probability relevant),
        np_mean (map probability relevant) with
  | Some max_p, Some avg_p =>
      let max_precip_prob := max_p / 100 in
      let total_precip := Qsum (map amount_mm relevant) in
      let avg_precip_prob := avg_p / 100 in
      let truthy :=
        match threshold_mm with
        | Some t => negb (Qeq_bool t 0)
        | None => false
        end in
      Some
        (match threshold_mm with
         | Some threshold_mm =>
             if truthy then
               if Qlt_bool (threshold_mm * (15 # 10)) total_precip
               then 85 # 100
               else if Qlt_bool threshold_mm total_precip then 65 # 100
               else if Qlt_bool (threshold_mm * (5 # 10)) total_precip
               then 35 # 100
               else 15 # 100
             else max_precip_prob * (7 # 10) + avg_precip_prob * (3 # 10)
         | None => max_precip_prob * (7 # 10) + avg_precip_prob * (3 # 10)
         end)
  | _, _ => None
  end.

(** [_analyze_precipitation_market]. *)
Definition _analyze_precipitation_market
    (forecast : option (list PrecipHour)) (target_date : option string)
    (threshold_mm : option Q) (market_prob : Q) : option WeatherSignal :=
  match forecast with
  | None | Some [] => None
  | Some forecast =>
      let relevant :=
        match target_date with
        | Some d => filter (fun f => str_contains d (time f)) forecast
        | None => firstn 48 forecast
        end in
      match precipitation_probability relevant threshold_mm with
      | None => None
      | Some our_prob =>
          let our_prob := np_clip our_prob (5 # 100) (95 # 100) in
          Some (emit_signal "precipitation" our_prob market_prob)
      end
  end.

(** The estimate of the snow model before clipping; [snow_threshold]
    is the result of [_parse_snow_threshold], in inches. *)
Definition snow_probability (total_snow_cm : Q) (snow_threshold : option Q)
  : Q :=
  let heuristic :=
    if Qlt_bool (5 # 10) total_snow_cm
    then py_min (90 # 100) (total_snow_cm / 5)
    else 10 # 100 in
  match snow_threshold with
  | Some snow_threshold =>
      if negb (Qeq_bool snow_threshold 0) then
        let threshold_cm := snow_threshold * (254 # 100) in
        if Qlt_bool (threshold_cm * (15 # 10)) total_snow_cm then 85 # 100
        else if Qlt_bool threshold_cm total_snow_cm then 60 # 100
        else if Qlt_bool (threshold_cm * (3 # 10)) total_snow_cm
        then 30 # 100
        else 10 # 100
      else heuristic
  | None => heuristic
  end.

(** [_analyze_snow_market]: [hourly] is [forecast["hourly"]] reduced
    to its [time] and [snowfall] series, [None] when the forecast or
    its ["hourly"] entry is missing. *)
Definition _analyze_snow_market (hourly : option (list string * list Q))
    (target_date : option string) (snow_threshold : option Q)
    (market_prob : Q) : option WeatherSignal :=
  match hourly with
  | None | Some (_, []) => None
  | Some (times, snowfall) =>
      let relevant_snow :=
        match target_date with
        | Some d =>
            map snd
              (filter (fun '(t, _) => str_contains d t)
                      (combine times snowfall))
        | None => firstn 48 snowfall
        end in
      let total_snow_cm := Qsum relevant_snow in
      let our_prob := snow_probability total_snow_cm snow_threshold in
      let our_prob := np_clip our_prob (5 # 100) (95 # 100) in
      Some (emit_signal "snow" our_prob market_prob)
  end.
End weather_strategy.

(** The worlds the ledger code can be in: a first start on a disk
    without snapshot, a restart on the disk as the ledger left it, and
    any call on the manager.  [isoformat()] never returns an empty
    string. *)
Inductive reachable : World -> Prop :=
| reach_boot (w0 : World) (bankroll : option Q) :
    state_file w0 = None ->
    (forall n, utc_now w0 n <> "") ->
    reachable (snd (__init__ bankroll w0))
| reach_restart (w : World) (bankroll : option Q) :
    reachable w -> reachable (snd (__init__ bankroll w))
| reach_call (w : World) (c : Call) :
    reachable w -> reachable (snd (call c w))
| reach_sizing (w : World) (our_prob market_prob : Q) (strategy : string) :
    reachable w ->
    reachable (snd (calculate_bet_size our_prob market_prob strategy w)).

(** A world around a manager, nothing on disk yet. *)
Definition fresh_world (rm : RiskManager) : World :=
  {| self := rm; state_file := None; trade_log := [];
     utc_now := fun _ => "2024-01-01T00:00:00+00:00"; clock_reads := 0 |}.

(* ================================================================== *)
(** ** Definitions used by the statements *)

Definition open_exposure (rm : RiskManager) : Q :=
  Qsum (map size_usd (filter is_open (positions rm))).

Definition sample_position (size : Q) (status : string) : Position :=
  {| market_id := "m1"; market_question := "Will BTC be above $97,500?";
     token_id := "t1"; side := "YES"; entry_price := 5 # 10;
     size_usd := size; shares := size / (5 # 10);
     our_probability := 9 # 10; market_probability := 5 # 10;
     edge := 4 # 10; kelly_fraction := 4 # 10; strategy := "btc";
     reasoning := ""; timestamp := "2024-01-01T00:00:00+00:00";
     status := status |}.

(** A bankroll of 100.14 and no position. *)
Definition world_single_cap : World :=
  fresh_world {| bankroll := 10014 # 100; positions := [];
                 trade_history := [] |}.

(** A bankroll of 100.014 and one open position of 47.00. *)
Definition world_exposure_cap : World :=
  fresh_world {| bankroll := 100014 # 1000;
                 positions := [sample_position 47 "open"];
                 trade_history := [] |}.

(** The world after a first start, one position opened and closed. *)
Definition traded_world : World :=
  snd (call (Close (Held 0) (1 # 1) 10 "resolved")
        (snd (call (Open "m1" "Will BTC be above $97,500?" "t1" "YES"
                         (5 # 10) 50 (65 # 100) (5 # 10) "btc" "")
               (snd (__init__ None
                      (fresh_world {| bankroll := 0; positions := [];
                                      trade_history := [] |})))))).

Definition stamped (p : Position) : Prop := timestamp p <> "".

(** What every reachable world satisfies: the held positions carry a
    timestamp, the clock never reads empty, and the state file, if there
    is one, is a snapshot of a manager whose positions carry one. *)
Definition coherent (w : World) : Prop :=
  Forall stamped (positions (self w))
  /\ (forall n, utc_now w n <> "")
  /\ (state_file w = None
      \/ exists rm, state_file w = Some (snapshot rm)
                    /\ Forall stamped (positions rm)).

(** Twenty one-minute bars at 100 with no volume. *)
Definition flat_bars : list btc_strategy.Bar :=
  repeat {| btc_strategy.open_time := 0; btc_strategy.open_ := 100;
            btc_strategy.high := 100; btc_strategy.low := 100;
            btc_strategy.close := 100; btc_strategy.volume := 0 |} 20.

(** Library functions to run the price model on concrete inputs. *)
Definition toy_libs : SciLibs :=
  {| scipy_installed := true;
     norm_cdf := fun _ => 1 # 2;
     np_sqrt := fun x => x;
     np_exp := fun _ => 1;
     np_log := fun x => x |}.

(** The selector in the words of the specification (section 4.4), for
    comparison with the code: the affirmative side on a positive edge;
    otherwise the negative side, complemented, if the complementary edge
    exceeds the minimum-edge threshold; otherwise the affirmative side
    with the original edge.  Result: (side, our, market, edge). *)
Definition spec_edge_side_selector (our_prob market_prob : Q)
  : string * Q * Q * Q :=
  let edge := our_prob - market_prob in
  if Qlt_bool 0 edge then ("YES", our_prob, market_prob, edge)
  else if Qlt_bool config.MIN_EDGE_THRESHOLD
            ((1 - our_prob) - (1 - market_prob))
  then ("NO", 1 - our_prob, 1 - market_prob,
        (1 - our_prob) - (1 - market_prob))
  else ("YES", our_prob, market_prob, edge).

Definition btc_selection (s : btc_strategy.BTCSignal) : string * Q * Q * Q :=
  (btc_strategy.recommended_side s, btc_strategy.our_probability s,
   btc_strategy.market_probability s, btc_strategy.edge s).


(* ================================================================== *)
(** ** risk_manager.py: statistics *)

(** The dict [get_stats] returns. *)
Record Stats : Type := {
  stat_bankroll : Q;
  stat_open_positions : nat;
  stat_total_exposure : Q;
  stat_closed_trades : nat;
  stat_total_pnl : Q;
  stat_win_rate : Q;
  stat_wins : nat;
  stat_losses : nat
}.

(** [t.get("pnl", 0)] read as a number: a record that is no dict has no
    [get], and [None], a string, a list or a dict cannot be added to or
    compared with a number; [True] and [False] count as 1 and 0. *)
Definition record_pnl (t : json) : outcome Q :=
  match t with
  | JDict kv =>
      match dict_get "pnl" kv with
      | None => Return 0
      | Some (JNum x) => Return x
      | Some (JBool b) => Return (if b then 1 else 0)
      | Some _ => Raise TypeError
      end
  | _ => Raise AttributeError
  end.

Fixpoint record_pnls (history : list json) : outcome (list Q) :=
  match history with
  | [] => Return []
  | t :: history' =>
      x <-- record_pnl t ;;
      xs <-- record_pnls history' ;;
      Return (x :: xs)
  end.

Definition is_closed (p : Position) : bool := String.eqb (status p) "closed".

(** [RiskManager.get_stats()]. *)
Definition get_stats : M Stats :=
  rm <- get_self ;;
  let open_pos := filter is_open (positions rm) in
  let closed_pos := filter is_closed (positions rm) in
  match record_pnls (trade_history rm) with
  | Raise e => raise e
  | Return pnls =>
      let total_pnl := Qsum pnls in
      let wins := length (filter (fun x => Qlt_bool 0 x) pnls) in
      let losses := length (filter (fun x => Qle_bool x 0) pnls) in
      ret {| stat_bankroll := bankroll rm;
             stat_open_positions := length open_pos;
             stat_total_exposure := Qsum (map size_usd open_pos);
             stat_closed_trades := length closed_pos;
             stat_total_pnl := total_pnl;
             stat_win_rate :=
               if (0 <? wins + losses)%nat
               then inject_Z (Z.of_nat wins)
                    / inject_Z (Z.of_nat (wins + losses))
               else 0;
             stat_wins := wins;
             stat_losses := losses |}
  end.

(* ================================================================== *)
(** ** bot.py: acting on a signal *)

Module bot.

(** The attributes [_execute_signal] and the scan loops read from a
    signal, whichever strategy produced it. *)
Record Signal : Type := {
  market_id : string;
  market_question : string;
  token_id : string;
  our_probability : Q;
  market_probability : Q;
  edge : Q;
  recommended_side : string;
  reasoning : string
}.

(** [PollyBot._execute_signal(signal, strategy)].  [PAPER_TRADING] is
    [config.PAPER_TRADING], read from the environment; [order_fails]
    tells whether the result of [client.place_market_order] carries an
    ["error"] entry. *)
Definition _execute_signal (PAPER_TRADING : bool)
    (order_fails : string -> string -> Q -> bool)
    (signal : Signal) (strategy : string) : M unit :=
  let market_prob := market_probability signal in
  let our_prob := our_probability signal in
  r <- calculate_bet_size our_prob market_prob strategy ;;
  let '(bet_size, kelly_f, rejection) := r in
  if negb (String.eqb rejection "") then ret tt
  else
    let side := recommended_side signal in
    let entry_price := market_prob in
    if PAPER_TRADING then
      open_position (market_id signal) (market_question signal)
        (token_id signal) side entry_price bet_size our_prob market_prob
        strategy (reasoning signal) ;;
      ret tt
    else if String.eqb (token_id signal) "" then ret tt
    else if order_fails (token_id signal)
              (if String.eqb side "YES" then "BUY" else "SELL") bet_size
    then ret tt
    else
      open_position (market_id signal) (market_question signal)
        (token_id signal) side entry_price bet_size our_prob market_prob
        strategy (reasoning signal) ;;
      ret tt.

(** The body of the loops of [_run_btc_scan] and [_run_weather_scan]
    once a market has been analysed: [None] is a market without price
    or without signal, which the loop skips; a signal is executed when
    [abs(signal.edge) >= MIN_EDGE_THRESHOLD]; an exception ends that
    market only. *)
Definition scan_market (PAPER_TRADING : bool)
    (order_fails : string -> string -> Q -> bool)
    (strategy : string) (analysed : option Signal) : M unit :=
  try_except
    match analysed with
    | None => ret tt
    | Some signal =>
        if Qle_bool config.MIN_EDGE_THRESHOLD (Qabs (edge signal))
        then _execute_signal PAPER_TRADING order_fails signal strategy
        else ret tt
    end.

(** The loop over the markets of one scan. *)
Fixpoint _run_scan (PAPER_TRADING : bool)
    (order_fails : string -> string -> Q -> bool)
    (strategy : string) (analysed : list (option Signal)) : M unit :=
  match analysed with
  | [] => ret tt
  | a :: analysed' =>
      scan_market PAPER_TRADING order_fails strategy a ;;
      _run_scan PAPER_TRADING order_fails strategy analysed'
  end.

End bot.

(* ================================================================== *)
(** ** backtest.py: drawdown *)

(** The loop of [_calc_max_drawdown] from a given peak and maximum.  A
    peak of 0, where the float division gives [nan] or [inf], is outside
    the rationals. *)
Fixpoint drawdown_loop (bankrolls : list Q) (peak max_dd : Q) : Q :=
  match bankrolls with
  | [] => max_dd
  | b :: bankrolls' =>
      let peak := if Qlt_bool peak b then b else peak in
      let dd := (peak - b) / peak in
      let max_dd := if Qlt_bool max_dd dd then dd else max_dd in
      drawdown_loop bankrolls' peak max_dd
  end.

(** [BTCBacktester._calc_max_drawdown(trades)], on the list
    [[t["bankroll"] for t in trades]]. *)
Definition _calc_max_drawdown (bankrolls : list Q) : Q :=
  match bankrolls with
  | [] => 0
  | b0 :: _ => drawdown_loop bankrolls b0 0
  end.

(** A bankroll of 1000 and no position: the end-to-end scenario. *)
Definition world_1000 : World :=
  fresh_world {| bankroll := 1000; positions := []; trade_history := [] |}.

(** Every close of the sequence is handed a held position that is open
    when its call runs. *)
Fixpoint closes_open_positions (cs : list Call) (w : World) : bool :=
  match cs with
  | [] => true
  | c :: cs' =>
      match c with
      | Open _ _ _ _ _ _ _ _ _ _ => true
      | Close (Held i) _ _ _ =>
          match nth_error (positions (self w)) i with
          | Some p => is_open p
          | None => false
          end
      | Close (Detached _) _ _ _ => false
      end
      && closes_open_positions cs' (snd (call c w))
  end.

(** The number of closes among the calls. *)
Definition count_closes (cs : list Call) : nat :=
  length (filter (fun c => match c with Close _ _ _ _ => true | _ => false end)
                 cs).

(** Bankroll plus open stakes minus realised pnl, as [get_stats] reports
    them. *)
Definition equity_balance (st : Stats) : Q :=
  stat_bankroll st + stat_total_exposure st - stat_total_pnl st.

(** What the ledger keeps true of its manager: every position carries a
    timestamp and is open or closed, and every trade-history record has
    a pnl that [get_stats] can read. *)
Definition wellformed (rm : RiskManager) : Prop :=
  Forall stamped (positions rm)
  /\ Forall (fun p => is_open p || is_closed p = true) (positions rm)
  /\ exists ps, record_pnls (trade_history rm) = Return ps.

(** A JSON value that is no object. *)
Definition not_a_dict (j : json) : bool :=
  match j with
  | JDict _ => false
  | _ => true
  end.

(** A JSON value Python cannot iterate over. *)
Definition not_iterable (j : json) : bool :=
  match j with
  | JNull | JBool _ | JNum _ => true
  | _ => false
  end.

(** A manager beside a state file that says bankroll 500 and positions
    null. *)
Definition damaged_world : World :=
  {| self := {| bankroll := 1000; positions := [sample_position 47 "open"];
                trade_history := [] |};
     state_file := Some (JDict [("bankroll", JNum 500); ("positions", JNull)]);
     trade_log := [];
     utc_now := fun _ => "2024-01-01T00:00:00+00:00";
     clock_reads := 0 |}.

(** A signal with an edge of 0.01. *)
Definition weak_signal : bot.Signal :=
  {| bot.market_id := "m1"; bot.market_question := "Will it rain?";
     bot.token_id := "t1"; bot.our_probability := 51 # 100;
     bot.market_probability := 50 # 100; bot.edge := 1 # 100;
     bot.recommended_side := "YES"; bot.reasoning := "" |}.

(* ================================================================== *)
(** ** data_feeds.py: city coordinates *)

Module data_feeds.

(** [CITY_COORDS], in the order the dict literal lists its keys (the
    order [items()] iterates in).  The coordinates are only copied,
    never computed with. *)
Definition CITY_COORDS : list (string * (Q * Q)) :=
  [ ("new york", (407128 # 10000, - (740060 # 10000)));
    ("nyc", (407128 # 10000, - (740060 # 10000)));
    ("los angeles", (340522 # 10000, - (1182437 # 10000)));
    ("la", (340522 # 10000, - (1182437 # 10000)));
    ("chicago", (418781 # 10000, - (876298 # 10000)));
    ("miami", (257617 # 10000, - (801918 # 10000)));
    ("houston", (297604 # 10000, - (953698 # 10000)));
    ("phoenix", (334484 # 10000, - (1120740 # 10000)));
    ("denver", (397392 # 10000, - (1049903 # 10000)));
    ("seattle", (476062 # 10000, - (1223321 # 10000)));
    ("boston", (423601 # 10000, - (710589 # 10000)));
    ("atlanta", (337490 # 10000, - (843880 # 10000)));
    ("washington dc", (389072 # 10000, - (770369 # 10000)));
    ("dc", (389072 # 10000, - (770369 # 10000)));
    ("san francisco", (377749 # 10000, - (1224194 # 10000)));
    ("sf", (377749 # 10000, - (1224194 # 10000)));
    ("dallas", (327767 # 10000, - (967970 # 10000)));
    ("london", (515074 # 10000, - (1278 # 10000)));
    ("paris", (488566 # 10000, 23522 # 10000));
    ("tokyo", (356762 # 10000, 1396503 # 10000)) ].

(** The loop of [find_city_coords] over the entries left. *)
Fixpoint first_city (entries : list (string * (Q * Q))) (text_lower : string)
  : option (Q * Q) :=
  match entries with
  | [] => None
  | (city, coords) :: entries' =>
      if str_contains city text_lower then Some coords
      else first_city entries' text_lower
  end.

(** [find_city_coords(text)]; [lower] is [str.lower]. *)
Definition find_city_coords (lower : string -> string) (text : string)
  : option (Q * Q) :=
  let text_lower := lower text in
  first_city CITY_COORDS text_lower.

End data_feeds.

(* ================================================================== *)
(** ** backtest.py: the simulated trades *)

Module backtest.

(** The entries of a [trades] record that the results are computed
    from. *)
Record Trade : Type := {
  t_our_prob : Q;
  t_market_prob : Q;
  t_edge : Q;
  t_kelly : Q;
  t_bet_size : Q;
  t_won : bool;
  t_pnl : Q;
  t_bankroll : Q
}.

(** What one pass of the inner loop of [run] works from: the estimate
    [_estimate_probability] returned, the draw of
    [np.random.normal(0, 0.05)], the direction tested and whether the
    window closed above the target. *)
Record Candidate : Type := {
  c_our_prob : Q;
  c_noise : Q;
  c_direction : string;
  c_actual_above : bool
}.

(** The local variables of [run] that the loops update. *)
Record Tally : Type := {
  bankroll : Q;
  trades : list Trade;
  wins : nat;
  losses : nat;
  total_pnl : Q
}.

(** One pass of the inner loop from the simulated market probability
    on; [None] is a [continue]. *)
Definition simulate_trade (min_edge : Q) (c : Candidate) (st : Tally)
  : option Tally :=
  let our_prob := c_our_prob c in
  let true_prob := 5 # 10 in
  let market_prob := np_clip (true_prob + c_noise c) (1 # 10) (9 # 10) in
  let edge := our_prob - market_prob in
  if Qlt_bool (Qabs edge) min_edge then None
  else
    let kelly_f := kelly_size our_prob market_prob None in
    if Qle_bool kelly_f 0 then None
    else
      let bet_size :=
        py_min (bankroll st * kelly_f)
               (bankroll st * config.MAX_SINGLE_BET_PCT) in
      if Qlt_bool bet_size config.MIN_BET_SIZE_USD then None
      else
        let bet_on_yes := Qlt_bool 0 edge in
        let outcome_yes :=
          if String.eqb (c_direction c) "above" then c_actual_above c
          else negb (c_actual_above c) in
        let won :=
          (bet_on_yes && outcome_yes) || (negb bet_on_yes && negb outcome_yes) in
        let pnl :=
          if won then
            if bet_on_yes then bet_size * (1 / market_prob - 1)
            else bet_size * (1 / (1 - market_prob) - 1)
          else - bet_size in
        let bankroll' := bankroll st + pnl in
        Some {| bankroll := bankroll';
                trades :=
                  (trades st
                   ++ [{| t_our_prob := our_prob;
                          t_market_prob := market_prob;
                          t_edge := edge;
                          t_kelly := kelly_f;
                          t_bet_size := bet_size;
                          t_won := won;
                          t_pnl := pnl;
                          t_bankroll := bankroll' |}])%list;
                wins := if won then S (wins st) else wins st;
                losses := if won then losses st else S (losses st);
                total_pnl := total_pnl st + pnl |}.

(** The loop over the offsets of one window, with its [break]. *)
Fixpoint offsets_loop (min_edge : Q) (cands : list Candidate) (st : Tally)
  : Tally :=
  match cands with
  | [] => st
  | c :: cands' =>
      match simulate_trade min_edge c st with
      | None => offsets_loop min_edge cands' st
      | Some st' =>
          if Qle_bool (bankroll st') 0 then st'
          else offsets_loop min_edge cands' st'
      end
  end.

(** The loop over the windows, with its [break]. *)
Fixpoint windows_loop (min_edge : Q) (windows : list (list Candidate))
    (st : Tally) : Tally :=
  match windows with
  | [] => st
  | w :: windows' =>
      let st' := offsets_loop min_edge w st in
      if Qle_bool (bankroll st') 0 then st'
      else windows_loop min_edge windows' st'
  end.

(** The loops of [run] from their initial values. *)
Definition run_loops (initial_bankroll min_edge : Q)
    (windows : list (list Candidate)) : Tally :=
  windows_loop min_edge windows
    {| bankroll := initial_bankroll; trades := []; wins := 0; losses := 0;
       total_pnl := 0 |}.

End backtest.

(** The invariant of the two loops. *)
Definition tally_ok (initial : Q) (st : backtest.Tally) : Prop :=
  (backtest.wins st + backtest.losses st = length (backtest.trades st))%nat
  /\ backtest.total_pnl st == backtest.bankroll st - initial
  /\ Forall (fun t => 0 < backtest.t_edge t /\ 19 <= backtest.t_bankroll t)
       (backtest.trades st)
  /\ (0 < initial -> 0 < backtest.bankroll st).

(* ================================================================== *)
(** ** polymarket_client.py: deduplication *)

Module polymarket_client.
Section Deduplicate.
Variables Market Id : Type.

(** [m["id"]], [None] when the key is missing (a [KeyError]). *)
Variable get_id : Market -> option Id.

(** [==] on ids, as the set [seen] tests membership. *)
Variable Id_eqb : Id -> Id -> bool.

(** The loop that closes [find_btc_markets]; [seen] lists the members
    of the set.  [None] is the [KeyError] of a market without id. *)
Fixpoint deduplicate_loop (markets : list Market) (seen : list Id)
    (unique : list Market) : option (list Market) :=
  match markets with
  | [] => Some unique
  | m :: markets' =>
      match get_id m with
      | None => None
      | Some i =>
          if existsb (Id_eqb i) seen
          then deduplicate_loop markets' seen unique
          else deduplicate_loop markets' (i :: seen) (unique ++ [m])%list
      end
  end.

Definition deduplicate (markets : list Market) : option (list Market) :=
  deduplicate_loop markets [] [].

End Deduplicate.
End polymarket_client.

(* ================================================================== *)
(** ** The same lines in the arithmetic CPython runs *)

(** The two updates of [self.bankroll], over either arithmetic:
    [self.bankroll -= size_usd] in [open_position] and
    [self.bankroll += position.size_usd + pnl] in [close_position]. *)
Definition bankroll_after_open {F : Type} `{PyFloat F} (bankroll size_usd : F)
  : F :=
  fsub bankroll size_usd.

Definition bankroll_after_close {F : Type} `{PyFloat F}
    (bankroll size_usd pnl : F) : F :=
  fadd bankroll (fadd size_usd pnl).

(** [RiskManager.__init__(bankroll=None)] with [config.INITIAL_BANKROLL]
    as the attribute read when the constructor runs: [config.py] takes
    it from the environment, 1000 being the default. *)
Definition __init__configured (INITIAL_BANKROLL : Q) (bankroll : option Q)
  : M unit :=
  let b :=
    match bankroll with
    | None => INITIAL_BANKROLL
    | Some b => if Qeq_bool b 0 then INITIAL_BANKROLL else b
    end in
  put_self {| bankroll := b; positions := []; trade_history := [] |} ;;
  _load_state.

Module binary64.

(** What the price model takes from scipy and numpy, on floats.
    [np.sqrt] is the IEEE square root and needs no entry. *)
Record FloatLibs : Type := {
  scipy_installed : bool;
  norm_cdf : float -> float;
  np_exp : float -> float
}.

(** [np.clip(x, lo, hi)] on floats: both comparisons are false on a
    [nan], which is passed through as numpy passes it. *)
Definition np_clip (x lo hi : float) : float :=
  let y := if PrimFloat.ltb x lo then lo else x in
  if PrimFloat.ltb hi y then hi else y.

(** [BTCStrategy._estimate_probability], line by line, on floats. *)
Definition _estimate_probability (libs : FloatLibs)
    (current_price target_price : float) (direction : string)
    (rsi vwap_deviation volatility momentum order_flow : float)
  : outcome float :=
  if PrimFloat.eqb current_price 0%float then Raise ZeroDivisionError
  else
    let distance := ((target_price - current_price) / current_price)%float in
    let expected_move := (volatility * PrimFloat.sqrt 15)%float in
    let expected_move :=
      if PrimFloat.ltb expected_move 0.0001%float then 0.0001%float
      else expected_move in
    let above := String.eqb direction "above" in
    outcome_bind
      (if above then
         let z_score := (distance / expected_move)%float in
         if scipy_installed libs
         then Return (1 - norm_cdf libs z_score)%float
         else Raise ImportError
       else
         let z_score := (- distance / expected_move)%float in
         if scipy_installed libs
         then Return (1 - norm_cdf libs z_score)%float
         else Return (1 / (1 + np_exp libs (z_score * 2)))%float)
      (fun base_prob =>
         let adjustment := 0%float in
         let adjustment :=
           if PrimFloat.ltb rsi 30%float then
             let rsi_adj := (0.05 * (30 - rsi) / 30)%float in
             (adjustment + (if above then rsi_adj else - rsi_adj))%float
           else if PrimFloat.ltb 70%float rsi then
             let rsi_adj := (0.05 * (rsi - 70) / (100 - 70))%float in
             (adjustment + (if above then - rsi_adj else rsi_adj))%float
           else adjustment in
         let adjustment :=
           if PrimFloat.ltb 0.001%float (PrimFloat.abs vwap_deviation) then
             let vwap_adj := (- vwap_deviation * 0.5)%float in
             (adjustment + (if above then vwap_adj else - vwap_adj))%float
           else adjustment in
         let mom_adj := (momentum * 10)%float in
         let adjustment :=
           (adjustment + (if above then mom_adj else - mom_adj))%float in
         let flow_adj := (order_flow * 0.03)%float in
         let adjustment :=
           (adjustment + (if above then flow_adj else - flow_adj))%float in
         Return (np_clip (base_prob + adjustment)%float 0.02%float 0.98%float)).

End binary64.

(* ================================================================== *)
(** * Properties *)

(** ** Comparisons on [Q] *)

Lemma Qlt_bool_iff (x y : Q) : Qlt_bool x y = true <-> x < y.
Proof.
  unfold Qlt_bool. rewrite negb_true_iff.
  split; intro Hxy.
  - apply Qnot_le_lt. intro Hle. apply Qle_bool_iff in Hle. congruence.
  - destruct (Qle_bool y x) eqn:E; [|reflexivity].
    apply Qle_bool_iff in E. exfalso. exact (Qlt_not_le _ _ Hxy E).
Qed.

Lemma Qlt_bool_false (x y : Q) : Qlt_bool x y = false <-> y <= x.
Proof.
  unfold Qlt_bool. rewrite negb_false_iff. apply Qle_bool_iff.
Qed.

Lemma Qle_bool_false (x y : Q) : Qle_bool x y = false <-> y < x.
Proof.
  split; intro Hxy.
  - apply Qnot_le_lt. intro Hle. apply Qle_bool_iff in Hle. congruence.
  - destruct (Qle_bool x y) eqn:E; [|reflexivity].
    apply Qle_bool_iff in E. exfalso. exact (Qlt_not_le _ _ Hxy E).
Qed.

Lemma Qeq_bool_false (x y : Q) : Qeq_bool x y = false <-> ~ x == y.
Proof.
  split.
  - intros E Heq. apply Qeq_bool_iff in Heq. congruence.
  - intro Hne. destruct (Qeq_bool x y) eqn:E; [|reflexivity].
    apply Qeq_bool_iff in E. contradiction.
Qed.

(** Turns the boolean tests in the context into order facts. *)
Ltac qreflect :=
  repeat match goal with
  | E : Qlt_bool _ _ = true |- _ => apply Qlt_bool_iff in E
  | E : Qlt_bool _ _ = false |- _ => apply Qlt_bool_false in E
  | E : Qle_bool _ _ = true |- _ => apply Qle_bool_iff in E
  | E : Qle_bool _ _ = false |- _ => apply Qle_bool_false in E
  | E : Qeq_bool _ _ = true |- _ => apply Qeq_bool_iff in E
  | E : Qeq_bool _ _ = false |- _ => apply Qeq_bool_false in E
  end.


Lemma py_min_cases (a b : Q) :
  (b < a /\ py_min a b = b) \/ (a <= b /\ py_min a b = a).
Proof.
  unfold py_min. destruct (Qlt_bool b a) eqn:E; qreflect; auto.
Qed.

(** ** Kelly sizing *)

Example lit_binary64 :
  (lit 3 100 : float) = 0.03%float /\ (lit 0 1 : float) = 0%float
  /\ (lit 5 10 : float) = 0.5%float /\ (lit 6 10 : float) = 0.6%float.
Proof. vm_compute. auto. Qed.

(** C3. [kelly_size] returns the literal 0 whenever a probability lies
    outside the open interval (0,1) ([our_prob <= 0], [our_prob >= 1],
    [market_prob <= 0] or [market_prob >= 1]), whenever the net odds
    [b = 1/market_prob - 1] are [<= 0], and whenever the full Kelly
    fraction [(our_prob*b - (1 - our_prob))/b] is [<= 0].  The tests are
    the code's own comparisons, so the statement holds in exact
    arithmetic and in binary64 alike. *)
Theorem kelly_size_zero {F : Type} `{PyFloat F}
    (our_prob market_prob : F) (fraction : option F) :
  fle our_prob (lit 0 1) = true \/ fle (lit 1 1) our_prob = true
  \/ fle market_prob (lit 0 1) = true \/ fle (lit 1 1) market_prob = true
  \/ fle (net_odds market_prob) (lit 0 1) = true
  \/ fle (kelly_full our_prob market_prob) (lit 0 1) = true ->
  kelly_size our_prob market_prob fraction = lit 0 1.
Proof.
  unfold kelly_size, kelly_full, net_odds.
  intros Hcase.
  destruct (fle market_prob (lit 0 1)) eqn:E1; [reflexivity|].
  destruct (fle (lit 1 1) market_prob) eqn:E2; [reflexivity|].
  destruct (fle our_prob (lit 0 1)) eqn:E3; [reflexivity|].
  destruct (fle (lit 1 1) our_prob) eqn:E4; [reflexivity|].
  cbn [orb]. cbv zeta.
  match goal with
  | |- (if ?c then _ else _) = _ => destruct c eqn:E5; [reflexivity|]
  end.
  match goal with
  | |- (if ?c then _ else _) = _ => destruct c eqn:E6; [reflexivity|]
  end.
  intuition congruence.
Qed.

Lemma kelly_size_zero_witness :
  kelly_size (F := Q) (3 # 10) (5 # 10) None = 0
  /\ kelly_size (F := float) 1.5%float 0.5%float None = 0%float.
Proof.
  split.
  - refine (kelly_size_zero (F := Q) (3 # 10) (5 # 10) None _).
    do 5 right. reflexivity.
  - refine (kelly_size_zero (F := float) 1.5%float 0.5%float None _).
    right. left. reflexivity.
Defined.

(** Outside the zero cases the result is the full fraction scaled. *)
Lemma kelly_size_positive (our_prob market_prob : Q) (fraction : option Q) :
  kelly_size our_prob market_prob fraction = 0
  \/ (0 < market_prob /\ market_prob < 1 /\ 0 < our_prob /\ our_prob < 1
      /\ 0 < net_odds market_prob
      /\ 0 < kelly_full our_prob market_prob
      /\ kelly_size our_prob market_prob fraction
         = kelly_full our_prob market_prob
           * match fraction with None => 5 # 10 | Some f => f end).
Proof.
  unfold kelly_size, kelly_full, net_odds. cbn [fle lit fsub fdiv fmul Q_PyFloat].
  destruct (Qle_bool market_prob (0 # 1)) eqn:E1; [left; reflexivity|].
  destruct (Qle_bool (1 # 1) market_prob) eqn:E2; [left; reflexivity|].
  destruct (Qle_bool our_prob (0 # 1)) eqn:E3; [left; reflexivity|].
  destruct (Qle_bool (1 # 1) our_prob) eqn:E4; [left; reflexivity|].
  cbn [orb]. cbv zeta.
  match goal with
  | |- (if ?c then _ else _) = _ \/ _ => destruct c eqn:E5; [left; reflexivity|]
  end.
  match goal with
  | |- (if ?c then _ else _) = _ \/ _ => destruct c eqn:E6; [left; reflexivity|]
  end.
  right. qreflect. repeat split; auto.
Qed.

(** The zero cases over [Q], with the comparisons read as the order of
    the rationals. *)
Lemma kelly_size_zero_Q (our_prob market_prob : Q) (fraction : option Q) :
  our_prob <= 0 \/ 1 <= our_prob \/ market_prob <= 0 \/ 1 <= market_prob
  \/ net_odds market_prob <= 0 \/ kelly_full our_prob market_prob <= 0 ->
  kelly_size our_prob market_prob fraction = 0.
Proof.
  intro Hcase.
  destruct (kelly_size_positive our_prob market_prob fraction)
    as [Hz | (H1 & H2 & H3 & H4 & H5 & H6 & _)]; [exact Hz|].
  exfalso.
  destruct Hcase as [Hc | [Hc | [Hc | [Hc | [Hc | Hc]]]]].
  - exact (Qlt_not_le _ _ H3 Hc).
  - exact (Qlt_not_le _ _ H4 Hc).
  - exact (Qlt_not_le _ _ H1 Hc).
  - exact (Qlt_not_le _ _ H2 Hc).
  - exact (Qlt_not_le _ _ H5 Hc).
  - exact (Qlt_not_le _ _ H6 Hc).
Qed.

(** C7, as the code computes it.  On binary64, the arithmetic the code
    runs, [kelly_size(0.6, 0.5, 0.5)] has net odds exactly [1.0], but
    [1.0 - 0.6] is the float [0.4] and [0.6*1.0 - 0.4] rounds to
    [0.19999999999999996], so the full fraction is that float and the
    result is [0.09999999999999998], just under the float [0.1].  In
    exact arithmetic the three values are [1], [2/10] and [1/10]. *)
Theorem kelly_size_worked_example :
  net_odds (F := float) 0.5%float = 1%float
  /\ kelly_full (F := float) 0.6%float 0.5%float = 0.19999999999999996%float
  /\ kelly_size (F := float) 0.6%float 0.5%float (Some 0.5%float)
     = 0.09999999999999998%float
  /\ PrimFloat.ltb (kelly_size (F := float) 0.6%float 0.5%float (Some 0.5%float))
                   0.1%float = true
  /\ net_odds (F := Q) (5 # 10) == 1
  /\ kelly_full (F := Q) (6 # 10) (5 # 10) == 2 # 10
  /\ kelly_size (F := Q) (6 # 10) (5 # 10) (Some (5 # 10)) == 1 # 10.
Proof.
  repeat split; vm_compute; reflexivity.
Qed.

(** C7 as stated fails on the code: the float returned for
    [(0.6, 0.5, 0.5)] does not compare equal to [0.1], and the full
    Kelly fraction does not compare equal to [0.2]. *)
Lemma kelly_size_not_exactly_a_tenth :
  PrimFloat.eqb (kelly_size (F := float) 0.6%float 0.5%float (Some 0.5%float))
                0.1%float = false
  /\ PrimFloat.eqb (kelly_full (F := float) 0.6%float 0.5%float) 0.2%float
     = false.
Proof. split; vm_compute; reflexivity. Qed.

(** ** Bet sizing *)

(** C10. [calculate_bet_size] is a pure query: whatever the arguments
    and whichever way it answers, the world after the call — the
    manager's bankroll, position list and trade history, and with them
    the state file, the trade log and the clock — is the world before. *)
Theorem calculate_bet_size_pure (our_prob market_prob : Q) (strategy : string)
    (w : World) :
  snd (calculate_bet_size our_prob market_prob strategy w) = w
  /\ bankroll (self (snd (calculate_bet_size our_prob market_prob strategy w)))
     = bankroll (self w)
  /\ positions (self (snd (calculate_bet_size our_prob market_prob strategy w)))
     = positions (self w)
  /\ trade_history
       (self (snd (calculate_bet_size our_prob market_prob strategy w)))
     = trade_history (self w).
Proof.
  assert (Hw : snd (calculate_bet_size our_prob market_prob strategy w) = w).
  { unfold calculate_bet_size, bind, get_self, ret.
    repeat match goal with
    | |- context [if ?c then _ else _] => destruct c
    end; reflexivity. }
  rewrite Hw. auto.
Qed.

(** It always answers: no path raises. *)
Lemma calculate_bet_size_returns (our_prob market_prob : Q) (strategy : string)
    (w : World) :
  exists r, fst (calculate_bet_size our_prob market_prob strategy w) = Return r.
Proof.
  unfold calculate_bet_size, bind, get_self, ret.
  repeat match goal with
  | |- context [if ?c then _ else _] => destruct c
  end; eexists; reflexivity.
Qed.

Lemma round_half_even_near (y : Q) :
  y - (1 # 2) <= inject_Z (round_half_even y) <= y + (1 # 2).
Proof.
  unfold round_half_even.
  pose proof (Qfloor_le y) as Hlo. pose proof (Qlt_floor y) as Hhi.
  rewrite inject_Z_plus in Hhi. change (inject_Z 1) with 1 in Hhi.
  set (f := Qfloor y) in *.
  destruct (Qcompare (y - inject_Z f) (1 # 2)) eqn:E.
  - apply Qeq_alt in E.
    destruct (Z.even f);
      [|rewrite inject_Z_plus; change (inject_Z 1) with 1]; split; lra.
  - apply Qlt_alt in E. split; lra.
  - apply Qgt_alt in E. rewrite inject_Z_plus. change (inject_Z 1) with 1.
    split; lra.
Qed.

(** Rounding to cents moves a value by half a cent at most. *)
Lemma py_round_2_near (x : Q) :
  x - (1 # 200) <= py_round x 2 <= x + (1 # 200).
Proof.
  unfold py_round. change (inject_Z (10 ^ Z.of_nat 2)) with (100 # 1).
  pose proof (round_half_even_near (x * (100 # 1))) as [Hlo Hhi].
  set (r := inject_Z (round_half_even (x * (100 # 1)))) in *.
  assert (E : r / (100 # 1) == r * (1 # 100)) by (unfold Qdiv; reflexivity).
  rewrite E. split; lra.
Qed.

(** What an approval guarantees (the part of C2 that holds): the stake
    is some [bet_usd] rounded to cents, where [bet_usd] is at least the
    minimum bet, within the single-bet cap and, added to the open
    exposure, within half the bankroll. *)
Lemma calculate_bet_size_approved (our_prob market_prob : Q) (strategy : string)
    (w : World) (stake kf : Q) :
  fst (calculate_bet_size our_prob market_prob strategy w)
  = Return (stake, kf, "") ->
  exists bet_usd,
    stake = py_round bet_usd 2
    /\ config.MIN_BET_SIZE_USD <= bet_usd
    /\ bet_usd <= bankroll (self w) * config.MAX_SINGLE_BET_PCT
    /\ open_exposure (self w) + bet_usd <= bankroll (self w) * (1 # 2)
    /\ stake <= bankroll (self w) * config.MAX_SINGLE_BET_PCT + (1 # 200)
    /\ open_exposure (self w) + stake <= bankroll (self w) * (1 # 2) + (1 # 200).
Proof.
  unfold calculate_bet_size, bind, get_self, ret, open_exposure.
  destruct (Qlt_bool (our_prob - market_prob) config.MIN_EDGE_THRESHOLD);
    [cbn; intro Heq; inversion Heq|].
  destruct (Qle_bool (kelly_size our_prob market_prob None) 0);
    [cbn; intro Heq; inversion Heq|].
  set (b := bankroll (self w)).
  set (k := kelly_size our_prob market_prob None).
  set (cap := b * config.MAX_SINGLE_BET_PCT).
  set (bet := if Qlt_bool cap (b * k) then cap else b * k).
  assert (Hcap : bet <= cap).
  { subst bet. destruct (Qlt_bool cap (b * k)) eqn:E; qreflect;
      auto using Qle_refl. }
  destruct (Qlt_bool bet config.MIN_BET_SIZE_USD) eqn:Emin;
    [cbn; intro Heq; inversion Heq|].
  destruct (config.MAX_OPEN_POSITIONS <=? _)%nat;
    [cbn; intro Heq; inversion Heq|].
  set (ex := Qsum (map size_usd (filter is_open (positions (self w))))).
  destruct (Qlt_bool (b * (1 # 2)) (ex + bet)) eqn:Eex.
  - destruct (Qlt_bool (b * (1 # 2) - ex) config.MIN_BET_SIZE_USD) eqn:Erem;
      [cbn; intro Heq; inversion Heq|].
    cbn. intro Heq. inversion Heq; subst stake kf. clear Heq.
    qreflect.
    exists (py_min bet (b * (1 # 2) - ex)).
    pose proof (py_round_2_near (py_min bet (b * (1 # 2) - ex))) as [_ Hr].
    destruct (py_min_cases bet (b * (1 # 2) - ex)) as [[Hlt Hm] | [Hle Hm]];
      rewrite Hm in *; repeat split; try reflexivity; try lra.
  - cbn. intro Heq. inversion Heq; subst stake kf. clear Heq.
    qreflect. exists bet.
    pose proof (py_round_2_near bet) as [_ Hr].
    repeat split; try reflexivity; try lra.
Qed.

(** C2 at its failing inputs.  With [our_prob = 0.9] and
    [market_prob = 0.5] the half-Kelly fraction is 0.4, far over the 5%
    cap.  On a bankroll of 100.14 the capped bet is 5.007 and the call
    approves [round(5.007, 2) = 5.01], more than 5% of the bankroll.  On
    a bankroll of 100.014 with 47.00 already open, the bet is trimmed to
    the headroom 3.007 and the call approves 3.01, which takes the open
    exposure to 50.01, more than half the bankroll (50.007). *)
Theorem calculate_bet_size_rounds_past_caps :
  (exists stake kf,
      fst (calculate_bet_size (9 # 10) (5 # 10) "btc" world_single_cap)
      = Return (stake, kf, "")
      /\ stake == 501 # 100
      /\ bankroll (self world_single_cap) * config.MAX_SINGLE_BET_PCT < stake)
  /\ (exists stake kf,
      fst (calculate_bet_size (9 # 10) (5 # 10) "btc" world_exposure_cap)
      = Return (stake, kf, "")
      /\ stake == 301 # 100
      /\ bankroll (self world_exposure_cap) * (1 # 2)
         < open_exposure (self world_exposure_cap) + stake).
Proof.
  split; eexists; eexists; (split; [vm_compute; reflexivity|]);
    split; vm_compute; reflexivity.
Qed.

(** ** The ledger *)

(** What [open_position] does to the world. *)
Lemma open_position_spec (a1 a2 a3 a4 : string) (price size our market : Q)
    (a9 a10 : string) (w : World) :
  exists pos w',
    open_position a1 a2 a3 a4 price size our market a9 a10 w = (Return pos, w')
    /\ size_usd pos = size
    /\ status pos = "open"
    /\ timestamp pos = utc_now w (clock_reads w)
    /\ bankroll (self w') = bankroll (self w) - size
    /\ positions (self w') = (positions (self w) ++ [pos])%list
    /\ trade_history (self w') = trade_history (self w)
    /\ state_file w' = Some (snapshot (self w'))
    /\ utc_now w' = utc_now w.
Proof.
  do 2 eexists. split; [reflexivity|].
  cbn. repeat split; reflexivity.
Qed.

Lemma list_set_length {A : Type} (i : nat) (x : A) (l : list A) :
  length (list_set i x l) = length l.
Proof.
  revert i; induction l as [|y l IH]; intros [|i]; cbn; auto.
Qed.

(** What [close_position] does to the world, for a position it is handed. *)
Lemma close_position_spec (r : PosRef) (exit_price pnl : Q) (reason : string)
    (w : World) (p : Position) :
  fst (deref r w) = Return p ->
  exists w',
    close_position r exit_price pnl reason w = (Return tt, w')
    /\ bankroll (self w') = bankroll (self w) + (size_usd p + pnl)
    /\ positions (self w')
       = match r with
         | Held i => list_set i (set_status p "closed") (positions (self w))
         | Detached _ => positions (self w)
         end
    /\ state_file w' = Some (snapshot (self w'))
    /\ utc_now w' = utc_now w.
Proof.
  intro Hp. unfold close_position, bind at 1.
  destruct r as [i | p0]; cbn in Hp |- *.
  - unfold bind, get_self in Hp |- *. cbn in Hp |- *.
    destruct (nth_error (positions (self w)) i) as [p1|] eqn:E; cbn in Hp;
      inversion Hp; subst p1.
    eexists. split; [reflexivity|]. cbn. repeat split; reflexivity.
  - inversion Hp; subst p0.
    eexists. split; [reflexivity|]. cbn. repeat split; reflexivity.
Qed.

(** A reference that names no position fails before anything changes. *)
Lemma close_position_bad_ref (i : nat) (exit_price pnl : Q) (reason : string)
    (w : World) :
  nth_error (positions (self w)) i = None ->
  close_position (Held i) exit_price pnl reason w = (Raise IndexError, w).
Proof.
  intro E. unfold close_position, bind, deref, get_self. cbn. rewrite E.
  reflexivity.
Qed.

Lemma run_accounting (cs : list Call) :
  forall w,
    well_referenced cs (length (positions (self w))) = true ->
    exists w',
      run cs w = (Return tt, w')
      /\ bankroll (self w')
         == bankroll (self w) - stakes_opened cs + credits_closed cs w.
Proof.
  induction cs as [|c cs IH]; intros w Hwf.
  - exists w. split; [reflexivity|]. cbn. ring.
  - destruct c as [a1 a2 a3 a4 price size our market a9 a10 | r x pnl reason].
    + destruct (open_position_spec a1 a2 a3 a4 price size our market a9 a10 w)
        as (pos & w1 & Hrun & _ & _ & _ & Hb & Hps & _).
      cbn [well_referenced] in Hwf.
      destruct (IH w1) as (w' & Hrun' & Hb').
      { rewrite Hps, length_app. cbn [length].
        replace (length (positions (self w)) + 1)%nat
          with (S (length (positions (self w)))) by lia.
        exact Hwf. }
      exists w'. split.
      * cbn [run call]. unfold bind at 1. unfold bind at 1.
        rewrite Hrun. cbn. exact Hrun'.
      * cbn [stakes_opened stake_opened credits_closed credit_closed call].
        unfold bind at 1. rewrite Hrun. cbn [snd ret].
        rewrite Hb', Hb. ring.
    + assert (Hderef : exists p, fst (deref r w) = Return p).
      { destruct r as [i | p]; [|eexists; reflexivity].
        cbn [well_referenced] in Hwf. apply andb_true_iff in Hwf.
        destruct Hwf as [Hi _]. apply Nat.ltb_lt in Hi.
        destruct (nth_error (positions (self w)) i) as [p|] eqn:E.
        - exists p. unfold deref, bind, get_self. cbn. rewrite E. reflexivity.
        - apply nth_error_None in E. lia. }
      destruct Hderef as [p Hp].
      destruct (close_position_spec r x pnl reason w p Hp)
        as (w1 & Hrun & Hb & Hps & _).
      destruct (IH w1) as (w' & Hrun' & Hb').
      { rewrite Hps. destruct r as [i | p0]; cbn [well_referenced] in Hwf.
        - rewrite list_set_length. apply andb_true_iff in Hwf. tauto.
        - exact Hwf. }
      exists w'. split.
      * cbn [run call]. unfold bind at 1. rewrite Hrun. exact Hrun'.
      * cbn [stakes_opened stake_opened credits_closed credit_closed call].
        rewrite Hp, Hrun. cbn [snd]. rewrite Hb', Hb. ring.
Qed.

(** C1, as the code computes.  Over exact rationals, opening a position
    debits the bankroll by the stake, each call of [close_position]
    credits it by stake + pnl of the position it is handed (open or
    not: the status is not looked at), and over every sequence of calls
    whose closes name existing positions the final bankroll is the
    initial one, less the stakes opened, plus stake + pnl summed over
    the close calls.  The two updates are [bankroll_after_open] and
    [bankroll_after_close], which on binary64 round: see
    [bankroll_updates_round_and_repeat]. *)
Theorem bankroll_accounting :
  (forall a1 a2 a3 a4 price size our market a9 a10 w,
      exists pos w',
        open_position a1 a2 a3 a4 price size our market a9 a10 w
        = (Return pos, w')
        /\ size_usd pos = size
        /\ bankroll (self w')
           = bankroll_after_open (F := Q) (bankroll (self w)) (size_usd pos)
        /\ bankroll (self w') = bankroll (self w) - size_usd pos)
  /\ (forall r exit_price pnl reason w p,
      fst (deref r w) = Return p ->
      exists w',
        close_position r exit_price pnl reason w = (Return tt, w')
        /\ bankroll (self w')
           = bankroll_after_close (F := Q) (bankroll (self w)) (size_usd p) pnl
        /\ bankroll (self w') = bankroll (self w) + (size_usd p + pnl))
  /\ (forall cs w,
      well_referenced cs (length (positions (self w))) = true ->
      exists w',
        run cs w = (Return tt, w')
        /\ bankroll (self w')
           == bankroll (self w) - stakes_opened cs + credits_closed cs w).
Proof.
  split; [|split].
  - intros.
    destruct (open_position_spec a1 a2 a3 a4 price size our market a9 a10 w)
      as (pos & w' & Hrun & Hs & _ & _ & Hb & _).
    exists pos, w'. rewrite Hs.
    split; [exact Hrun|]. split; [reflexivity|]. split; exact Hb.
  - intros r exit_price pnl reason w p Hp.
    destruct (close_position_spec r exit_price pnl reason w p Hp)
      as (w' & Hrun & Hb & _).
    exists w'. split; [exact Hrun|]. split; exact Hb.
  - intros cs w. apply run_accounting.
Qed.

Example bankroll_accounting_witness :
  exists w',
    run [Open "m1" "Will BTC be above $97,500?" "t1" "YES"
              (5 # 10) 50 (65 # 100) (5 # 10) "btc" "";
         Close (Held 0) (1 # 1) 10 "resolved"]
        (fresh_world {| bankroll := 1000; positions := [];
                        trade_history := [] |})
    = (Return tt, w')
    /\ bankroll (self w')
       == 1000
          - stakes_opened
              [Open "m1" "Will BTC be above $97,500?" "t1" "YES"
                    (5 # 10) 50 (65 # 100) (5 # 10) "btc" "";
               Close (Held 0) (1 # 1) 10 "resolved"]
          + credits_closed
              [Open "m1" "Will BTC be above $97,500?" "t1" "YES"
                    (5 # 10) 50 (65 # 100) (5 # 10) "btc" "";
               Close (Held 0) (1 # 1) 10 "resolved"]
              (fresh_world {| bankroll := 1000; positions := [];
                              trade_history := [] |}).
Proof.
  apply (proj2 (proj2 bankroll_accounting)). reflexivity.
Defined.

(** C1, the claim's "exactly" and its sum over positions closed.  On
    binary64 a bankroll of 100.14 debited by 5.01 drops by
    5.0100000000000051, three debits of 0.1 from 1000 leave
    999.69999999999993 where 1000 - (0.1 + 0.1 + 0.1) is
    999.70000000000005, and a credit of 5.01 + 0.25 does not raise
    95.13 by 5.26.  And one position of stake 50, closed twice with a
    pnl of 10, is credited twice: the bankroll ends at 1070, not at the
    1000 - 50 + (50 + 10) = 1010 of one position opened and closed. *)
Lemma bankroll_updates_round_and_repeat :
  PrimFloat.eqb
    (100.14 - bankroll_after_open (F := float) 100.14 5.01)%float
    5.01%float = false
  /\ (100.14 - bankroll_after_open (F := float) 100.14 5.01)%float
     = 5.0100000000000051%float
  /\ fold_left (bankroll_after_open (F := float)) [0.1; 0.1; 0.1]%float
       1000%float
     = 999.69999999999993%float
  /\ (1000 - (0.1 + 0.1 + 0.1))%float = 999.70000000000005%float
  /\ PrimFloat.eqb
       (bankroll_after_close (F := float) 95.13 5.01 0.25 - 95.13)%float
       (5.01 + 0.25)%float = false
  /\ exists w',
       run [Open "m1" "Will BTC be above $97,500?" "t1" "YES"
                 (5 # 10) 50 (65 # 100) (5 # 10) "btc" "";
            Close (Held 0) (1 # 1) 10 "resolved";
            Close (Held 0) (1 # 1) 10 "resolved"]
           (fresh_world {| bankroll := 1000; positions := [];
                           trade_history := [] |})
       = (Return tt, w')
       /\ length (positions (self w')) = 1%nat
       /\ length (filter is_closed (positions (self w'))) = 1%nat
       /\ bankroll (self w') == 1070
       /\ Qeq_bool (bankroll (self w')) (1000 - 50 + (50 + 10)) = false.
Proof.
  repeat (split; [vm_compute; reflexivity|]).
  eexists. split; [vm_compute; reflexivity|].
  repeat split; vm_compute; reflexivity.
Qed.

(** The end-to-end scenario of the specification: a stake of 50 opened
    on a bankroll of 1000 leaves 950; closing it with a pnl of 10 gives
    1010. *)
Example open_then_close_1000 :
  bankroll (self (snd (run [Open "m1" "q" "t1" "YES" (5 # 10) 50
                                 (65 # 100) (5 # 10) "btc" ""]
                           (fresh_world {| bankroll := 1000; positions := [];
                                           trade_history := [] |}))))
  == 950
  /\ bankroll (self (snd (run [Open "m1" "q" "t1" "YES" (5 # 10) 50
                                    (65 # 100) (5 # 10) "btc" "";
                               Close (Held 0) (1 # 1) 10 "resolved"]
                              (fresh_world {| bankroll := 1000;
                                              positions := [];
                                              trade_history := [] |}))))
     == 1010.
Proof. split; vm_compute; reflexivity. Qed.

(** ** Persistence *)

Lemma Position_init_asdict (p : Position) :
  match asdict p with
  | JDict kw => Position_init kw = Return p
  | _ => False
  end.
Proof. destruct p. reflexivity. Qed.

Lemma Position_of_json_asdict (p : Position) (w : World) :
  stamped p -> Position_of_json (asdict p) w = (Return p, w).
Proof.
  intro Hp. pose proof (Position_init_asdict p) as Hinit.
  unfold Position_of_json, new_Position. cbn [asdict] in *.
  rewrite Hinit. unfold __post_init__.
  destruct (String.eqb (timestamp p) "") eqn:E; [|reflexivity].
  apply String.eqb_eq in E. contradiction.
Qed.

Lemma mapM_Position_of_json (ps : list Position) (w : World) :
  Forall stamped ps ->
  mapM Position_of_json (map asdict ps) w = (Return ps, w).
Proof.
  induction 1 as [|p ps Hp _ IH]; [reflexivity|].
  cbn [map mapM]. unfold bind at 1. rewrite (Position_of_json_asdict p w Hp).
  unfold bind at 1. rewrite IH. reflexivity.
Qed.

(** Loading a snapshot that [_save_state] wrote restores the manager it
    was taken from. *)
Lemma load_snapshot (w : World) (rm : RiskManager) :
  state_file w = Some (snapshot rm) ->
  Forall stamped (positions rm) ->
  _load_state w
  = (Return tt,
     {| self := rm; state_file := state_file w; trade_log := trade_log w;
        utc_now := utc_now w; clock_reads := clock_reads w |}).
Proof.
  intros Hfile Hps.
  unfold _load_state, bind at 1, read_state_file. rewrite Hfile.
  unfold snapshot, try_except, bind at 1. cbn [ret].
  unfold bind at 1. unfold get_self at 1.
  unfold bind at 1. cbn [dict_get String.eqb Ascii.eqb Bool.eqb ret].
  unfold bind at 1. unfold set_bankroll at 1, bind at 1, get_self at 1,
    put_self at 1.
  unfold bind at 1. cbn [dict_get String.eqb Ascii.eqb Bool.eqb iter_items ret].
  unfold bind at 1.
  rewrite (mapM_Position_of_json (positions rm) _ Hps).
  cbn. rewrite ?Hfile. destruct rm. reflexivity.
Qed.

Lemma init_coherent (b : option Q) (w : World) :
  (forall n, utc_now w n <> "") ->
  (state_file w = None
   \/ exists rm, state_file w = Some (snapshot rm)
                 /\ Forall stamped (positions rm)) ->
  coherent (snd (__init__ b w)).
Proof.
  intros Hclock Hfile. unfold __init__, bind at 1, put_self at 1.
  set (w1 := {| self := _; state_file := _ |}).
  destruct Hfile as [Hnone | (rm & Hsome & Hps)].
  - unfold _load_state, bind, read_state_file. cbn [self state_file w1].
    rewrite Hnone. cbn. repeat split; auto.
  - rewrite (load_snapshot w1 rm Hsome Hps). cbn.
    repeat split; auto. right. exists rm. auto.
Qed.

Lemma Forall_list_set {A : Type} (P : A -> Prop) (i : nat) (x : A) (l : list A) :
  P x -> Forall P l -> Forall P (list_set i x l).
Proof.
  intros Hx Hl. revert i.
  induction Hl as [|y l Hy Hl IH]; intros [|i]; cbn; auto.
Qed.

Lemma call_coherent (c : Call) (w : World) :
  coherent w -> coherent (snd (call c w)).
Proof.
  intros (Hps & Hclock & Hfile).
  destruct c as [a1 a2 a3 a4 price size our market a9 a10 | r x pnl reason].
  - destruct (open_position_spec a1 a2 a3 a4 price size our market a9 a10 w)
      as (pos & w1 & Hrun & _ & _ & Ht & _ & Hps1 & _ & Hf1 & Hc1).
    cbn [call]. unfold bind at 1. rewrite Hrun. cbn [snd ret].
    assert (Hps' : Forall stamped (positions (self w1))).
    { rewrite Hps1. apply Forall_app. split; [exact Hps|].
      constructor; [|constructor]. unfold stamped. rewrite Ht. apply Hclock. }
    repeat split; auto.
    + intro n. rewrite Hc1. apply Hclock.
    + right. exists (self w1). auto.
  - cbn [call].
    destruct (fst (deref r w)) as [p | e] eqn:Hp.
    + destruct (close_position_spec r x pnl reason w p Hp)
        as (w1 & Hrun & _ & Hps1 & Hf1 & Hc1).
      rewrite Hrun. cbn [snd].
      assert (Hps' : Forall stamped (positions (self w1))).
      { rewrite Hps1. destruct r as [i | p0]; [|exact Hps].
        apply Forall_list_set; [|exact Hps].
        unfold deref, bind, get_self in Hp. cbn in Hp.
        destruct (nth_error (positions (self w)) i) as [p1|] eqn:E;
          cbn in Hp; inversion Hp; subst p1.
        apply nth_error_In in E.
        rewrite Forall_forall in Hps. exact (Hps p E). }
      repeat split; auto.
      * intro n. rewrite Hc1. apply Hclock.
      * right. exists (self w1). auto.
    + destruct r as [i | p0]; [|cbn in Hp; discriminate].
      assert (E : nth_error (positions (self w)) i = None).
      { unfold deref, bind, get_self in Hp. cbn in Hp.
        destruct (nth_error (positions (self w)) i); [discriminate|reflexivity]. }
      rewrite (close_position_bad_ref i x pnl reason w E). cbn [snd].
      repeat split; auto.
Qed.

Lemma reachable_coherent (w : World) : reachable w -> coherent w.
Proof.
  induction 1 as [w0 b Hnone Hclock | w b _ IH | w c _ IH | w o m s _ IH].
  - apply init_coherent; auto.
  - destruct IH as (_ & Hclock & Hfile). apply init_coherent; auto.
  - apply call_coherent, IH.
  - assert (Hw : snd (calculate_bet_size o m s w) = w).
    { unfold calculate_bet_size, bind, get_self, ret.
      repeat match goal with
      | |- context [if ?c then _ else _] => destruct c
      end; reflexivity. }
    rewrite Hw. exact IH.
Qed.

(** C9.  From every reachable state of the ledger, [_save_state]
    followed by [_load_state] succeeds and leaves a manager with the
    same bankroll, the same positions in the same order, field for
    field, and the same trade history; so does a new manager started on
    the saved file, whatever bankroll it is constructed with. *)
Theorem save_load_roundtrip (w : World) :
  reachable w ->
  fst (_load_state (snd (_save_state w))) = Return tt
  /\ bankroll (self (snd (_load_state (snd (_save_state w)))))
     = bankroll (self w)
  /\ positions (self (snd (_load_state (snd (_save_state w)))))
     = positions (self w)
  /\ trade_history (self (snd (_load_state (snd (_save_state w)))))
     = trade_history (self w)
  /\ (forall b, self (snd (__init__ b (snd (_save_state w)))) = self w).
Proof.
  intro Hreach. destruct (reachable_coherent w Hreach) as (Hps & _ & _).
  unfold _save_state, bind, get_self, write_state_file. cbn [snd].
  repeat apply conj.
  1-4: match goal with
       | |- context [_load_state ?w1] =>
           rewrite (load_snapshot w1 (self w) eq_refl Hps)
       end; reflexivity.
  intro b. unfold __init__, bind, put_self. cbn [snd fst].
  match goal with
  | |- context [_load_state ?w1] =>
      rewrite (load_snapshot w1 (self w) eq_refl Hps)
  end.
  reflexivity.
Qed.

Lemma save_load_roundtrip_witness :
  fst (_load_state (snd (_save_state traded_world))) = Return tt
  /\ bankroll (self (snd (_load_state (snd (_save_state traded_world)))))
     = bankroll (self traded_world)
  /\ positions (self (snd (_load_state (snd (_save_state traded_world)))))
     = positions (self traded_world)
  /\ trade_history (self (snd (_load_state (snd (_save_state traded_world)))))
     = trade_history (self traded_world)
  /\ (forall b,
        self (snd (__init__ b (snd (_save_state traded_world))))
        = self traded_world).
Proof.
  apply (save_load_roundtrip traded_world).
  unfold traded_world. apply reach_call, reach_call, reach_boot.
  - reflexivity.
  - intro n. cbn. discriminate.
Defined.

(** ** Indicators *)

Lemma last_n_map {A B : Type} (f : A -> B) (n : nat) (l : list A) :
  last_n n (map f l) = map f (last_n n l).
Proof.
  unfold last_n. destruct n; [reflexivity|].
  rewrite length_map. apply skipn_map.
Qed.

Lemma Qsum_zeros (l : list Q) : Forall (fun x => x == 0) l -> Qsum l == 0.
Proof.
  induction 1 as [|x l Hx _ IH]; cbn; [reflexivity|]. rewrite Hx, IH. ring.
Qed.

Lemma np_mean_zeros (l : list Q) :
  l <> [] -> Forall (fun x => x == 0) l ->
  exists m, np_mean l = Some m /\ m == 0.
Proof.
  intros Hne Hz. destruct l as [|x l]; [contradiction|].
  eexists. split; [reflexivity|].
  rewrite (Qsum_zeros _ Hz). unfold Qdiv. ring.
Qed.

(** C8.  [_calculate_rsi] returns exactly 50 when fewer than
    [period + 1] closes are supplied, and exactly 100 when, with enough
    closes, the close-to-close deltas of the averaging window
    [np.diff(closes)[-period:]] are all non-negative and one of them is
    positive. *)
Theorem rsi_neutral_and_maximal (closes : list Q) (period : nat) :
  ((length closes < period + 1)%nat ->
   btc_strategy._calculate_rsi closes period = Some 50)
  /\ ((period + 1 <= length closes)%nat ->
      Forall (fun d => 0 <= d) (last_n period (np_diff closes)) ->
      Exists (fun d => 0 < d) (last_n period (np_diff closes)) ->
      btc_strategy._calculate_rsi closes period = Some 100).
Proof.
  unfold btc_strategy._calculate_rsi. split.
  - intro Hlen. apply Nat.ltb_lt in Hlen. rewrite Hlen. reflexivity.
  - intros Hlen Hnonneg Hpos.
    assert (Hge : (length closes <? period + 1)%nat = false)
      by (apply Nat.ltb_ge; exact Hlen).
    rewrite Hge. rewrite !last_n_map.
    set (window := last_n period (np_diff closes)) in *.
    assert (Hne : window <> []).
    { intro E. rewrite E in Hpos. inversion Hpos. }
    destruct (np_mean_zeros
                (map (fun d => if Qlt_bool d 0 then - d else 0) window))
      as (avg_loss & Hloss & Hzero).
    { destruct window; [contradiction|discriminate]. }
    { apply Forall_map. apply Forall_impl with (2 := Hnonneg).
      intros d Hd. destruct (Qlt_bool d 0) eqn:E; qreflect; [|reflexivity].
      exfalso. exact (Qlt_not_le _ _ E Hd). }
    rewrite Hloss.
    destruct (np_mean (map (fun d => if Qlt_bool 0 d then d else 0) window))
      as [avg_gain|] eqn:Hgain.
    + apply Qeq_bool_iff in Hzero. rewrite Hzero. reflexivity.
    + destruct window; [contradiction|discriminate].
Qed.




Lemma rsi_neutral_and_maximal_witness :
  btc_strategy._calculate_rsi [100; 101; 103] 14 = Some 50
  /\ btc_strategy._calculate_rsi [100; 101; 101; 103] 2 = Some 100.
Proof.
  split.
  - apply (proj1 (rsi_neutral_and_maximal [100; 101; 103] 14)).
    cbn. lia.
  - apply (proj2 (rsi_neutral_and_maximal [100; 101; 101; 103] 2)).
    + cbn. lia.
    + cbn. repeat constructor; discriminate.
    + cbn. apply Exists_cons_tl, Exists_cons_hd. reflexivity.
Defined.

Lemma zip_with_length {A B C : Type} (f : A -> B -> C) (l1 : list A)
    (l2 : list B) :
  length (zip_with f l1 l2) = Nat.min (length l1) (length l2).
Proof.
  revert l2; induction l1 as [|x l1 IH]; intros [|y l2]; cbn; auto.
Qed.

Lemma py_last_nonempty {A : Type} (l : list A) :
  l <> [] -> exists x, py_last l = Some x.
Proof.
  intro Hne. unfold py_last.
  destruct (nth_error l (length l - 1)) as [x|] eqn:E; [eauto|].
  apply nth_error_None in E. destruct l; [contradiction|cbn in E; lia].
Qed.

(** C6, as the code computes it.  When the volume over the VWAP
    lookback (the last [min(60, len)] bars) sums to 0, [_calculate_vwap]
    returns the last close, and the deviation feature is
    [(current_price - last_close) / last_close] when the last close is
    positive and 0 otherwise; it is 0 when the current price equals the
    last close. *)
Theorem vwap_deviation_at_zero_volume (klines : list btc_strategy.Bar)
    (current_price : Q) :
  klines <> [] ->
  Qsum (last_n (Nat.min 60 (length klines)) (map btc_strategy.volume klines))
  == 0 ->
  exists last_close,
    py_last (map btc_strategy.close klines) = Some last_close
    /\ btc_strategy._calculate_vwap
         (map btc_strategy.high klines) (map btc_strategy.low klines)
         (map btc_strategy.close klines) (map btc_strategy.volume klines)
       = Return last_close
    /\ btc_strategy.vwap_deviation_of current_price last_close
       = (if Qlt_bool 0 last_close
          then (current_price - last_close) / last_close
          else 0)
    /\ (current_price == last_close ->
        btc_strategy.vwap_deviation_of current_price last_close == 0).
Proof.
  intros Hne Hvol.
  destruct (py_last_nonempty (map btc_strategy.close klines)) as [c Hc].
  { destruct klines; [contradiction|discriminate]. }
  exists c. split; [exact Hc|]. split; [|split].
  - unfold btc_strategy._calculate_vwap.
    rewrite length_map, !zip_with_length, !length_map, !Nat.min_id.
    apply Qeq_bool_iff in Hvol. rewrite Hvol, Hc. reflexivity.
  - reflexivity.
  - intro Heq. unfold btc_strategy.vwap_deviation_of.
    destruct (Qlt_bool 0 c) eqn:E; [|reflexivity].
    qreflect. rewrite Heq. field. intro Hz. rewrite Hz in E.
    exact (Qlt_irrefl _ E).
Qed.

Lemma vwap_deviation_at_zero_volume_witness :
  exists last_close,
    py_last (map btc_strategy.close flat_bars) = Some last_close
    /\ btc_strategy._calculate_vwap
         (map btc_strategy.high flat_bars) (map btc_strategy.low flat_bars)
         (map btc_strategy.close flat_bars) (map btc_strategy.volume flat_bars)
       = Return last_close
    /\ btc_strategy.vwap_deviation_of 110 last_close
       = (if Qlt_bool 0 last_close then (110 - last_close) / last_close else 0)
    /\ (110 == last_close ->
        btc_strategy.vwap_deviation_of 110 last_close == 0).
Proof.
  apply (vwap_deviation_at_zero_volume flat_bars 110).
  - discriminate.
  - reflexivity.
Defined.

(** C6 as stated fails on the code: over twenty bars without volume and
    a last close of 100, a current price of 110 gives a deviation of
    1/10, in [_calculate_vwap] followed by the deviation formula and in
    the components of the signal [analyze_market] emits. *)
Lemma vwap_deviation_nonzero_at_zero_volume :
  Qsum (last_n (Nat.min 60 (length flat_bars))
               (map btc_strategy.volume flat_bars)) == 0
  /\ (exists vwap,
        btc_strategy._calculate_vwap
          (map btc_strategy.high flat_bars) (map btc_strategy.low flat_bars)
          (map btc_strategy.close flat_bars)
          (map btc_strategy.volume flat_bars)
        = Return vwap
        /\ btc_strategy.vwap_deviation_of 110 vwap == 1 # 10
        /\ Qeq_bool (btc_strategy.vwap_deviation_of 110 vwap) 0 = false)
  /\ (exists s,
        btc_strategy.analyze_market (libs := toy_libs) (Some (105, "above"))
          (Some 110) (Some flat_bars) None (1 # 2)
        = Return (Some s)
        /\ btc_strategy.c_vwap_deviation (btc_strategy.components s) == 1 # 10).
Proof.
  split; [reflexivity|]. split.
  - eexists. split; [vm_compute; reflexivity|]. split; vm_compute; reflexivity.
  - eexists. split; [vm_compute; reflexivity|]. vm_compute. reflexivity.
Qed.

(** ** Probability models *)








(** ** Side selection *)

(** The price path selects the side as the specification says. *)
Lemma analyze_market_selection (libs : SciLibs)
    (parsed : option (Q * string)) (price : option Q)
    (klines : option (list btc_strategy.Bar))
    (trades : option (list btc_strategy.TradePrint)) (market_probability : Q) :
  match btc_strategy.analyze_market parsed price klines trades
          market_probability with
  | Return (Some s) =>
      exists our_prob,
        btc_strategy._estimate_probability
          (btc_strategy.current_price s) (btc_strategy.target_price s)
          (btc_strategy.direction s)
          (btc_strategy.c_rsi (btc_strategy.components s))
          (btc_strategy.c_vwap_deviation (btc_strategy.components s))
          (btc_strategy.c_volatility (btc_strategy.components s))
          (btc_strategy.c_momentum (btc_strategy.components s))
          (btc_strategy.c_order_flow (btc_strategy.components s))
        = Return our_prob
        /\ btc_selection s
           = spec_edge_side_selector our_prob market_probability
  | _ => True
  end.
Proof.
  unfold btc_strategy.analyze_market.
  destruct parsed as [[target direction]|]; [|exact I].
  destruct price as [current|]; [|exact I].
  destruct klines as [klines|]; [|exact I].
  destruct (length klines <? 20)%nat; [exact I|].
  destruct (btc_strategy._calculate_rsi _ _) as [rsi|]; [|exact I].
  destruct (btc_strategy._calculate_vwap _ _ _ _) as [vwap|];
    cbn [outcome_bind]; [|exact I].
  match goal with
  | |- context [btc_strategy._estimate_probability ?a ?b ?c ?d ?e ?f ?g ?h] =>
      destruct (btc_strategy._estimate_probability a b c d e f g h)
        as [our|] eqn:Hest; cbn [outcome_bind]; [|exact I]
  end.
  unfold spec_edge_side_selector, btc_selection.
  destruct (Qlt_bool 0 (our - market_probability)) eqn:E1; cbn;
    [exists our; rewrite E1; split; [exact Hest|reflexivity]|].
  destruct (Qlt_bool config.MIN_EDGE_THRESHOLD _) eqn:E2; cbn;
    exists our; rewrite E1, E2; split; first [exact Hest | reflexivity].
Qed.






(** ** Sanity checks of the formatting and of the rejection paths *)

Example format_fixed_examples :
  format_fixed 3 (- (1 # 100)) = "-0.010"
  /\ format_fixed 2 (5007 # 1000) = "5.01"
  /\ format_fixed 3 (- (1 # 10000)) = "-0.000"
  /\ format_fixed 2 (1 # 8) = "0.12"
  /\ format_fixed 2 (1234 # 1) = "1234.00".
Proof. repeat split; vm_compute; reflexivity. Qed.

Example calculate_bet_size_rejections :
  fst (calculate_bet_size (50 # 100) (51 # 100) "weather" world_single_cap)
  = Return (0, 0, "Edge -0.010 below threshold 0.03")
  /\ (exists kf,
        fst (calculate_bet_size (9 # 10) (5 # 10) "btc"
               (fresh_world {| bankroll := 10; positions := [];
                               trade_history := [] |}))
        = Return (0, kf, "Bet size $0.50 below minimum $1.0")).
Proof. split; [|eexists]; vm_compute; reflexivity. Qed.

(* ================================================================== *)
(** * Further properties of the code *)

(** ** Kelly sizing in closed form *)

Lemma Qdiv_pos (a b : Q) : 0 < a -> 0 < b -> 0 < a / b.
Proof.
  intros Ha Hb. apply Qlt_shift_div_l; [exact Hb|]. lra.
Qed.

Lemma net_odds_interior (m : Q) :
  0 < m -> m < 1 -> 0 < net_odds m /\ net_odds m == (1 - m) / m.
Proof.
  intros H0 H1. unfold net_odds. cbn [fsub fdiv lit Q_PyFloat].
  assert (E : (1 # 1) / m - (1 # 1) == (1 - m) / m) by (field; lra).
  split; [|exact E]. rewrite E. apply Qdiv_pos; lra.
Qed.

Lemma kelly_full_interior (p m : Q) :
  0 < m -> m < 1 -> kelly_full p m == (p - m) / (1 - m).
Proof.
  intros H0 H1. unfold kelly_full, net_odds.
  cbn [fsub fdiv fmul lit Q_PyFloat]. field. split; lra.
Qed.

Lemma kelly_full_sign (p m : Q) :
  0 < m -> m < 1 ->
  (m < p -> 0 < kelly_full p m) /\ (p <= m -> kelly_full p m <= 0).
Proof.
  intros H0 H1. rewrite (kelly_full_interior p m H0 H1). split; intro H.
  - apply Qdiv_pos; lra.
  - apply Qle_shift_div_r; lra.
Qed.

(** For probabilities strictly inside (0,1), [kelly_size] is the
    configured fraction of [(our_prob - market_prob) / (1 - market_prob)]
    when our probability beats the market's, and 0 otherwise: a bet is
    sized exactly when the edge is positive. *)
Theorem kelly_size_closed_form (our_prob market_prob : Q) (fraction : option Q) :
  0 < our_prob -> our_prob < 1 -> 0 < market_prob -> market_prob < 1 ->
  (market_prob < our_prob ->
   kelly_size our_prob market_prob fraction
   == (our_prob - market_prob) / (1 - market_prob)
      * match fraction with None => 1 # 2 | Some f => f end)
  /\ (our_prob <= market_prob ->
      kelly_size our_prob market_prob fraction = 0).
Proof.
  intros Hp0 Hp1 Hm0 Hm1.
  destruct (kelly_full_sign our_prob market_prob Hm0 Hm1) as [Hpos Hneg].
  destruct (net_odds_interior market_prob Hm0 Hm1) as [Hb _].
  split; intro Hedge.
  - assert (G1 : Qle_bool market_prob (0 # 1) = false)
      by (apply Qle_bool_false; exact Hm0).
    assert (G2 : Qle_bool (1 # 1) market_prob = false)
      by (apply Qle_bool_false; exact Hm1).
    assert (G3 : Qle_bool our_prob (0 # 1) = false)
      by (apply Qle_bool_false; exact Hp0).
    assert (G4 : Qle_bool (1 # 1) our_prob = false)
      by (apply Qle_bool_false; exact Hp1).
    assert (G5 : Qle_bool (net_odds market_prob) (0 # 1) = false)
      by (apply Qle_bool_false; exact Hb).
    assert (G6 : Qle_bool (kelly_full our_prob market_prob) (0 # 1) = false)
      by (apply Qle_bool_false; exact (Hpos Hedge)).
    rewrite <- (kelly_full_interior our_prob market_prob Hm0 Hm1).
    unfold kelly_size. unfold kelly_full, net_odds in G5, G6 |- *.
    cbn [fle fsub fdiv fmul lit Q_PyFloat] in G5, G6 |- *.
    rewrite G1, G2, G3, G4. cbn [orb]. cbv zeta. rewrite G5, G6.
    destruct fraction; [reflexivity|].
    apply Qmult_comp; reflexivity.
  - apply kelly_size_zero_Q. do 5 right. exact (Hneg Hedge).
Qed.

Lemma kelly_size_closed_form_witness :
  ((5 # 10) < (65 # 100) ->
   kelly_size (65 # 100) (5 # 10) None
   == ((65 # 100) - (5 # 10)) / (1 - (5 # 10)) * (1 # 2))
  /\ ((65 # 100) <= (5 # 10) -> kelly_size (65 # 100) (5 # 10) None = 0).
Proof.
  apply (kelly_size_closed_form (65 # 100) (5 # 10) None); reflexivity.
Defined.

(** Half-Kelly never stakes half the bankroll: whatever the inputs,
    the default sizing lies in [0, 1/2), and with an explicit
    non-negative fraction [f] it lies in [0, f]. *)
Theorem kelly_size_bounded (our_prob market_prob : Q) :
  (0 <= kelly_size our_prob market_prob None
   /\ kelly_size our_prob market_prob None < 1 # 2)
  /\ (forall f, 0 <= f ->
        0 <= kelly_size our_prob market_prob (Some f)
        /\ kelly_size our_prob market_prob (Some f) <= f).
Proof.
  assert (Hfull : forall fraction,
             kelly_size our_prob market_prob fraction = 0
             \/ exists k, 0 < k /\ k < 1
                  /\ kelly_size our_prob market_prob fraction
                     = k * match fraction with
                           | None => 5 # 10
                           | Some f => f
                           end).
  { intro fraction.
    destruct (kelly_size_positive our_prob market_prob fraction)
      as [Hz | (Hm0 & Hm1 & Hp0 & Hp1 & _ & Hk & Heq)]; [left; exact Hz|].
    right. exists (kelly_full our_prob market_prob).
    split; [exact Hk|]. split; [|exact Heq].
    rewrite (kelly_full_interior our_prob market_prob Hm0 Hm1).
    apply Qlt_shift_div_r; lra. }
  split.
  - destruct (Hfull None) as [Hz | (k & Hk0 & Hk1 & Heq)]; rewrite ?Hz, ?Heq;
      split; lra.
  - intros f Hf.
    destruct (Hfull (Some f)) as [Hz | (k & Hk0 & Hk1 & Heq)];
      rewrite ?Hz, ?Heq; split; try lra; nra.
Qed.

(** ** Bet sizing: what an answer looks like *)

Lemma round_half_even_floor (y : Q) : (Qfloor y <= round_half_even y)%Z.
Proof.
  unfold round_half_even.
  destruct (Qcompare _ _); [destruct (Z.even _)| |]; lia.
Qed.

Lemma py_round_2_ge_1 (x : Q) : 1 <= x -> 1 <= py_round x 2.
Proof.
  intro Hx. unfold py_round. change (inject_Z (10 ^ Z.of_nat 2)) with (100 # 1).
  apply Qle_shift_div_l; [reflexivity|].
  change (1 * (100 # 1)) with (inject_Z 100). rewrite <- Zle_Qle.
  apply Z.le_trans with (2 := round_half_even_floor _).
  assert (H100 : (100 # 1) <= x * (100 # 1)) by lra.
  exact (Qfloor_resp_le (100 # 1) (x * (100 # 1)) H100).
Qed.

(** [calculate_bet_size] always answers, and in one of two shapes: an
    approval, with an empty reason and a stake of at least the minimum
    bet, or a rejection, with a reason that is not empty and a stake of
    exactly 0.  So the stake is 0 exactly when the bet is rejected. *)
Theorem calculate_bet_size_shape (our_prob market_prob : Q) (strategy : string)
    (w : World) :
  exists stake kf reason,
    fst (calculate_bet_size our_prob market_prob strategy w)
    = Return (stake, kf, reason)
    /\ ((reason = "" /\ config.MIN_BET_SIZE_USD <= stake)
        \/ (String.eqb reason "" = false /\ stake = 0)).
Proof.
  unfold calculate_bet_size, bind, get_self, ret.
  destruct (Qlt_bool (our_prob - market_prob) config.MIN_EDGE_THRESHOLD);
    [do 3 eexists; split; [reflexivity|right; split; reflexivity]|].
  destruct (Qle_bool (kelly_size our_prob market_prob None) 0);
    [do 3 eexists; split; [reflexivity|right; split; reflexivity]|].
  set (b := bankroll (self w)).
  set (k := kelly_size our_prob market_prob None).
  set (cap := b * config.MAX_SINGLE_BET_PCT).
  set (bet := if Qlt_bool cap (b * k) then cap else b * k).
  destruct (Qlt_bool bet config.MIN_BET_SIZE_USD) eqn:Emin;
    [do 3 eexists; split; [reflexivity|right; split; reflexivity]|].
  destruct (config.MAX_OPEN_POSITIONS <=? _)%nat;
    [do 3 eexists; split; [reflexivity|right; split; reflexivity]|].
  set (ex := Qsum (map size_usd (filter is_open (positions (self w))))).
  qreflect.
  destruct (Qlt_bool (b * (1 # 2)) (ex + bet)) eqn:Eex.
  - destruct (Qlt_bool (b * (1 # 2) - ex) config.MIN_BET_SIZE_USD) eqn:Erem;
      [do 3 eexists; split; [reflexivity|right; split; reflexivity]|].
    do 3 eexists. split; [reflexivity|]. left. split; [reflexivity|].
    qreflect. apply py_round_2_ge_1.
    destruct (py_min_cases bet (b * (1 # 2) - ex)) as [[_ Hm] | [_ Hm]];
      rewrite Hm; assumption.
  - do 3 eexists. split; [reflexivity|]. left. split; [reflexivity|].
    apply py_round_2_ge_1. exact Emin.
Qed.

Lemma approved_edge_kelly_count (our_prob market_prob : Q) (strategy : string)
    (w : World) (stake kf : Q) :
  fst (calculate_bet_size our_prob market_prob strategy w)
  = Return (stake, kf, "") ->
  config.MIN_EDGE_THRESHOLD <= our_prob - market_prob
  /\ kf = kelly_size our_prob market_prob None
  /\ 0 < kf
  /\ (length (filter is_open (positions (self w)))
      < config.MAX_OPEN_POSITIONS)%nat.
Proof.
  unfold calculate_bet_size, bind, get_self, ret.
  destruct (Qlt_bool (our_prob - market_prob) config.MIN_EDGE_THRESHOLD)
    eqn:Eedge; [cbn; intro Heq; inversion Heq|].
  destruct (Qle_bool (kelly_size our_prob market_prob None) 0) eqn:Ek;
    [cbn; intro Heq; inversion Heq|].
  match goal with
  | |- context [Qlt_bool ?bet config.MIN_BET_SIZE_USD] =>
      destruct (Qlt_bool bet config.MIN_BET_SIZE_USD);
        [cbn; intro Heq; inversion Heq|]
  end.
  destruct (config.MAX_OPEN_POSITIONS <=? _)%nat eqn:Ecount;
    [cbn; intro Heq; inversion Heq|].
  apply Nat.leb_gt in Ecount. qreflect.
  repeat match goal with
  | |- context [if ?c then _ else _] => destruct c
  end; cbn; intro Heq; inversion Heq; subst; auto.
Qed.

(** What an approval requires: an edge of at least the threshold, a
    positive Kelly fraction (the one returned), fewer than ten open
    positions, a bankroll of at least 20 (so that 5% of it reaches the
    minimum bet), and room of at least the minimum bet under half the
    bankroll. *)
Theorem approval_requirements (our_prob market_prob : Q) (strategy : string)
    (w : World) (stake kf : Q) :
  fst (calculate_bet_size our_prob market_prob strategy w)
  = Return (stake, kf, "") ->
  config.MIN_EDGE_THRESHOLD <= our_prob - market_prob
  /\ kf = kelly_size our_prob market_prob None
  /\ 0 < kf
  /\ (length (filter is_open (positions (self w)))
      < config.MAX_OPEN_POSITIONS)%nat
  /\ 20 <= bankroll (self w)
  /\ open_exposure (self w) + config.MIN_BET_SIZE_USD
     <= bankroll (self w) * (1 # 2).
Proof.
  intro Happ.
  destruct (approved_edge_kelly_count _ _ _ _ _ _ Happ)
    as (Hedge & Hkf & Hpos & Hcount).
  destruct (calculate_bet_size_approved _ _ _ _ _ _ Happ)
    as (bet & _ & Hmin & Hcap & Hexp & _).
  unfold config.MIN_BET_SIZE_USD, config.MAX_SINGLE_BET_PCT in *.
  repeat split; auto; lra.
Qed.

(** A bankroll of 1000 and no position. *)
Lemma approval_requirements_witness :
  config.MIN_EDGE_THRESHOLD <= (65 # 100) - (5 # 10)
  /\ kelly_size (65 # 100) (5 # 10) None
     = kelly_size (65 # 100) (5 # 10) None
  /\ 0 < kelly_size (65 # 100) (5 # 10) None
  /\ (length (filter is_open (positions (self world_1000)))
      < config.MAX_OPEN_POSITIONS)%nat
  /\ 20 <= bankroll (self world_1000)
  /\ open_exposure (self world_1000) + config.MIN_BET_SIZE_USD
     <= bankroll (self world_1000) * (1 # 2).
Proof.
  apply (approval_requirements (65 # 100) (5 # 10) "btc" world_1000
           (py_round (1000 * (5 # 100)) 2)
           (kelly_size (65 # 100) (5 # 10) None)).
  vm_compute. reflexivity.
Defined.

(** ** The ledger: frames, journal and statistics *)

Lemma nth_error_list_set {A : Type} (i j : nat) (x : A) (l : list A) :
  nth_error (list_set i x l) j
  = if (i =? j)%nat
    then match nth_error l j with Some _ => Some x | None => None end
    else nth_error l j.
Proof.
  revert i j. induction l as [|y l IH]; intros [|i] [|j]; cbn; auto.
  destruct (i =? j)%nat; reflexivity.
Qed.

(** What [open_position] leaves in the world, field by field. *)
Lemma open_position_world (a1 a2 a3 a4 : string) (price size our market : Q)
    (a9 a10 : string) (w : World) :
  exists pos w',
    open_position a1 a2 a3 a4 price size our market a9 a10 w = (Return pos, w')
    /\ self w' = {| bankroll := bankroll (self w) - size;
                    positions := (positions (self w) ++ [pos])%list;
                    trade_history := trade_history (self w) |}
    /\ state_file w' = Some (snapshot (self w'))
    /\ (exists line, trade_log w' = (trade_log w ++ [line])%list)
    /\ utc_now w' = utc_now w
    /\ is_open pos = true
    /\ size_usd pos = size
    /\ entry_price pos = price
    /\ shares pos = (if Qlt_bool 0 price then size / price else 0)
    /\ side pos = a4.
Proof.
  do 2 eexists. split; [reflexivity|].
  cbn. repeat split; try reflexivity. eexists. reflexivity.
Qed.

(** What [close_position] leaves in the world for a held position. *)
Lemma close_position_world (i : nat) (exit_price pnl : Q) (reason : string)
    (w : World) (p : Position) :
  nth_error (positions (self w)) i = Some p ->
  exists w' record,
    close_position (Held i) exit_price pnl reason w = (Return tt, w')
    /\ self w' = {| bankroll := bankroll (self w) + (size_usd p + pnl);
                    positions :=
                      list_set i (set_status p "closed") (positions (self w));
                    trade_history :=
                      (trade_history (self w) ++ [record])%list |}
    /\ record_pnl record = Return pnl
    /\ state_file w' = Some (snapshot (self w'))
    /\ (exists line, trade_log w' = (trade_log w ++ [line])%list)
    /\ utc_now w' = utc_now w.
Proof.
  intro E. unfold close_position, bind at 1, deref, bind at 1, get_self at 1.
  rewrite E. do 2 eexists. split; [reflexivity|].
  cbn. repeat split; try reflexivity. eexists. reflexivity.
Qed.

(** [close_position] touches one position only, and only its status:
    the list keeps its length, the position at the index becomes the
    same position with status "closed", every other index is untouched,
    and one record carrying the pnl is appended to the trade history. *)
Theorem close_position_frame (i : nat) (exit_price pnl : Q) (reason : string)
    (w : World) (p : Position) :
  nth_error (positions (self w)) i = Some p ->
  exists w' record,
    close_position (Held i) exit_price pnl reason w = (Return tt, w')
    /\ length (positions (self w')) = length (positions (self w))
    /\ nth_error (positions (self w')) i = Some (set_status p "closed")
    /\ (forall j, j <> i ->
          nth_error (positions (self w')) j = nth_error (positions (self w)) j)
    /\ size_usd (set_status p "closed") = size_usd p
    /\ timestamp (set_status p "closed") = timestamp p
    /\ trade_history (self w') = (trade_history (self w) ++ [record])%list
    /\ record_pnl record = Return pnl.
Proof.
  intro E.
  destruct (close_position_world i exit_price pnl reason w p E)
    as (w' & record & Hrun & Hself & Hpnl & _).
  exists w', record. rewrite Hself. cbn [positions trade_history].
  split; [exact Hrun|]. split; [apply list_set_length|].
  split; [rewrite nth_error_list_set, Nat.eqb_refl, E; reflexivity|].
  split.
  { intros j Hj. rewrite nth_error_list_set.
    destruct (i =? j)%nat eqn:Eij; [|reflexivity].
    apply Nat.eqb_eq in Eij. congruence. }
  auto.
Qed.

Lemma close_position_frame_witness :
  exists w' record,
    close_position (Held 0) (1 # 1) 10 "resolved" world_exposure_cap
    = (Return tt, w')
    /\ length (positions (self w'))
       = length (positions (self world_exposure_cap))
    /\ nth_error (positions (self w')) 0
       = Some (set_status (sample_position 47 "open") "closed")
    /\ (forall j, j <> 0%nat ->
          nth_error (positions (self w')) j
          = nth_error (positions (self world_exposure_cap)) j)
    /\ size_usd (set_status (sample_position 47 "open") "closed")
       = size_usd (sample_position 47 "open")
    /\ timestamp (set_status (sample_position 47 "open") "closed")
       = timestamp (sample_position 47 "open")
    /\ trade_history (self w')
       = (trade_history (self world_exposure_cap) ++ [record])%list
    /\ record_pnl record = Return 10.
Proof.
  apply (close_position_frame 0 (1 # 1) 10 "resolved" world_exposure_cap
           (sample_position 47 "open")).
  reflexivity.
Defined.

(** [close_position] does not look at the status: closing the same held
    position twice succeeds twice and credits its stake twice, whether
    or not it was open to begin with. *)
Theorem close_position_twice (i : nat) (x1 pnl1 x2 pnl2 : Q) (r1 r2 : string)
    (w : World) (p : Position) :
  nth_error (positions (self w)) i = Some p ->
  exists w',
    run [Close (Held i) x1 pnl1 r1; Close (Held i) x2 pnl2 r2] w
    = (Return tt, w')
    /\ bankroll (self w')
       == bankroll (self w) + 2 * size_usd p + pnl1 + pnl2
    /\ length (trade_history (self w'))
       = (length (trade_history (self w)) + 2)%nat.
Proof.
  intro E.
  destruct (close_position_world i x1 pnl1 r1 w p E)
    as (w1 & rec1 & Hrun1 & Hself1 & _).
  assert (E1 : nth_error (positions (self w1)) i
               = Some (set_status p "closed")).
  { rewrite Hself1. cbn [positions].
    rewrite nth_error_list_set, Nat.eqb_refl, E. reflexivity. }
  destruct (close_position_world i x2 pnl2 r2 w1 _ E1)
    as (w2 & rec2 & Hrun2 & Hself2 & _).
  exists w2. split.
  - cbn [run call]. unfold bind at 1. rewrite Hrun1.
    unfold bind at 1. rewrite Hrun2. reflexivity.
  - rewrite Hself2, Hself1. cbn [bankroll trade_history size_usd set_status].
    split; [ring|]. rewrite !length_app. cbn. lia.
Qed.

Lemma close_position_twice_witness :
  exists w',
    run [Close (Held 0) (1 # 1) 10 "a"; Close (Held 0) (1 # 1) 10 "b"]
        world_exposure_cap
    = (Return tt, w')
    /\ bankroll (self w')
       == bankroll (self world_exposure_cap)
          + 2 * size_usd (sample_position 47 "open") + 10 + 10
    /\ length (trade_history (self w'))
       = (length (trade_history (self world_exposure_cap)) + 2)%nat.
Proof.
  apply (close_position_twice 0 (1 # 1) 10 (1 # 1) 10 "a" "b"
           world_exposure_cap (sample_position 47 "open")).
  reflexivity.
Defined.

Lemma Qsum_app (l1 l2 : list Q) : Qsum (l1 ++ l2) == Qsum l1 + Qsum l2.
Proof.
  induction l1 as [|x l1 IH]; cbn; [ring|]. rewrite IH. ring.
Qed.

Lemma record_pnls_app (h : list json) (r : json) (ps : list Q) (x : Q) :
  record_pnls h = Return ps -> record_pnl r = Return x ->
  record_pnls (h ++ [r]) = Return (ps ++ [x])%list.
Proof.
  revert ps. induction h as [|t h IH]; intros ps Hh Hr; cbn in Hh |- *.
  - inversion Hh; subst ps. rewrite Hr. reflexivity.
  - destruct (record_pnl t) as [y|]; cbn in Hh |- *; [|discriminate].
    destruct (record_pnls h) as [ys|]; cbn in Hh |- *; [|discriminate].
    inversion Hh; subst ps. rewrite (IH ys eq_refl Hr). reflexivity.
Qed.

Lemma record_pnls_length (h : list json) (ps : list Q) :
  record_pnls h = Return ps -> length ps = length h.
Proof.
  revert ps. induction h as [|t h IH]; intros ps Hh; cbn in Hh.
  - inversion Hh. reflexivity.
  - destruct (record_pnl t) as [y|]; cbn in Hh; [|discriminate].
    destruct (record_pnls h) as [ys|]; cbn in Hh; [|discriminate].
    inversion Hh; subst ps. cbn. rewrite (IH ys eq_refl). reflexivity.
Qed.

Lemma open_exposure_app (b b' : Q) (l : list Position) (h h' : list json)
    (pos : Position) :
  is_open pos = true ->
  open_exposure {| bankroll := b'; positions := (l ++ [pos])%list;
                   trade_history := h' |}
  == open_exposure {| bankroll := b; positions := l; trade_history := h |}
     + size_usd pos.
Proof.
  intro Hopen. unfold open_exposure. cbn [positions].
  rewrite filter_app, map_app, Qsum_app. cbn [filter]. rewrite Hopen.
  cbn. ring.
Qed.

Lemma open_exposure_close (l : list Position) (i : nat) (p : Position) :
  nth_error l i = Some p -> is_open p = true ->
  Qsum (map size_usd (filter is_open (list_set i (set_status p "closed") l)))
  == Qsum (map size_usd (filter is_open l)) - size_usd p.
Proof.
  revert i. induction l as [|q l IH]; intros [|i] E Hopen; cbn in E;
    try discriminate.
  - inversion E; subst q. cbn [list_set filter].
    rewrite Hopen. cbn. ring.
  - cbn [list_set filter]. destruct (is_open q); cbn [map Qsum].
    + rewrite (IH i E Hopen). ring.
    + apply (IH i E Hopen).
Qed.

Lemma run_equity (cs : list Call) :
  forall (w : World) (ps : list Q),
    closes_open_positions cs w = true ->
    record_pnls (trade_history (self w)) = Return ps ->
    exists w' ps',
      run cs w = (Return tt, w')
      /\ record_pnls (trade_history (self w')) = Return ps'
      /\ bankroll (self w') + open_exposure (self w') - Qsum ps'
         == bankroll (self w) + open_exposure (self w) - Qsum ps.
Proof.
  induction cs as [|c cs IH]; intros w ps Hd Hps.
  - exists w, ps. split; [reflexivity|]. split; [exact Hps|reflexivity].
  - cbn [closes_open_positions] in Hd. apply andb_true_iff in Hd.
    destruct Hd as [Hc Hd].
    destruct c as [a1 a2 a3 a4 price size our market a9 a10 | r x pnl reason].
    + destruct (open_position_world a1 a2 a3 a4 price size our market a9 a10 w)
        as (pos & w1 & Hrun & Hself & _ & _ & _ & Hopen & Hsize & _).
      assert (Hsnd : snd (call (Open a1 a2 a3 a4 price size our market a9 a10) w)
                     = w1).
      { cbn [call]. unfold bind at 1. rewrite Hrun. reflexivity. }
      rewrite Hsnd in Hd.
      destruct (IH w1 ps Hd) as (w' & ps' & Hrun' & Hps' & Heq).
      { rewrite Hself. exact Hps. }
      exists w', ps'. split.
      * cbn [run call]. unfold bind at 1. unfold bind at 1.
        rewrite Hrun. cbn. exact Hrun'.
      * split; [exact Hps'|]. rewrite Heq, Hself. cbn [bankroll].
        rewrite (open_exposure_app (bankroll (self w)) _ _
                   (trade_history (self w)) _ pos Hopen), Hsize.
        destruct (self w). cbn. ring.
    + destruct r as [i | p0]; [|discriminate].
      destruct (nth_error (positions (self w)) i) as [p|] eqn:E;
        [|discriminate].
      destruct (close_position_world i x pnl reason w p E)
        as (w1 & record & Hrun & Hself & Hpnl & _).
      assert (Hsnd : snd (call (Close (Held i) x pnl reason) w) = w1).
      { cbn [call]. rewrite Hrun. reflexivity. }
      rewrite Hsnd in Hd.
      destruct (IH w1 (ps ++ [pnl])%list Hd) as (w' & ps' & Hrun' & Hps' & Heq).
      { rewrite Hself. cbn [trade_history].
        apply record_pnls_app; assumption. }
      exists w', ps'. split.
      * cbn [run call]. unfold bind at 1. rewrite Hrun. exact Hrun'.
      * split; [exact Hps'|]. rewrite Heq, Hself.
        unfold open_exposure. cbn [bankroll positions].
        rewrite (open_exposure_close _ i p E Hc), Qsum_app. cbn. ring.
Qed.

Lemma get_stats_value (w : World) (ps : list Q) :
  record_pnls (trade_history (self w)) = Return ps ->
  exists st,
    get_stats w = (Return st, w)
    /\ stat_bankroll st = bankroll (self w)
    /\ stat_total_exposure st = open_exposure (self w)
    /\ stat_total_pnl st = Qsum ps.
Proof.
  intro Hps. unfold get_stats, bind, get_self. rewrite Hps.
  eexists. split; [reflexivity|]. cbn. auto.
Qed.

(** Conservation of equity.  Over any sequence of opens and closes in
    which each close is handed a held position that is still open, the
    bankroll plus the open exposure minus the realised pnl, as
    [get_stats] reports them, does not change: money only moves between
    the bankroll and open stakes, and pnl is all that is gained or
    lost. *)
Theorem equity_conserved (cs : list Call) (w : World) (ps : list Q) :
  closes_open_positions cs w = true ->
  record_pnls (trade_history (self w)) = Return ps ->
  exists w' st st',
    run cs w = (Return tt, w')
    /\ get_stats w = (Return st, w)
    /\ get_stats w' = (Return st', w')
    /\ equity_balance st' == equity_balance st.
Proof.
  intros Hd Hps.
  destruct (run_equity cs w ps Hd Hps) as (w' & ps' & Hrun & Hps' & Heq).
  destruct (get_stats_value w ps Hps) as (st & Hst & Hb & He & Hp).
  destruct (get_stats_value w' ps' Hps') as (st' & Hst' & Hb' & He' & Hp').
  exists w', st, st'. repeat split; try assumption.
  unfold equity_balance. rewrite Hb, He, Hp, Hb', He', Hp'. exact Heq.
Qed.

Lemma equity_conserved_witness :
  exists w' st st',
    run [Open "m1" "q" "t1" "YES" (5 # 10) 50 (65 # 100) (5 # 10) "btc" "";
         Close (Held 0) (1 # 1) 10 "resolved"] world_1000
    = (Return tt, w')
    /\ get_stats world_1000 = (Return st, world_1000)
    /\ get_stats w' = (Return st', w')
    /\ equity_balance st' == equity_balance st.
Proof.
  apply (equity_conserved
           [Open "m1" "q" "t1" "YES" (5 # 10) 50 (65 # 100) (5 # 10) "btc" "";
            Close (Held 0) (1 # 1) 10 "resolved"] world_1000 []);
    reflexivity.
Defined.

Lemma filter_negb_length {A : Type} (f : A -> bool) (l : list A) :
  (length (filter f l) + length (filter (fun x => negb (f x)) l))%nat
  = length l.
Proof.
  induction l as [|x l IH]; cbn; [reflexivity|].
  destruct (f x); cbn; lia.
Qed.

Lemma open_closed_disjoint (l : list Position) :
  (length (filter is_open l) + length (filter is_closed l) <= length l)%nat.
Proof.
  induction l as [|p l IH]; cbn [filter length]; [lia|].
  destruct (is_open p) eqn:Eo, (is_closed p) eqn:Ec; cbn [length]; try lia.
  exfalso. unfold is_open, is_closed in Eo, Ec.
  apply String.eqb_eq in Eo. apply String.eqb_eq in Ec.
  rewrite Eo in Ec. discriminate.
Qed.

(** [get_stats] leaves the world as it is.  When it answers, every
    trade-history record counts as exactly one win or one loss, the win
    rate lies in [0, 1], and open and closed positions together are no
    more than the positions held; it raises only when a record of the
    history has no readable pnl. *)
Theorem get_stats_consistent (w : World) :
  snd (get_stats w) = w
  /\ match fst (get_stats w) with
     | Return st =>
         (stat_wins st + stat_losses st)%nat = length (trade_history (self w))
         /\ 0 <= stat_win_rate st /\ stat_win_rate st <= 1
         /\ (stat_open_positions st + stat_closed_trades st
             <= length (positions (self w)))%nat
         /\ stat_bankroll st = bankroll (self w)
     | Raise e =>
         exists t, In t (trade_history (self w)) /\ record_pnl t = Raise e
     end.
Proof.
  unfold get_stats, bind, get_self.
  destruct (record_pnls (trade_history (self w))) as [ps|e] eqn:Hps.
  - cbn. split; [reflexivity|].
    assert (Hpart : (length (filter (fun x => Qlt_bool 0 x) ps)
                     + length (filter (fun x => Qle_bool x 0) ps))%nat
                    = length ps).
    { rewrite Nat.add_comm.
      exact (filter_negb_length (fun x => Qle_bool x 0) ps). }
    set (wins := length (filter (fun x => Qlt_bool 0 x) ps)) in *.
    set (losses := length (filter (fun x => Qle_bool x 0) ps)) in *.
    split; [rewrite Hpart; apply record_pnls_length; exact Hps|].
    assert (Hrate : 0 <= (if (0 <? wins + losses)%nat
                          then inject_Z (Z.of_nat wins)
                               / inject_Z (Z.of_nat (wins + losses))
                          else 0)
                    /\ (if (0 <? wins + losses)%nat
                        then inject_Z (Z.of_nat wins)
                             / inject_Z (Z.of_nat (wins + losses))
                        else 0) <= 1).
    { destruct (0 <? wins + losses)%nat eqn:Et; [|split; discriminate].
      apply Nat.ltb_lt in Et.
      assert (Hden : 0 < inject_Z (Z.of_nat (wins + losses))).
      { change 0 with (inject_Z 0). rewrite <- Zlt_Qlt. lia. }
      split.
      - apply Qle_shift_div_l; [exact Hden|].
        rewrite Qmult_0_l. change 0 with (inject_Z 0).
        rewrite <- Zle_Qle. lia.
      - apply Qle_shift_div_r; [exact Hden|].
        rewrite Qmult_1_l. rewrite <- Zle_Qle. lia. }
    destruct Hrate as [Hr0 Hr1].
    repeat split; auto. apply open_closed_disjoint.
  - cbn. split; [reflexivity|].
    clear -Hps. induction (trade_history (self w)) as [|t h IH];
      cbn in Hps; [discriminate|].
    destruct (record_pnl t) as [y|e'] eqn:Et; cbn in Hps.
    + destruct (record_pnls h) as [ys|e'']; cbn in Hps; [discriminate|].
      inversion Hps; subst e''.
      destruct (IH eq_refl) as (t' & Hin & Ht'). exists t'. split; auto.
      right. exact Hin.
    + inversion Hps; subst e'. exists t. split; [left; reflexivity|exact Et].
Qed.

Lemma close_position_log (r : PosRef) (exit_price pnl : Q) (reason : string)
    (w : World) (p : Position) :
  fst (deref r w) = Return p ->
  exists w' line record,
    close_position r exit_price pnl reason w = (Return tt, w')
    /\ trade_log w' = (trade_log w ++ [line])%list
    /\ trade_history (self w') = (trade_history (self w) ++ [record])%list
    /\ length (positions (self w')) = length (positions (self w))
    /\ state_file w' = Some (snapshot (self w')).
Proof.
  intro Hp. destruct r as [i | p0].
  - unfold deref, bind, get_self in Hp. cbn in Hp.
    destruct (nth_error (positions (self w)) i) as [p1|] eqn:E; cbn in Hp;
      inversion Hp; subst p1.
    destruct (close_position_world i exit_price pnl reason w p E)
      as (w' & record & Hrun & Hself & _ & Hfile & [line Hlog] & _).
    exists w', line, record. rewrite Hself. cbn [trade_history positions].
    rewrite list_set_length. rewrite Hself in Hfile. auto.
  - cbn in Hp. inversion Hp; subst p0.
    unfold close_position, bind at 1. cbn [deref ret].
    do 3 eexists. split; [reflexivity|]. cbn. auto.
Qed.

(** The two histories only grow.  A run whose closes are handed
    existing positions appends exactly one line per call to the trade
    log and one record per close to the trade history, leaves every
    earlier line and record in place, adds one position per open and
    removes none, and, if it made any call, ends with the state file
    equal to the snapshot of the manager in memory. *)
Theorem journals_append_only (cs : list Call) (w : World) :
  well_referenced cs (length (positions (self w))) = true ->
  exists w' lines records,
    run cs w = (Return tt, w')
    /\ trade_log w' = (trade_log w ++ lines)%list
    /\ length lines = length cs
    /\ trade_history (self w') = (trade_history (self w) ++ records)%list
    /\ length records = count_closes cs
    /\ (length (positions (self w')) + count_closes cs)%nat
       = (length (positions (self w)) + length cs)%nat
    /\ (cs = [] \/ state_file w' = Some (snapshot (self w'))).
Proof.
  revert w. induction cs as [|c cs IH]; intros w Hwf.
  - exists w, [], []. rewrite !app_nil_r. cbn. repeat split; auto.
  - destruct c as [a1 a2 a3 a4 price size our market a9 a10 | r x pnl reason].
    + destruct (open_position_world a1 a2 a3 a4 price size our market a9 a10 w)
        as (pos & w1 & Hrun & Hself & Hfile & [line Hlog] & _).
      cbn [well_referenced] in Hwf.
      destruct (IH w1) as (w' & lines & records & Hrun' & Hl & Hll & Hh & Hhl
                           & Hpos & Hf).
      { rewrite Hself. cbn [positions]. rewrite length_app. cbn [length].
        replace (length (positions (self w)) + 1)%nat
          with (S (length (positions (self w)))) by lia.
        exact Hwf. }
      exists w', (line :: lines), records.
      split.
      { cbn [run call]. unfold bind at 1. unfold bind at 1.
        rewrite Hrun. cbn. exact Hrun'. }
      rewrite Hl, Hlog, <- app_assoc. split; [reflexivity|].
      split; [cbn; lia|].
      rewrite Hh, Hself. cbn [trade_history]. split; [reflexivity|].
      split; [exact Hhl|].
      rewrite Hself in Hpos. cbn [positions] in Hpos.
      rewrite length_app in Hpos. cbn [length] in Hpos.
      split; [unfold count_closes in *; cbn [filter length] in *; lia|].
      right. destruct Hf as [Hnil | Hf]; [|exact Hf].
      subst cs. cbn in Hrun'. inversion Hrun'; subst w'. exact Hfile.
    + assert (Hderef : exists p, fst (deref r w) = Return p).
      { destruct r as [i | p]; [|eexists; reflexivity].
        cbn [well_referenced] in Hwf. apply andb_true_iff in Hwf.
        destruct Hwf as [Hi _]. apply Nat.ltb_lt in Hi.
        destruct (nth_error (positions (self w)) i) as [p|] eqn:E.
        - exists p. unfold deref, bind, get_self. cbn. rewrite E. reflexivity.
        - apply nth_error_None in E. lia. }
      destruct Hderef as [p Hp].
      destruct (close_position_log r x pnl reason w p Hp)
        as (w1 & line & record & Hrun & Hlog & Hhist & Hlen & Hfile).
      destruct (IH w1) as (w' & lines & records & Hrun' & Hl & Hll & Hh & Hhl
                           & Hpos & Hf).
      { rewrite Hlen. destruct r as [i | p0]; cbn [well_referenced] in Hwf.
        - apply andb_true_iff in Hwf. tauto.
        - exact Hwf. }
      exists w', (line :: lines), (record :: records).
      split.
      { cbn [run call]. unfold bind at 1. rewrite Hrun. exact Hrun'. }
      rewrite Hl, Hlog, <- app_assoc. split; [reflexivity|].
      split; [cbn; lia|].
      rewrite Hh, Hhist, <- app_assoc. split; [reflexivity|].
      unfold count_closes in *. cbn [filter length] in *.
      split; [lia|]. split; [lia|].
      right. destruct Hf as [Hnil | Hf]; [|exact Hf].
      subst cs. cbn in Hrun'. inversion Hrun'; subst w'. exact Hfile.
Qed.

Lemma journals_append_only_witness :
  exists w' lines records,
    run [Open "m1" "q" "t1" "YES" (5 # 10) 50 (65 # 100) (5 # 10) "btc" "";
         Close (Held 0) (1 # 1) 10 "resolved"] world_1000
    = (Return tt, w')
    /\ trade_log w' = (trade_log world_1000 ++ lines)%list
    /\ length lines = 2%nat
    /\ trade_history (self w')
       = (trade_history (self world_1000) ++ records)%list
    /\ length records = 1%nat
    /\ (length (positions (self w')) + 1)%nat
       = (length (positions (self world_1000)) + 2)%nat
    /\ ([Open "m1" "q" "t1" "YES" (5 # 10) 50 (65 # 100) (5 # 10) "btc" "";
         Close (Held 0) (1 # 1) 10 "resolved"] = []
        \/ state_file w' = Some (snapshot (self w'))).
Proof.
  apply (journals_append_only
           [Open "m1" "q" "t1" "YES" (5 # 10) 50 (65 # 100) (5 # 10) "btc" "";
            Close (Held 0) (1 # 1) 10 "resolved"] world_1000).
  reflexivity.
Defined.

(** ** Loading: what a missing or damaged state file does *)

Lemma load_state_no_file (w : World) :
  state_file w = None -> _load_state w = (Return tt, w).
Proof.
  intro E. unfold _load_state, bind, read_state_file. rewrite E. reflexivity.
Qed.

Lemma Position_init_missing_market_id (kw : list (string * json)) :
  dict_get "market_id" kw = None -> Position_init kw = Raise TypeError.
Proof.
  intro E. unfold Position_init.
  destruct (negb _); [reflexivity|].
  unfold kw_str at 1. rewrite E. reflexivity.
Qed.

(** [_load_state] never raises, and a damaged file is not all or
    nothing.  Without a state file, or with one whose top level is not
    an object, the manager is left as it is.  With an object whose
    ["bankroll"] is a number but whose ["positions"] cannot be iterated
    (null, a boolean, a number), or whose first position lacks
    ["market_id"], the error is swallowed after the bankroll has been
    replaced: the manager ends with the file's bankroll and its own old
    positions and trade history. *)
Theorem load_state_failure_modes (w : World) :
  (state_file w = None -> _load_state w = (Return tt, w))
  /\ (forall j, state_file w = Some j -> not_a_dict j = true ->
        _load_state w = (Return tt, w))
  /\ (forall kv x v,
        state_file w = Some (JDict kv) ->
        dict_get "bankroll" kv = Some (JNum x) ->
        dict_get "positions" kv = Some v ->
        not_iterable v = true
        \/ (exists kw rest, v = JList (JDict kw :: rest)
                            /\ dict_get "market_id" kw = None) ->
        fst (_load_state w) = Return tt
        /\ bankroll (self (snd (_load_state w))) = x
        /\ positions (self (snd (_load_state w))) = positions (self w)
        /\ trade_history (self (snd (_load_state w)))
           = trade_history (self w)
        /\ state_file (snd (_load_state w)) = state_file w).
Proof.
  split; [|split].
  - apply load_state_no_file.
  - intros j E Hj. unfold _load_state, bind at 1, read_state_file. rewrite E.
    destruct j; try discriminate; reflexivity.
  - intros kv x v E Hb Hp Hv.
    assert (Hload : exists w',
               _load_state w = (Return tt, w')
               /\ bankroll (self w') = x
               /\ positions (self w') = positions (self w)
               /\ trade_history (self w') = trade_history (self w)
               /\ state_file w' = state_file w).
    { unfold _load_state, bind at 1, read_state_file. rewrite E.
      unfold try_except, bind at 1. cbn [ret].
      unfold bind at 1. unfold get_self at 1.
      unfold bind at 1. rewrite Hb. cbn [ret].
      unfold bind at 1. unfold set_bankroll at 1, bind at 1, get_self at 1,
        put_self at 1.
      unfold bind at 1. rewrite Hp.
      destruct Hv as [Hv | (kw & rest & Hv & Hkw)].
      + destruct v; try discriminate; cbn; eexists;
          (split; [reflexivity|]); cbn; rewrite ?E; auto.
      + subst v. cbn [iter_items ret]. unfold bind at 1.
        cbn [mapM]. unfold bind at 1. cbn [Position_of_json].
        unfold new_Position. rewrite (Position_init_missing_market_id kw Hkw).
        cbn. eexists. split; [reflexivity|]. cbn. rewrite ?E. auto. }
    destruct Hload as (w' & Hrun & Hfacts). rewrite Hrun. cbn [fst snd].
    split; [reflexivity|exact Hfacts].
Qed.

(** A state file that says bankroll 500 and positions null. *)
Lemma load_state_failure_modes_witness :
  fst (_load_state damaged_world) = Return tt
  /\ bankroll (self (snd (_load_state damaged_world))) = 500
  /\ positions (self (snd (_load_state damaged_world)))
     = positions (self damaged_world)
  /\ trade_history (self (snd (_load_state damaged_world)))
     = trade_history (self damaged_world)
  /\ state_file (snd (_load_state damaged_world)) = state_file damaged_world.
Proof.
  apply (proj2 (proj2 (load_state_failure_modes damaged_world))
           [("bankroll", JNum 500); ("positions", JNull)] 500 JNull);
    try reflexivity.
  left. reflexivity.
Defined.

(** A manager constructed without a state file, whatever
    [config.INITIAL_BANKROLL] was read from the environment: it has no
    positions and no history; a bankroll argument of 0, like a missing
    one, is replaced by the configured initial bankroll, and any other
    argument is kept; so its bankroll is zero only if the configured
    initial bankroll is.  [__init__] is this constructor at the default
    of 1000. *)
Theorem init_without_state_file (INITIAL_BANKROLL : Q) (b : option Q)
    (w : World) :
  state_file w = None ->
  positions (self (snd (__init__configured INITIAL_BANKROLL b w))) = []
  /\ trade_history (self (snd (__init__configured INITIAL_BANKROLL b w))) = []
  /\ bankroll (self (snd (__init__configured INITIAL_BANKROLL b w)))
     = match b with
       | Some x => if Qeq_bool x 0 then INITIAL_BANKROLL else x
       | None => INITIAL_BANKROLL
       end
  /\ (Qeq_bool INITIAL_BANKROLL 0 = false ->
      Qeq_bool
        (bankroll (self (snd (__init__configured INITIAL_BANKROLL b w)))) 0
      = false)
  /\ (Qeq_bool INITIAL_BANKROLL 0 = true ->
      b = None \/ b = Some 0 ->
      Qeq_bool
        (bankroll (self (snd (__init__configured INITIAL_BANKROLL b w)))) 0
      = true)
  /\ __init__ b w = __init__configured config.INITIAL_BANKROLL b w.
Proof.
  intro E.
  assert (Hrun : __init__configured INITIAL_BANKROLL b w
                 = (Return tt,
                    {| self := {| bankroll :=
                                    match b with
                                    | Some x =>
                                        if Qeq_bool x 0 then INITIAL_BANKROLL
                                        else x
                                    | None => INITIAL_BANKROLL
                                    end;
                                  positions := []; trade_history := [] |};
                       state_file := state_file w;
                       trade_log := trade_log w;
                       utc_now := utc_now w;
                       clock_reads := clock_reads w |})).
  { unfold __init__configured, bind, put_self.
    match goal with
    | |- context [_load_state ?w1] => rewrite (load_state_no_file w1 E)
    end.
    destruct b; reflexivity. }
  rewrite Hrun. cbn [snd self bankroll positions trade_history].
  split; [reflexivity|]. split; [reflexivity|]. split; [reflexivity|].
  split; [|split; [|reflexivity]].
  - intro Hc. destruct b as [x|]; [|exact Hc].
    destruct (Qeq_bool x 0) eqn:Ex; [exact Hc|exact Ex].
  - intros Hc [-> | ->]; [exact Hc|].
    change (Qeq_bool 0 0) with true. cbv iota. exact Hc.
Qed.

Lemma init_without_state_file_witness :
  positions (self (snd (__init__configured 250 (Some 0) world_1000))) = []
  /\ trade_history (self (snd (__init__configured 250 (Some 0) world_1000)))
     = []
  /\ bankroll (self (snd (__init__configured 250 (Some 0) world_1000))) = 250.
Proof.
  destruct (init_without_state_file 250 (Some 0) world_1000 eq_refl)
    as (Hp & Hh & Hb & _).
  split; [exact Hp|]. split; [exact Hh|exact Hb].
Defined.

(** ** Statistics on reachable ledgers *)

Lemma close_detached_world (p : Position) (exit_price pnl : Q) (reason : string)
    (w : World) :
  exists w' record,
    close_position (Detached p) exit_price pnl reason w = (Return tt, w')
    /\ self w' = {| bankroll := bankroll (self w) + (size_usd p + pnl);
                    positions := positions (self w);
                    trade_history :=
                      (trade_history (self w) ++ [record])%list |}
    /\ record_pnl record = Return pnl
    /\ state_file w' = Some (snapshot (self w'))
    /\ utc_now w' = utc_now w.
Proof.
  unfold close_position, bind at 1. cbn [deref ret].
  do 2 eexists. split; [reflexivity|]. cbn. auto.
Qed.

Lemma wellformed_init (b : option Q) (w : World) :
  (forall n, utc_now w n <> "") ->
  (state_file w = None
   \/ exists rm, state_file w = Some (snapshot rm) /\ wellformed rm) ->
  wellformed (self (snd (__init__ b w)))
  /\ (forall n, utc_now (snd (__init__ b w)) n <> "")
  /\ (state_file (snd (__init__ b w)) = None
      \/ exists rm, state_file (snd (__init__ b w)) = Some (snapshot rm)
                    /\ wellformed rm).
Proof.
  intros Hclock Hfile. unfold __init__, bind, put_self.
  destruct Hfile as [Hnone | (rm & Hsome & Hwf)].
  - match goal with
    | |- context [_load_state ?w1] => rewrite (load_state_no_file w1 Hnone)
    end.
    cbn. split; [|auto].
    split; [constructor|]. split; [constructor|]. exists []. reflexivity.
  - match goal with
    | |- context [_load_state ?w1] =>
        rewrite (load_snapshot w1 rm Hsome (proj1 Hwf))
    end.
    cbn. split; [exact Hwf|]. split; [exact Hclock|]. right. exists rm. auto.
Qed.

Lemma wellformed_call (c : Call) (w : World) :
  wellformed (self w) -> (forall n, utc_now w n <> "") ->
  (state_file w = None
   \/ exists rm, state_file w = Some (snapshot rm) /\ wellformed rm) ->
  wellformed (self (snd (call c w)))
  /\ (forall n, utc_now (snd (call c w)) n <> "")
  /\ (state_file (snd (call c w)) = None
      \/ exists rm, state_file (snd (call c w)) = Some (snapshot rm)
                    /\ wellformed rm).
Proof.
  intros (Hst & Hoc & ps & Hps) Hclock Hfile.
  destruct c as [a1 a2 a3 a4 price size our market a9 a10 | r x pnl reason].
  - destruct (open_position_spec a1 a2 a3 a4 price size our market a9 a10 w)
      as (pos & w1 & Hrun & _ & Hstatus & Ht & _ & Hps1 & Hh1 & Hf1 & Hc1).
    assert (Hsnd : snd (call (Open a1 a2 a3 a4 price size our market a9 a10) w)
                   = w1).
    { cbn [call]. unfold bind at 1. rewrite Hrun. reflexivity. }
    rewrite Hsnd.
    assert (Hwf : wellformed (self w1)).
    { split; [|split].
      - rewrite Hps1. apply Forall_app. split; [exact Hst|].
        constructor; [|constructor]. unfold stamped. rewrite Ht. apply Hclock.
      - rewrite Hps1. apply Forall_app. split; [exact Hoc|].
        constructor; [|constructor]. unfold is_open. rewrite Hstatus.
        reflexivity.
      - exists ps. rewrite Hh1. exact Hps. }
    split; [exact Hwf|]. split; [intro n; rewrite Hc1; apply Hclock|].
    right. exists (self w1). auto.
  - cbn [call]. destruct r as [i | p0].
    + destruct (nth_error (positions (self w)) i) as [p|] eqn:E.
      * destruct (close_position_world i x pnl reason w p E)
          as (w1 & record & Hrun & Hself & Hpnl & Hf1 & _ & Hc1).
        rewrite !Hrun. cbn [snd].
        assert (Hwf : wellformed (self w1)).
        { rewrite Hself. split; [|split]; cbn [positions trade_history].
          - apply Forall_list_set; [|exact Hst].
            apply nth_error_In in E. rewrite Forall_forall in Hst.
            exact (Hst p E).
          - apply Forall_list_set; [reflexivity|exact Hoc].
          - exists (ps ++ [pnl])%list. apply record_pnls_app; assumption. }
        split; [exact Hwf|]. split; [intro n; rewrite Hc1; apply Hclock|].
        right. exists (self w1). auto.
      * rewrite !(close_position_bad_ref i x pnl reason w E). cbn [snd].
        split; [|auto]. split; [exact Hst|]. split; [exact Hoc|].
        exists ps. exact Hps.
    + destruct (close_detached_world p0 x pnl reason w)
        as (w1 & record & Hrun & Hself & Hpnl & Hf1 & Hc1).
      rewrite !Hrun. cbn [snd].
      assert (Hwf : wellformed (self w1)).
      { rewrite Hself. split; [|split]; cbn [positions trade_history];
          [exact Hst|exact Hoc|].
        exists (ps ++ [pnl])%list. apply record_pnls_app; assumption. }
      split; [exact Hwf|]. split; [intro n; rewrite Hc1; apply Hclock|].
      right. exists (self w1). auto.
Qed.

Lemma reachable_wellformed (w : World) :
  reachable w ->
  wellformed (self w)
  /\ (forall n, utc_now w n <> "")
  /\ (state_file w = None
      \/ exists rm, state_file w = Some (snapshot rm) /\ wellformed rm).
Proof.
  induction 1 as [w0 b Hnone Hclock | w b _ IH | w c _ IH | w o m s _ IH].
  - apply wellformed_init; auto.
  - destruct IH as (_ & Hclock & Hfile). apply wellformed_init; auto.
  - destruct IH as (Hwf & Hclock & Hfile). apply wellformed_call; auto.
  - assert (Hw : snd (calculate_bet_size o m s w) = w).
    { unfold calculate_bet_size, bind, get_self, ret.
      repeat match goal with
      | |- context [if ?c then _ else _] => destruct c
      end; reflexivity. }
    rewrite Hw. exact IH.
Qed.

Lemma open_closed_partition (l : list Position) :
  Forall (fun p => is_open p || is_closed p = true) l ->
  (length (filter is_open l) + length (filter is_closed l))%nat = length l.
Proof.
  induction 1 as [|p l Hp _ IH]; cbn [filter length]; [reflexivity|].
  destruct (is_open p) eqn:Eo, (is_closed p) eqn:Ec; cbn [length];
    try lia; try discriminate.
  exfalso. unfold is_open, is_closed in Eo, Ec.
  apply String.eqb_eq in Eo. apply String.eqb_eq in Ec.
  rewrite Eo in Ec. discriminate.
Qed.

(** On every ledger reached by starting, restarting, sizing, opening
    and closing, [get_stats] answers without raising; every position is
    counted exactly once, as open or as closed, and every record of the
    trade history as a win or as a loss. *)
Theorem get_stats_on_reachable (w : World) :
  reachable w ->
  exists st,
    get_stats w = (Return st, w)
    /\ (stat_open_positions st + stat_closed_trades st)%nat
       = length (positions (self w))
    /\ (stat_wins st + stat_losses st)%nat = length (trade_history (self w))
    /\ stat_total_exposure st = open_exposure (self w).
Proof.
  intro Hreach.
  destruct (reachable_wellformed w Hreach) as ((_ & Hoc & ps & Hps) & _).
  unfold get_stats, bind, get_self. rewrite Hps.
  eexists. split; [reflexivity|]. cbn.
  split; [apply open_closed_partition; exact Hoc|].
  split; [|reflexivity].
  rewrite <- (record_pnls_length _ _ Hps), Nat.add_comm.
  exact (filter_negb_length (fun x => Qle_bool x 0) ps).
Qed.

Lemma get_stats_on_reachable_witness :
  exists st,
    get_stats traded_world = (Return st, traded_world)
    /\ (stat_open_positions st + stat_closed_trades st)%nat
       = length (positions (self traded_world))
    /\ (stat_wins st + stat_losses st)%nat
       = length (trade_history (self traded_world))
    /\ stat_total_exposure st = open_exposure (self traded_world).
Proof.
  apply (get_stats_on_reachable traded_world).
  unfold traded_world. apply reach_call, reach_call, reach_boot.
  - reflexivity.
  - intro n. cbn. discriminate.
Defined.

(** ** bot.py: executing signals *)

Lemma calculate_bet_size_total (our_prob market_prob : Q) (strategy : string)
    (w : World) :
  exists r, calculate_bet_size our_prob market_prob strategy w = (Return r, w).
Proof.
  unfold calculate_bet_size, bind, get_self, ret.
  repeat match goal with
  | |- context [if ?c then _ else _] => destruct c
  end; eexists; reflexivity.
Qed.

(** The two things [_execute_signal] can do: nothing, or open the
    position that [calculate_bet_size] approved. *)
Lemma execute_signal_cases (paper : bool)
    (order_fails : string -> string -> Q -> bool) (s : bot.Signal)
    (strategy : string) (w : World) :
  exists w',
    bot._execute_signal paper order_fails s strategy w = (Return tt, w')
    /\ (w' = w
        \/ exists pos stake kf,
             fst (calculate_bet_size (bot.our_probability s)
                    (bot.market_probability s) strategy w)
             = Return (stake, kf, "")
             /\ self w'
                = {| bankroll := bankroll (self w) - stake;
                     positions := (positions (self w) ++ [pos])%list;
                     trade_history := trade_history (self w) |}
             /\ state_file w' = Some (snapshot (self w'))
             /\ is_open pos = true
             /\ size_usd pos = stake
             /\ entry_price pos = bot.market_probability s
             /\ shares pos
                = (if Qlt_bool 0 (bot.market_probability s)
                   then stake / bot.market_probability s
                   else 0)
             /\ side pos = bot.recommended_side s).
Proof.
  unfold bot._execute_signal. unfold bind at 1.
  destruct (calculate_bet_size_total (bot.our_probability s)
              (bot.market_probability s) strategy w) as [[[stake kf] reason] Hr].
  rewrite Hr.
  destruct (String.eqb reason "") eqn:Ereason; cbn [negb];
    [|exists w; split; [reflexivity|left; reflexivity]].
  apply String.eqb_eq in Ereason. subst reason.
  assert (Hopen : exists w',
             (open_position (bot.market_id s) (bot.market_question s)
                (bot.token_id s) (bot.recommended_side s)
                (bot.market_probability s) stake (bot.our_probability s)
                (bot.market_probability s) strategy (bot.reasoning s) ;;
              ret tt)%py w = (Return tt, w')
             /\ exists pos stake' kf',
                  fst (calculate_bet_size (bot.our_probability s)
                         (bot.market_probability s) strategy w)
                  = Return (stake', kf', "")
                  /\ self w'
                     = {| bankroll := bankroll (self w) - stake';
                          positions := (positions (self w) ++ [pos])%list;
                          trade_history := trade_history (self w) |}
                  /\ state_file w' = Some (snapshot (self w'))
                  /\ is_open pos = true
                  /\ size_usd pos = stake'
                  /\ entry_price pos = bot.market_probability s
                  /\ shares pos
                     = (if Qlt_bool 0 (bot.market_probability s)
                        then stake' / bot.market_probability s
                        else 0)
                  /\ side pos = bot.recommended_side s).
  { destruct (open_position_world (bot.market_id s) (bot.market_question s)
                (bot.token_id s) (bot.recommended_side s)
                (bot.market_probability s) stake (bot.our_probability s)
                (bot.market_probability s) strategy (bot.reasoning s) w)
      as (pos & w1 & Hrun & Hself & Hfile & _ & _ & Hop & Hsize & Hprice
          & Hshares & Hside).
    exists w1. split.
    - unfold bind. rewrite Hrun. reflexivity.
    - exists pos, stake, kf. rewrite Hr. cbn [fst]. auto 10. }
  destruct Hopen as (w1 & Hrun & Hfacts).
  rewrite Hr in Hfacts.
  destruct paper.
  - exists w1. split; [exact Hrun|right; exact Hfacts].
  - destruct (String.eqb (bot.token_id s) "");
      [exists w; split; [reflexivity|left; reflexivity]|].
    destruct (order_fails _ _ _);
      [exists w; split; [reflexivity|left; reflexivity]|].
    exists w1. split; [exact Hrun|right; exact Hfacts].
Qed.

(** A signal whose probabilities differ by less than the threshold is
    never traded: in paper and in live mode alike, [_execute_signal]
    returns without calling the order backend's result into the ledger,
    and the world (bankroll, positions, history, state file, log) is
    untouched. *)
Theorem execute_signal_below_threshold (paper : bool)
    (order_fails : string -> string -> Q -> bool) (s : bot.Signal)
    (strategy : string) (w : World) :
  bot.our_probability s - bot.market_probability s
  < config.MIN_EDGE_THRESHOLD ->
  bot._execute_signal paper order_fails s strategy w = (Return tt, w).
Proof.
  intro Hedge.
  destruct (execute_signal_cases paper order_fails s strategy w)
    as (w' & Hrun & [Hsame | (pos & stake & kf & Happ & _)]).
  - rewrite Hrun, Hsame. reflexivity.
  - exfalso.
    destruct (approved_edge_kelly_count _ _ _ _ _ _ Happ) as (Hmin & _).
    exact (Qlt_not_le _ _ Hedge Hmin).
Qed.

Lemma execute_signal_below_threshold_witness :
  bot._execute_signal true (fun _ _ _ => false) weak_signal "weather"
    world_1000
  = (Return tt, world_1000).
Proof.
  apply (execute_signal_below_threshold true (fun _ _ _ => false)
           weak_signal "weather" world_1000).
  reflexivity.
Defined.

(** Over exact rationals, a paper trade, when it happens, is sound
    bookkeeping: the position opened is the last one, open, on the
    recommended side, entered at the market probability with the
    approved stake; its share count times the entry price gives back
    the stake; the stake is at least the minimum bet and at most 5% of
    the bankroll plus half a cent; the bankroll is debited by it and
    stays at 18.995 or more.  (On binary64 the quotient and the
    products round, so the equalities hold up to rounding.) *)
Theorem paper_trade_bookkeeping (order_fails : string -> string -> Q -> bool)
    (s : bot.Signal) (strategy : string) (w : World) :
  exists w',
    bot._execute_signal true order_fails s strategy w = (Return tt, w')
    /\ (w' = w
        \/ exists pos,
             positions (self w') = (positions (self w) ++ [pos])%list
             /\ trade_history (self w') = trade_history (self w)
             /\ bankroll (self w') = bankroll (self w) - size_usd pos
             /\ is_open pos = true
             /\ side pos = bot.recommended_side s
             /\ entry_price pos = bot.market_probability s
             /\ shares pos * entry_price pos == size_usd pos
             /\ config.MIN_BET_SIZE_USD <= size_usd pos
             /\ size_usd pos
                <= bankroll (self w) * config.MAX_SINGLE_BET_PCT + (1 # 200)
             /\ 18995 # 1000 <= bankroll (self w')).
Proof.
  destruct (execute_signal_cases true order_fails s strategy w)
    as (w' & Hrun & [Hsame | (pos & stake & kf & Happ & Hself & _ & Hop
                              & Hsize & Hprice & Hshares & Hside)]).
  - exists w'. split; [exact Hrun|left; exact Hsame].
  - exists w'. split; [exact Hrun|]. right. exists pos.
    destruct (approved_edge_kelly_count _ _ _ _ _ _ Happ)
      as (_ & Hkf & Hpos & _).
    destruct (calculate_bet_size_approved _ _ _ _ _ _ Happ)
      as (bet & Hround & Hmin & Hcap & _ & Hnear & _).
    assert (Hm : 0 < bot.market_probability s).
    { destruct (kelly_size_positive (bot.our_probability s)
                  (bot.market_probability s) None) as [Hz | (Hm0 & _)];
        [|exact Hm0].
      exfalso. rewrite Hkf, Hz in Hpos. exact (Qlt_irrefl _ Hpos). }
    assert (Hstake : config.MIN_BET_SIZE_USD <= stake).
    { rewrite Hround. apply py_round_2_ge_1. exact Hmin. }
    rewrite Hself. cbn [positions trade_history bankroll].
    rewrite Hsize, Hprice, Hshares.
    apply Qlt_bool_iff in Hm as Hmb. rewrite Hmb.
    unfold config.MIN_BET_SIZE_USD, config.MAX_SINGLE_BET_PCT in *.
    repeat split; auto; try lra.
    field. intro Hz. rewrite Hz in Hm. exact (Qlt_irrefl _ Hm).
Qed.

(** A scan never raises, and whatever signals it is given, in paper or
    live mode: it only appends open positions, it never lets the count
    of open positions pass ten if it was not already above, it never
    raises the bankroll, and it never takes a bankroll that was at
    least 18.995 below 18.995. *)
Theorem scan_keeps_limits (paper : bool)
    (order_fails : string -> string -> Q -> bool) (strategy : string)
    (analysed : list (option bot.Signal)) (w : World) :
  exists w' opened,
    bot._run_scan paper order_fails strategy analysed w = (Return tt, w')
    /\ positions (self w') = (positions (self w) ++ opened)%list
    /\ Forall (fun p => is_open p = true) opened
    /\ bankroll (self w') <= bankroll (self w)
    /\ ((length (filter is_open (positions (self w)))
         <= config.MAX_OPEN_POSITIONS)%nat ->
        (length (filter is_open (positions (self w')))
         <= config.MAX_OPEN_POSITIONS)%nat)
    /\ (18995 # 1000 <= bankroll (self w) ->
        18995 # 1000 <= bankroll (self w')).
Proof.
  revert w. induction analysed as [|a analysed IH]; intro w.
  - exists w, []. rewrite app_nil_r. cbn.
    repeat split; auto using Qle_refl.
  - assert (Hstep : exists w1 opened1,
               bot.scan_market paper order_fails strategy a w = (Return tt, w1)
               /\ positions (self w1) = (positions (self w) ++ opened1)%list
               /\ Forall (fun p => is_open p = true) opened1
               /\ bankroll (self w1) <= bankroll (self w)
               /\ ((length (filter is_open (positions (self w)))
                    <= config.MAX_OPEN_POSITIONS)%nat ->
                   (length (filter is_open (positions (self w1)))
                    <= config.MAX_OPEN_POSITIONS)%nat)
               /\ (18995 # 1000 <= bankroll (self w) ->
                   18995 # 1000 <= bankroll (self w1))).
    { assert (Hnone : exists w1 opened1,
                 (Return tt, w) = (Return tt, w1)
                 /\ positions (self w1) = (positions (self w) ++ opened1)%list
                 /\ Forall (fun p => is_open p = true) opened1
                 /\ bankroll (self w1) <= bankroll (self w)
                 /\ ((length (filter is_open (positions (self w)))
                      <= config.MAX_OPEN_POSITIONS)%nat ->
                     (length (filter is_open (positions (self w1)))
                      <= config.MAX_OPEN_POSITIONS)%nat)
                 /\ (18995 # 1000 <= bankroll (self w) ->
                     18995 # 1000 <= bankroll (self w1))).
      { exists w, []. rewrite app_nil_r.
        repeat split; auto using Qle_refl. }
      unfold bot.scan_market, try_except.
      destruct a as [s|]; [|exact Hnone].
      destruct (Qle_bool config.MIN_EDGE_THRESHOLD (Qabs (bot.edge s)));
        [|exact Hnone].
      destruct (execute_signal_cases paper order_fails s strategy w)
        as (w1 & Hrun & [Hsame | (pos & stake & kf & Happ & Hself & _ & Hop
                                  & _)]).
      - rewrite Hrun, Hsame. exact Hnone.
      - rewrite Hrun. exists w1, [pos].
        destruct (approved_edge_kelly_count _ _ _ _ _ _ Happ)
          as (_ & _ & _ & Hcount).
        destruct (calculate_bet_size_approved _ _ _ _ _ _ Happ)
          as (bet & Hround & Hmin & Hcap & _ & Hnear & _).
        assert (Hstake : config.MIN_BET_SIZE_USD <= stake).
        { rewrite Hround. apply py_round_2_ge_1. exact Hmin. }
        rewrite Hself. cbn [positions bankroll].
        unfold config.MIN_BET_SIZE_USD, config.MAX_SINGLE_BET_PCT in *.
        split; [reflexivity|]. split; [reflexivity|].
        split; [constructor; [exact Hop|constructor]|].
        split; [lra|]. split.
        + intros _. rewrite filter_app, length_app. cbn [filter].
          rewrite Hop. cbn [length]. lia.
        + intros _. lra. }
    destruct Hstep as (w1 & opened1 & Hrun1 & Hps1 & Hop1 & Hb1 & Hc1 & Hl1).
    destruct (IH w1) as (w' & opened & Hrun & Hps & Hop & Hb & Hc & Hl).
    exists w', (opened1 ++ opened)%list. split.
    { cbn [bot._run_scan]. unfold bind at 1. rewrite Hrun1. exact Hrun. }
    split; [rewrite Hps, Hps1, app_assoc; reflexivity|].
    split; [apply Forall_app; auto|].
    split; [apply Qle_trans with (1 := Hb); exact Hb1|].
    split; auto.
Qed.

(** ** btc_strategy.py: the indicators *)

Lemma Qsum_nonneg (l : list Q) :
  Forall (fun x => 0 <= x) l -> 0 <= Qsum l.
Proof.
  induction 1 as [|x l Hx _ IH]; cbn [Qsum]; lra.
Qed.

Lemma Forall_skipn_keep {A : Type} (P : A -> Prop) (n : nat) (l : list A) :
  Forall P l -> Forall P (skipn n l).
Proof.
  revert l. induction n as [|n IH]; intros l Hl; [exact Hl|].
  destruct Hl as [|x l _ Hl]; cbn [skipn]; [constructor|auto].
Qed.

Lemma Forall_last_n {A : Type} (P : A -> Prop) (n : nat) (l : list A) :
  Forall P l -> Forall P (last_n n l).
Proof.
  intro Hl. destruct n; cbn [last_n]; [exact Hl|].
  apply Forall_skipn_keep. exact Hl.
Qed.

Lemma np_mean_nonneg (l : list Q) (m : Q) :
  Forall (fun x => 0 <= x) l -> np_mean l = Some m -> 0 <= m.
Proof.
  intros Hl Hm. destruct l as [|x l]; [discriminate|].
  injection Hm as <-.
  pose proof (Qsum_nonneg _ Hl) as Hs.
  apply Qle_shift_div_l; [|rewrite Qmult_0_l; exact Hs].
  change 0 with (inject_Z 0). rewrite <- Zlt_Qlt. cbn [length]. lia.
Qed.

(** The RSI, whenever it is a number, lies between 0 and 100, whatever
    the closes and the period. *)
Theorem rsi_range (closes : list Q) (period : nat) (r : Q) :
  btc_strategy._calculate_rsi closes period = Some r ->
  0 <= r <= 100.
Proof.
  unfold btc_strategy._calculate_rsi.
  destruct (length closes <? period + 1)%nat.
  { intros [= <-]. lra. }
  cbv zeta.
  destruct (np_mean (last_n period (map _ (np_diff closes)))) as [ag|] eqn:Hg;
    [|discriminate].
  destruct (np_mean (last_n period (map (fun d => if Qlt_bool d 0 then - d else 0)
                                      (np_diff closes)))) as [al|] eqn:Hl;
    [|discriminate].
  assert (Hag : 0 <= ag).
  { refine (np_mean_nonneg _ _ _ Hg).
    apply Forall_last_n, Forall_forall. intros x Hx.
    apply in_map_iff in Hx as (d & <- & _).
    destruct (Qlt_bool 0 d) eqn:Hd; [apply Qlt_bool_iff in Hd|]; lra. }
  assert (Hal : 0 <= al).
  { refine (np_mean_nonneg _ _ _ Hl).
    apply Forall_last_n, Forall_forall. intros x Hx.
    apply in_map_iff in Hx as (d & <- & _).
    destruct (Qlt_bool d 0) eqn:Hd; [apply Qlt_bool_iff in Hd|]; lra. }
  destruct (Qeq_bool al 0) eqn:Hz.
  { intros [= <-]. lra. }
  intros [= <-].
  apply Qeq_bool_false in Hz.
  assert (Hal' : 0 < al) by (apply Qle_lteq in Hal as [H|H]; [exact H|]; exfalso; apply Hz; rewrite <- H; reflexivity).
  assert (Hrs : 0 <= ag / al) by (apply Qle_shift_div_l; lra).
  assert (Hq : 0 < 100 / (1 + ag / al) <= 100).
  { split.
    - apply Qlt_shift_div_l; lra.
    - apply Qle_shift_div_r; lra. }
  lra.
Qed.

Lemma rsi_range_witness :
  exists r,
    btc_strategy._calculate_rsi [1; 2; 1; 3] 2 = Some r /\ 0 <= r <= 100.
Proof.
  eexists. split; [vm_compute; reflexivity|].
  apply (rsi_range [1; 2; 1; 3] 2). vm_compute. reflexivity.
Defined.

Lemma order_flow_fold (trades : list btc_strategy.TradePrint) (acc : Q * Q) :
  Forall (fun t => 0 <= btc_strategy.qty t) trades ->
  0 <= fst acc -> 0 <= snd acc ->
  let r :=
    fold_left
      (fun '(b, s) t =>
         if btc_strategy.isBuyerMaker t then (b, s + btc_strategy.qty t)
         else (b + btc_strategy.qty t, s))
      trades acc in
  0 <= fst r /\ 0 <= snd r.
Proof.
  intro Hq. revert acc.
  induction Hq as [|t trades Ht _ IH]; intros [b s] Hb Hs; cbn [fold_left].
  - auto.
  - cbn [fst snd] in Hb, Hs.
    destruct (btc_strategy.isBuyerMaker t); apply IH; cbn [fst snd]; lra.
Qed.

(** The order-flow imbalance of trades with non-negative quantities
    lies between -1 and +1, as the docstring says. *)
Theorem order_flow_range (trades : list btc_strategy.TradePrint) :
  Forall (fun t => 0 <= btc_strategy.qty t) trades ->
  -1 <= btc_strategy._analyze_order_flow trades <= 1.
Proof.
  intro Hq. unfold btc_strategy._analyze_order_flow.
  destruct trades as [|t trades]; [lra|].
  pose proof (order_flow_fold (t :: trades) (0, 0) Hq (Qle_refl 0) (Qle_refl 0))
    as Hfold.
  cbv zeta in Hfold.
  destruct (fold_left _ (t :: trades) (0, 0)) as [b s].
  cbn [fst snd] in Hfold. destruct Hfold as [Hb Hs].
  destruct (Qeq_bool (b + s) 0) eqn:Hz; [lra|].
  apply Qeq_bool_false in Hz.
  assert (Ht : 0 < b + s).
  { assert (H0 : 0 <= b + s) by lra.
    apply Qle_lteq in H0 as [H|H]; [exact H|].
    exfalso. apply Hz. rewrite <- H. reflexivity. }
  split.
  - apply Qle_shift_div_l; lra.
  - apply Qle_shift_div_r; lra.
Qed.

Lemma order_flow_range_witness :
  -1 <= btc_strategy._analyze_order_flow
          [{| btc_strategy.qty := 2; btc_strategy.isBuyerMaker := true |};
           {| btc_strategy.qty := 1; btc_strategy.isBuyerMaker := false |}]
  <= 1.
Proof.
  apply (order_flow_range
           [{| btc_strategy.qty := 2; btc_strategy.isBuyerMaker := true |};
            {| btc_strategy.qty := 1; btc_strategy.isBuyerMaker := false |}]).
  repeat constructor; cbn; lra.
Defined.

Lemma typical_price_in_range (lo hi : Q) (highs lows closes : list Q) :
  Forall (fun x => lo <= x <= hi) highs ->
  Forall (fun x => lo <= x <= hi) lows ->
  Forall (fun x => lo <= x <= hi) closes ->
  Forall (fun x => lo <= x <= hi)
    (map (fun s => s / 3) (zip_with Qplus (zip_with Qplus highs lows) closes)).
Proof.
  intro Hh. revert lows closes.
  induction Hh as [|h highs Hh _ IH]; intros lows closes Hl Hc;
    [constructor|].
  destruct Hl as [|l lows Hl Hls]; [constructor|].
  destruct Hc as [|c closes Hc Hcs]; [constructor|].
  cbn [zip_with map]. constructor; [|apply IH; assumption].
  unfold Qdiv. change (/ 3) with (1 # 3). lra.
Qed.

(** A volume-weighted sum lies between the extreme prices times the
    total volume. *)
Lemma weighted_sum_bounds (lo hi : Q) (tp vol : list Q) :
  length tp = length vol ->
  Forall (fun x => lo <= x <= hi) tp ->
  Forall (fun x => 0 <= x) vol ->
  lo * Qsum vol <= Qsum (zip_with Qmult tp vol) <= hi * Qsum vol.
Proof.
  intros Hlen Htp. revert vol Hlen.
  induction Htp as [|p tp Hp _ IH]; intros [|v vol] Hlen Hvol;
    try discriminate; cbn [zip_with Qsum]; [lra|].
  inversion Hvol as [|? ? Hv Hvol']; subst.
  injection Hlen as Hlen.
  specialize (IH vol Hlen Hvol').
  nra.
Qed.

Lemma last_n_same_length {A B : Type} (n : nat) (l1 : list A) (l2 : list B) :
  length l1 = length l2 -> length (last_n n l1) = length (last_n n l2).
Proof.
  intro Hlen. destruct n; cbn [last_n]; [exact Hlen|].
  rewrite !length_skipn, Hlen. reflexivity.
Qed.

(** Over exact rationals, the VWAP of a kline table is a price of the
    table: when every high, low and close lies in [lo, hi] and no
    volume is negative, so does the value returned, on the weighted
    branch and on the zero-volume fallback alike.  (On binary64 the
    typical price and the weighted mean round, and can leave the
    interval by a unit in the last place.) *)
Theorem vwap_within_price_range (highs lows closes volumes : list Q)
    (lo hi v : Q) :
  length highs = length lows ->
  length lows = length closes ->
  length closes = length volumes ->
  Forall (fun x => lo <= x <= hi) highs ->
  Forall (fun x => lo <= x <= hi) lows ->
  Forall (fun x => lo <= x <= hi) closes ->
  Forall (fun x => 0 <= x) volumes ->
  btc_strategy._calculate_vwap highs lows closes volumes = Return v ->
  lo <= v <= hi.
Proof.
  intros Hhl Hlc Hcv Hh Hl Hc Hv.
  unfold btc_strategy._calculate_vwap. cbv zeta.
  set (typical := map (fun s => s / 3)
                    (zip_with Qplus (zip_with Qplus highs lows) closes)).
  set (n := Nat.min 60 (length typical)).
  assert (Htyp : Forall (fun x => lo <= x <= hi) typical)
    by (apply typical_price_in_range; assumption).
  assert (Hlen : length typical = length volumes).
  { unfold typical. rewrite length_map, !zip_with_length. lia. }
  destruct (Qeq_bool (Qsum (last_n n volumes)) 0) eqn:Hz.
  - destruct (py_last closes) as [c|] eqn:Hlast; [|discriminate].
    intros [= <-]. unfold py_last in Hlast.
    apply nth_error_In in Hlast.
    exact (proj1 (Forall_forall _ _) Hc _ Hlast).
  - intros [= <-].
    apply Qeq_bool_false in Hz.
    pose proof (Forall_last_n _ n _ Htyp) as Htp.
    pose proof (Forall_last_n _ n _ Hv) as Hvol.
    pose proof (weighted_sum_bounds lo hi _ _
                  (last_n_same_length n _ _ Hlen) Htp Hvol) as [Hlo Hhi].
    pose proof (Qsum_nonneg _ Hvol) as H0.
    assert (Hpos : 0 < Qsum (last_n n volumes)).
    { apply Qle_lteq in H0 as [H|H]; [exact H|].
      exfalso. apply Hz. rewrite <- H. reflexivity. }
    split.
    + apply Qle_shift_div_l; assumption.
    + apply Qle_shift_div_r; assumption.
Qed.

Lemma vwap_within_price_range_witness :
  exists v,
    btc_strategy._calculate_vwap [12; 14] [10; 11] [11; 13] [2; 3] = Return v
    /\ 10 <= v <= 14.
Proof.
  eexists. split; [vm_compute; reflexivity|].
  apply (vwap_within_price_range [12; 14] [10; 11] [11; 13] [2; 3]);
    try reflexivity;
    try (repeat constructor; cbn; lra).
Defined.

(** ** backtest.py: maximum drawdown *)

Lemma drawdown_loop_ge (l : list Q) (peak m : Q) :
  m <= drawdown_loop l peak m.
Proof.
  revert peak m. induction l as [|b l IH]; intros peak m;
    cbn [drawdown_loop]; [apply Qle_refl|].
  cbv zeta. eapply Qle_trans; [|apply IH].
  destruct (Qlt_bool m _) eqn:E; [|apply Qle_refl].
  apply Qlt_bool_iff in E. apply Qlt_le_weak. exact E.
Qed.

(** Measured from a higher peak, the same bankroll is a deeper
    drawdown. *)
Lemma drawdown_mono (p p' b : Q) :
  0 < p -> p <= p' -> 0 < b -> (p - b) / p <= (p' - b) / p'.
Proof.
  intros Hp Hpp Hb.
  assert (Hp' : 0 < p') by lra.
  apply Qle_shift_div_l; [exact Hp'|].
  assert (E : (p - b) / p * p' == (p - b) * p' / p)
    by (field; intro Hz; rewrite Hz in Hp; exact (Qlt_irrefl _ Hp)).
  rewrite E. apply Qle_shift_div_r; [exact Hp|]. nra.
Qed.

Lemma running_peak (peak b : Q) :
  0 < peak ->
  let peak' := if Qlt_bool peak b then b else peak in
  0 < peak' /\ peak <= peak' /\ b <= peak'.
Proof.
  intro Hp. cbv zeta.
  destruct (Qlt_bool peak b) eqn:E;
    [apply Qlt_bool_iff in E|apply Qlt_bool_false in E]; lra.
Qed.

Lemma drawdown_loop_range (l : list Q) (peak m : Q) :
  0 < peak -> Forall (fun b => 0 < b) l -> 0 <= m < 1 ->
  0 <= drawdown_loop l peak m < 1.
Proof.
  intros Hp Hl. revert peak m Hp.
  induction Hl as [|b l Hb _ IH]; intros peak m Hp Hm;
    cbn [drawdown_loop]; [exact Hm|].
  cbv zeta.
  destruct (running_peak peak b Hp) as (Hp' & _ & Hbp).
  cbv zeta in Hp', Hbp.
  apply IH; [exact Hp'|].
  set (peak' := if Qlt_bool peak b then b else peak) in *.
  assert (Hdd : 0 <= (peak' - b) / peak' < 1).
  { split.
    - apply Qle_shift_div_l; lra.
    - apply Qlt_shift_div_r; lra. }
  destruct (Qlt_bool m _); [exact Hdd|exact Hm].
Qed.

Lemma drawdown_loop_dominates_peak (l : list Q) (peak m b : Q) :
  0 < peak -> Forall (fun b => 0 < b) l -> In b l ->
  (peak - b) / peak <= drawdown_loop l peak m.
Proof.
  intros Hp Hl. revert peak m Hp.
  induction Hl as [|x l Hx Hl IH]; intros peak m Hp Hin;
    [contradiction|].
  cbn [drawdown_loop]. cbv zeta.
  destruct (running_peak peak x Hp) as (Hp' & Hpp & _).
  cbv zeta in Hp', Hpp.
  set (peak' := if Qlt_bool peak x then x else peak) in *.
  destruct Hin as [<- | Hin].
  - eapply Qle_trans; [apply (drawdown_mono peak peak' x Hp Hpp Hx)|].
    eapply Qle_trans; [|apply drawdown_loop_ge].
    destruct (Qlt_bool m _) eqn:E; [apply Qle_refl|].
    apply Qlt_bool_false in E. exact E.
  - assert (Hb : 0 < b) by exact (proj1 (Forall_forall _ _) Hl _ Hin).
    eapply Qle_trans; [apply (drawdown_mono peak peak' b Hp Hpp Hb)|].
    apply IH; assumption.
Qed.

Lemma drawdown_loop_dominates (l1 l2 : list Q) (bi bj peak m : Q) :
  0 < peak -> Forall (fun b => 0 < b) (l1 ++ bi :: l2)%list -> In bj l2 ->
  (bi - bj) / bi <= drawdown_loop (l1 ++ bi :: l2)%list peak m.
Proof.
  revert peak m. induction l1 as [|x l1 IH]; intros peak m Hp Hl Hin.
  - cbn [app] in *. cbn [drawdown_loop]. cbv zeta.
    inversion Hl as [|? ? Hbi Hl2]; subst.
    destruct (running_peak peak bi Hp) as (Hp' & _ & Hbp).
    cbv zeta in Hp', Hbp.
    set (peak' := if Qlt_bool peak bi then bi else peak) in *.
    assert (Hb : 0 < bj) by exact (proj1 (Forall_forall _ _) Hl2 _ Hin).
    eapply Qle_trans; [apply (drawdown_mono bi peak' bj Hbi Hbp Hb)|].
    apply drawdown_loop_dominates_peak; assumption.
  - cbn [app] in *. cbn [drawdown_loop]. cbv zeta.
    inversion Hl as [|? ? Hx Hl']; subst.
    destruct (running_peak peak x Hp) as (Hp' & _ & _).
    cbv zeta in Hp'.
    apply IH; assumption.
Qed.

(** On a history of positive bankrolls the maximum drawdown is a
    fraction in [0, 1), and it is at least the relative fall from any
    bankroll to any later one. *)
Theorem max_drawdown_bounds (bankrolls : list Q) :
  Forall (fun b => 0 < b) bankrolls ->
  0 <= _calc_max_drawdown bankrolls < 1
  /\ forall l1 bi l2 bj l3,
       bankrolls = (l1 ++ bi :: l2 ++ bj :: l3)%list ->
       (bi - bj) / bi <= _calc_max_drawdown bankrolls.
Proof.
  intro Hpos. unfold _calc_max_drawdown.
  destruct bankrolls as [|b0 rest] eqn:Hb.
  - split; [lra|]. intros [|? ?] ? ? ? ? H; discriminate.
  - rewrite <- Hb in *.
    assert (Hb0 : 0 < b0) by (rewrite Hb in Hpos; inversion Hpos; assumption).
    split.
    + apply drawdown_loop_range; [exact Hb0|exact Hpos|lra].
    + intros l1 bi l2 bj l3 Heq. rewrite Heq in *.
      apply drawdown_loop_dominates; [exact Hb0|exact Hpos|].
      apply in_or_app. right. left. reflexivity.
Qed.

Lemma max_drawdown_bounds_witness :
  0 <= _calc_max_drawdown [1000; 1200; 900; 1100] < 1
  /\ forall l1 bi l2 bj l3,
       [1000; 1200; 900; 1100] = (l1 ++ bi :: l2 ++ bj :: l3)%list ->
       (bi - bj) / bi <= _calc_max_drawdown [1000; 1200; 900; 1100].
Proof.
  apply (max_drawdown_bounds [1000; 1200; 900; 1100]).
  repeat constructor.
Defined.

Lemma drawdown_loop_attained (l : list Q) :
  forall (pre : list Q) (peak m : Q),
    0 <= m -> In peak pre ->
    drawdown_loop l peak m = m
    \/ exists l1 bi l2 bj l3,
         (pre ++ l)%list = (l1 ++ bi :: l2 ++ bj :: l3)%list
         /\ drawdown_loop l peak m = (bi - bj) / bi.
Proof.
  induction l as [|b l IH]; intros pre peak m Hm Hin;
    cbn [drawdown_loop]; [left; reflexivity|].
  cbv zeta.
  set (peak' := if Qlt_bool peak b then b else peak).
  set (dd := (peak' - b) / peak').
  set (m' := if Qlt_bool m dd then dd else m).
  assert (Hm' : 0 <= m').
  { unfold m'. destruct (Qlt_bool m dd) eqn:E; [|exact Hm].
    apply Qlt_bool_iff in E. lra. }
  assert (Hin' : In peak' (pre ++ [b])%list).
  { apply in_or_app. unfold peak'.
    destruct (Qlt_bool peak b); [right; left; reflexivity|left; exact Hin]. }
  destruct (IH (pre ++ [b])%list peak' m' Hm' Hin')
    as [Hr | (l1 & bi & l2 & bj & l3 & Heq & Hr)].
  - rewrite Hr. unfold m'.
    destruct (Qlt_bool m dd) eqn:E; [|left; reflexivity].
    apply Qlt_bool_iff in E. right.
    unfold dd, peak' in *.
    destruct (Qlt_bool peak b).
    + exfalso.
      assert (Hz : (b - b) / b == 0) by (unfold Qdiv; ring).
      rewrite Hz in E. lra.
    + apply in_split in Hin as (p1 & p2 & ->).
      exists p1, peak, p2, b, l. split; [|reflexivity].
      rewrite <- app_assoc. reflexivity.
  - right. exists l1, bi, l2, bj, l3. split; [|exact Hr].
    rewrite <- Heq, <- app_assoc. reflexivity.
Qed.

(** The maximum drawdown is a drawdown that happened: the value
    returned is the initial 0.0, or it is the relative fall from one
    bankroll of the history to a later one.  With the bound above, it is
    the largest such fall. *)
Theorem max_drawdown_attained (bankrolls : list Q) :
  _calc_max_drawdown bankrolls = 0
  \/ exists l1 bi l2 bj l3,
       bankrolls = (l1 ++ bi :: l2 ++ bj :: l3)%list
       /\ _calc_max_drawdown bankrolls = (bi - bj) / bi.
Proof.
  unfold _calc_max_drawdown.
  destruct bankrolls as [|b0 rest]; [left; reflexivity|].
  cbn [drawdown_loop]. cbv zeta.
  assert (Hself : Qlt_bool b0 b0 = false)
    by (apply Qlt_bool_false; apply Qle_refl).
  rewrite Hself.
  assert (Hzero : Qlt_bool 0 ((b0 - b0) / b0) = false).
  { apply Qlt_bool_false.
    assert (Hz : (b0 - b0) / b0 == 0) by (unfold Qdiv; ring).
    rewrite Hz. apply Qle_refl. }
  rewrite Hzero.
  destruct (drawdown_loop_attained rest [b0] b0 0 (Qle_refl 0)
              (or_introl eq_refl))
    as [Hr | Hr]; [left; exact Hr|right; exact Hr].
Qed.

(** ** btc_strategy.py: the price model *)

Lemma np_clip_complement (x y : Q) :
  x + y == 1 ->
  np_clip x (2 # 100) (98 # 100) + np_clip y (2 # 100) (98 # 100) == 1.
Proof.
  intro Hxy. unfold np_clip. cbv zeta.
  destruct (Qlt_bool x (2 # 100)) eqn:E1;
    destruct (Qlt_bool y (2 # 100)) eqn:E2;
    repeat match goal with
    | |- context [Qlt_bool ?a ?b] => destruct (Qlt_bool a b) eqn:?
    end; qreflect; lra.
Qed.

Lemma Qopp_div (d e : Q) : - d / e = - (d / e).
Proof.
  unfold Qdiv, Qmult, Qopp. cbn [Qnum Qden]. f_equal. lia.
Qed.

(** With scipy present and a normal CDF that is symmetric about 0, the
    estimates for "above" and for "below" the same target, from the
    same indicators, add up to 1: every adjustment enters the two
    directions with opposite signs and the clip interval is symmetric. *)
Theorem above_below_complementary (libs : SciLibs)
    (current_price target_price : Q) (direction : string)
    (rsi vwap_deviation volatility momentum order_flow pa pb : Q) :
  scipy_installed = true ->
  (forall z, norm_cdf (- z) == 1 - norm_cdf z) ->
  String.eqb direction "above" = false ->
  btc_strategy._estimate_probability current_price target_price "above"
    rsi vwap_deviation volatility momentum order_flow = Return pa ->
  btc_strategy._estimate_probability current_price target_price direction
    rsi vwap_deviation volatility momentum order_flow = Return pb ->
  pa + pb == 1.
Proof.
  intros Hscipy Hsym Hdir.
  unfold btc_strategy._estimate_probability.
  destruct (Qeq_bool current_price 0); [discriminate|].
  cbv zeta. rewrite Hdir, Hscipy.
  change (String.eqb "above" "above") with true.
  cbn [outcome_bind].
  set (em := if Qlt_bool (volatility * np_sqrt 15) (1 # 10000)
             then 1 # 10000 else volatility * np_sqrt 15).
  set (z := (target_price - current_price) / current_price / em).
  rewrite Qopp_div.
  fold z.
  set (oversold := (5 # 100) * (config.BTC_RSI_OVERSOLD - rsi)
                   / config.BTC_RSI_OVERSOLD).
  set (overbought := (5 # 100) * (rsi - config.BTC_RSI_OVERBOUGHT)
                     / (100 - config.BTC_RSI_OVERBOUGHT)).
  intros [= <-] [= <-].
  apply np_clip_complement.
  rewrite (Hsym z).
  destruct (Qlt_bool rsi config.BTC_RSI_OVERSOLD);
    [|destruct (Qlt_bool config.BTC_RSI_OVERBOUGHT rsi)];
    destruct (Qlt_bool (1 # 1000) (Qabs vwap_deviation)); ring.
Qed.

Lemma above_below_complementary_witness :
  exists pa pb,
    btc_strategy._estimate_probability (libs := toy_libs) 100 101 "above"
      25 (1 # 100) (1 # 100) (1 # 1000) (1 # 2) = Return pa
    /\ btc_strategy._estimate_probability (libs := toy_libs) 100 101 "below"
         25 (1 # 100) (1 # 100) (1 # 1000) (1 # 2) = Return pb
    /\ pa + pb == 1.
Proof.
  eexists. eexists.
  split; [vm_compute; reflexivity|].
  split; [vm_compute; reflexivity|].
  apply (above_below_complementary toy_libs 100 101 "below"
           25 (1 # 100) (1 # 100) (1 # 1000) (1 # 2)).
  - reflexivity.
  - intro z. reflexivity.
  - reflexivity.
  - vm_compute. reflexivity.
  - vm_compute. reflexivity.
Defined.

(** ** weather_strategy.py: the temperature model *)

Ltac split_tests :=
  repeat match goal with
  | |- context [Qlt_bool ?a ?b] => destruct (Qlt_bool a b) eqn:?
  end; qreflect.

(** The temperature estimate moves the right way with the forecast: for
    "above" and "hit" it never falls when the forecast maximum rises;
    for the other direction it never falls when the forecast minimum
    drops. *)
Theorem temperature_probability_monotone (max1 max2 min1 min2 temp_c : Q)
    (direction : string) :
  max1 <= max2 -> min2 <= min1 ->
  weather_strategy.temperature_probability max1 min1 temp_c direction
  <= weather_strategy.temperature_probability max2 min2 temp_c direction.
Proof.
  intros Hmax Hmin.
  unfold weather_strategy.temperature_probability, py_min, Qdiv.
  change (/ 2) with (1 # 2). cbv zeta.
  destruct (String.eqb direction "above" || String.eqb direction "hit");
    split_tests; lra.
Qed.

Lemma temperature_probability_monotone_witness :
  weather_strategy.temperature_probability 20 10 21 "above"
  <= weather_strategy.temperature_probability 22 8 21 "above".
Proof.
  apply (temperature_probability_monotone 20 22 10 8 21 "above");
    discriminate.
Defined.

(** Inside the two-degree band around the threshold the estimate is
    linear in the distance, 0.5 plus a tenth per degree Celsius, and it
    stays within [0.3, 0.7]: the cap of 0.4 on the adjustment is never
    reached. *)
Theorem temperature_band_linear (max_temp min_temp temp_c : Q)
    (direction : string) :
  (String.eqb direction "above" || String.eqb direction "hit" = true ->
   temp_c - 2 < max_temp <= temp_c + 2 ->
   weather_strategy.temperature_probability max_temp min_temp temp_c direction
   == (1 # 2) + (max_temp - temp_c) / 10)
  /\ (String.eqb direction "above" || String.eqb direction "hit" = false ->
      temp_c - 2 <= min_temp < temp_c + 2 ->
      weather_strategy.temperature_probability max_temp min_temp temp_c
        direction
      == (1 # 2) + (temp_c - min_temp) / 10).
Proof.
  unfold weather_strategy.temperature_probability, py_min, Qdiv.
  change (/ 2) with (1 # 2). change (/ 10) with (1 # 10). cbv zeta.
  split; intros -> [Hlo Hhi]; split_tests; lra.
Qed.

Lemma temperature_band_linear_witness :
  weather_strategy.temperature_probability 21 10 20 "above"
  == (1 # 2) + (21 - 20) / 10.
Proof.
  apply (proj1 (temperature_band_linear 21 10 20 "above")).
  - reflexivity.
  - split; [reflexivity|discriminate].
Defined.

(** ** weather_strategy.py: a target date outside the forecast *)

Lemma filter_nothing {A : Type} (f : A -> bool) (l : list A) :
  Forall (fun x => f x = false) l -> filter f l = [].
Proof.
  induction 1 as [|x l Hx _ IH]; cbn [filter]; [reflexivity|].
  rewrite Hx. exact IH.
Qed.

Lemma Forall_combine_fst {A B : Type} (P : A -> Prop) (l1 : list A)
    (l2 : list B) :
  Forall P l1 -> Forall (fun p => P (fst p)) (combine l1 l2).
Proof.
  intro Hl. revert l2.
  induction Hl as [|a l1 Ha _ IH]; intros [|b l2]; cbn [combine];
    constructor; auto.
Qed.

Lemma filter_fst_nothing {B : Type} (f : string -> bool)
    (l : list (string * B)) :
  Forall (fun p => f (fst p) = false) l ->
  filter (fun '(t, _) => f t) l = [].
Proof.
  intro Hl. apply filter_nothing.
  apply (Forall_impl _ (P := fun p => f (fst p) = false)); [|exact Hl].
  intros [t b] H. exact H.
Qed.

(** When the date parsed from the question matches no hour of the
    forecast, the temperature and the precipitation analyses give no
    signal, but the snow analysis still does: it sums an empty list to
    0 and emits a signal built on an estimate of 0.10. *)
Theorem date_outside_forecast (d : string) (parsed : option (Q * string))
    (temperatures : list (string * Q))
    (precipitation : list weather_strategy.PrecipHour)
    (times : list string) (snowfall : list Q)
    (threshold_mm snow_threshold : option Q) (market_prob : Q) :
  Forall (fun h => str_contains d (fst h) = false) temperatures ->
  Forall (fun f => str_contains d (weather_strategy.time f) = false)
    precipitation ->
  Forall (fun t => str_contains d t = false) times ->
  snowfall <> [] ->
  match snow_threshold with Some t => 0 <= t | None => True end ->
  weather_strategy._analyze_temperature_market parsed (Some temperatures)
    (Some d) market_prob = None
  /\ weather_strategy._analyze_precipitation_market (Some precipitation)
       (Some d) threshold_mm market_prob = None
  /\ weather_strategy._analyze_snow_market (Some (times, snowfall))
       (Some d) snow_threshold market_prob
     = Some (weather_strategy.emit_signal "snow" (10 # 100) market_prob).
Proof.
  intros Htemp Hprecip Htimes Hsnow Hthr.
  split; [|split].
  - unfold weather_strategy._analyze_temperature_market.
    destruct parsed as [[temp_f direction]|]; [|reflexivity].
    destruct temperatures as [|h temperatures]; [reflexivity|].
    cbv zeta.
    rewrite (filter_fst_nothing (str_contains d) _ Htemp).
    reflexivity.
  - unfold weather_strategy._analyze_precipitation_market.
    destruct precipitation as [|h precipitation]; [reflexivity|].
    cbv zeta.
    rewrite (filter_nothing
               (fun f => str_contains d (weather_strategy.time f)) _ Hprecip).
    reflexivity.
  - unfold weather_strategy._analyze_snow_market.
    destruct snowfall as [|s snowfall]; [contradiction|].
    cbv zeta.
    rewrite (filter_fst_nothing (str_contains d)
               (combine times (s :: snowfall))
               (Forall_combine_fst _ _ _ Htimes)).
    cbn [map Qsum].
    assert (Hest : weather_strategy.snow_probability 0 snow_threshold
                   = 10 # 100).
    { unfold weather_strategy.snow_probability. cbv zeta.
      change (Qlt_bool (5 # 10) 0) with false. cbv iota.
      destruct snow_threshold as [t|]; [|reflexivity].
      destruct (Qeq_bool t 0); cbn [negb]; [reflexivity|].
      assert (H1 : Qlt_bool (t * (254 # 100) * (15 # 10)) 0 = false)
        by (apply Qlt_bool_false; lra).
      assert (H2 : Qlt_bool (t * (254 # 100)) 0 = false)
        by (apply Qlt_bool_false; lra).
      assert (H3 : Qlt_bool (t * (254 # 100) * (3 # 10)) 0 = false)
        by (apply Qlt_bool_false; lra).
      rewrite H1, H2, H3. reflexivity. }
    rewrite Hest. reflexivity.
Qed.

Lemma date_outside_forecast_witness :
  weather_strategy._analyze_temperature_market (Some (90, "above"))
    (Some [("2024-07-01T00:00", 30)]) (Some "2024-08-15") (40 # 100) = None
  /\ weather_strategy._analyze_precipitation_market
       (Some [{| weather_strategy.time := "2024-07-01T00:00";
                 weather_strategy.probability := 80;
                 weather_strategy.amount_mm := 3 |}])
       (Some "2024-08-15") None (40 # 100) = None
  /\ weather_strategy._analyze_snow_market
       (Some (["2024-07-01T00:00"], [2])) (Some "2024-08-15") (Some 6)
       (40 # 100)
     = Some (weather_strategy.emit_signal "snow" (10 # 100) (40 # 100)).
Proof.
  apply (date_outside_forecast "2024-08-15" (Some (90, "above"))
           [("2024-07-01T00:00", 30)]
           [{| weather_strategy.time := "2024-07-01T00:00";
               weather_strategy.probability := 80;
               weather_strategy.amount_mm := 3 |}]
           ["2024-07-01T00:00"] [2] None (Some 6) (40 # 100)).
  - repeat constructor.
  - repeat constructor.
  - repeat constructor.
  - discriminate.
  - discriminate.
Defined.

(** ** data_feeds.py: city lookup *)

Lemma prefix_cons (c : ascii) (needle hay : string) :
  String.prefix (String c needle) hay = true ->
  exists hay', hay = String c hay' /\ String.prefix needle hay' = true.
Proof.
  destruct hay as [|c' hay']; cbn [String.prefix]; [discriminate|].
  destruct (Ascii.ascii_dec c c') as [<- | _]; [|discriminate].
  intro Hp. exists hay'. split; [reflexivity|exact Hp].
Qed.

Lemma str_contains_cons (needle : string) (c : ascii) (hay : string) :
  str_contains needle hay = true ->
  str_contains needle (String c hay) = true.
Proof.
  intro H. cbn [str_contains]. rewrite H. apply orb_true_r.
Qed.

Lemma str_contains_prefix (needle hay : string) :
  String.prefix needle hay = true -> str_contains needle hay = true.
Proof.
  intro H. destruct hay; cbn [str_contains]; rewrite H; reflexivity.
Qed.

(** Every text that contains "atlanta" or "dallas" contains "la". *)
Lemma la_inside (text : string) :
  str_contains "atlanta" text = true \/ str_contains "dallas" text = true ->
  str_contains "la" text = true.
Proof.
  induction text as [|c text IH].
  - intros [H | H]; discriminate.
  - intro H.
    assert (Hcases :
              String.prefix "atlanta" (String c text) = true
              \/ String.prefix "dallas" (String c text) = true
              \/ (str_contains "atlanta" text = true
                  \/ str_contains "dallas" text = true)).
    { cbn [str_contains] in H.
      destruct H as [H | H]; apply orb_true_iff in H as [H | H]; auto. }
    destruct Hcases as [Hp | [Hp | Hrest]].
    + apply prefix_cons in Hp as (h1 & -> & Hp).
      apply prefix_cons in Hp as (h2 & -> & Hp).
      apply prefix_cons in Hp as (h3 & -> & Hp).
      apply prefix_cons in Hp as (h4 & -> & _).
      do 2 apply str_contains_cons.
      apply str_contains_prefix. cbn [String.prefix].
      repeat (destruct (Ascii.ascii_dec _ _); [|congruence]).
      destruct h4; reflexivity.
    + apply prefix_cons in Hp as (h1 & -> & Hp).
      apply prefix_cons in Hp as (h2 & -> & Hp).
      apply prefix_cons in Hp as (h3 & -> & Hp).
      apply prefix_cons in Hp as (h4 & -> & Hp).
      apply prefix_cons in Hp as (h5 & -> & _).
      do 3 apply str_contains_cons.
      apply str_contains_prefix. cbn [String.prefix].
      repeat (destruct (Ascii.ascii_dec _ _); [|congruence]).
      destruct h5; reflexivity.
    + apply str_contains_cons. apply IH. exact Hrest.
Qed.

(** A question about Atlanta or Dallas is never given that city's
    coordinates: "la" is a substring of both names and comes earlier in
    the table, so the lookup answers with the coordinates of New York
    or of Los Angeles. *)
Theorem atlanta_and_dallas_shadowed (lower : string -> string)
    (text : string) :
  str_contains "atlanta" (lower text) = true
  \/ str_contains "dallas" (lower text) = true ->
  data_feeds.find_city_coords lower text
  = Some (407128 # 10000, - (740060 # 10000))
  \/ data_feeds.find_city_coords lower text
     = Some (340522 # 10000, - (1182437 # 10000)).
Proof.
  intro H. apply la_inside in H.
  unfold data_feeds.find_city_coords, data_feeds.CITY_COORDS.
  cbv zeta. cbn [data_feeds.first_city].
  destruct (str_contains "new york" (lower text)); [left; reflexivity|].
  destruct (str_contains "nyc" (lower text)); [left; reflexivity|].
  destruct (str_contains "los angeles" (lower text)); [right; reflexivity|].
  rewrite H. right. reflexivity.
Qed.

Lemma atlanta_and_dallas_shadowed_witness :
  data_feeds.find_city_coords (fun s => s) "will it rain in atlanta?"
  = Some (407128 # 10000, - (740060 # 10000))
  \/ data_feeds.find_city_coords (fun s => s) "will it rain in atlanta?"
     = Some (340522 # 10000, - (1182437 # 10000)).
Proof.
  apply (atlanta_and_dallas_shadowed (fun s => s) "will it rain in atlanta?").
  left. reflexivity.
Defined.

(** ** backtest.py: the simulated trades *)

(** What a pass of the inner loop that records a trade has done. *)
Lemma simulate_trade_cases (min_edge : Q) (c : backtest.Candidate)
    (st st' : backtest.Tally) :
  backtest.simulate_trade min_edge c st = Some st' ->
  exists t,
    backtest.trades st' = (backtest.trades st ++ [t])%list
    /\ backtest.t_bankroll t = backtest.bankroll st'
    /\ backtest.bankroll st' = backtest.bankroll st + backtest.t_pnl t
    /\ backtest.total_pnl st' = backtest.total_pnl st + backtest.t_pnl t
    /\ (backtest.wins st' + backtest.losses st'
        = S (backtest.wins st + backtest.losses st))%nat
    /\ 0 < backtest.t_edge t
    /\ config.MIN_BET_SIZE_USD <= backtest.t_bet_size t
    /\ backtest.t_bet_size t
       <= backtest.bankroll st * config.MAX_SINGLE_BET_PCT
    /\ (if backtest.t_won t
        then 0 < backtest.t_pnl t
        else backtest.t_pnl t = - backtest.t_bet_size t).
Proof.
  unfold backtest.simulate_trade. cbv zeta.
  set (market := np_clip ((5 # 10) + backtest.c_noise c) (1 # 10) (9 # 10)).
  set (our := backtest.c_our_prob c).
  destruct (Qlt_bool (Qabs (our - market)) min_edge); [discriminate|].
  destruct (Qle_bool (kelly_size our market None) 0) eqn:Hk; [discriminate|].
  set (bet := py_min (backtest.bankroll st * kelly_size our market None)
                (backtest.bankroll st * config.MAX_SINGLE_BET_PCT)).
  destruct (Qlt_bool bet config.MIN_BET_SIZE_USD) eqn:Hmin; [discriminate|].
  apply Qle_bool_false in Hk. apply Qlt_bool_false in Hmin.
  assert (Hedge : 0 < market /\ market < 1 /\ market < our).
  { destruct (kelly_size_positive our market None)
      as [Hz | (Hm0 & Hm1 & _ & _ & _ & Hfull & _)].
    - exfalso. rewrite Hz in Hk. exact (Qlt_irrefl _ Hk).
    - split; [exact Hm0|]. split; [exact Hm1|].
      apply Qnot_le_lt. intro Hle.
      apply (kelly_full_sign our market Hm0 Hm1) in Hle.
      exact (Qlt_not_le _ _ Hfull Hle). }
  destruct Hedge as (Hm0 & Hm1 & Hlt).
  assert (Hyes : Qlt_bool 0 (our - market) = true)
    by (apply Qlt_bool_iff; lra).
  rewrite Hyes. cbn [negb andb orb].
  assert (Hcap : bet <= backtest.bankroll st * config.MAX_SINGLE_BET_PCT).
  { unfold bet.
    destruct (py_min_cases
                (backtest.bankroll st * kelly_size our market None)
                (backtest.bankroll st * config.MAX_SINGLE_BET_PCT))
      as [[_ ->] | [Hle ->]]; [apply Qle_refl|exact Hle]. }
  assert (Hpay : 0 < bet * (1 / market - 1)).
  { assert (E : 1 / market - 1 == (1 - market) / market) by (field; lra).
    rewrite E.
    assert (Hodds : 0 < (1 - market) / market) by (apply Qdiv_pos; lra).
    unfold config.MIN_BET_SIZE_USD in Hmin. nra. }
  intros [= <-]. eexists.
  cbn [backtest.trades backtest.t_bankroll backtest.bankroll
       backtest.total_pnl backtest.wins backtest.losses backtest.t_edge
       backtest.t_bet_size backtest.t_won backtest.t_pnl].
  split; [reflexivity|]. split; [reflexivity|]. split; [reflexivity|].
  split; [reflexivity|].
  split; [repeat rewrite orb_false_r;
          destruct (if String.eqb (backtest.c_direction c) "above"
                    then backtest.c_actual_above c
                    else negb (backtest.c_actual_above c)); lia|].
  split; [apply Qlt_bool_iff; exact Hyes|].
  split; [exact Hmin|]. split; [exact Hcap|].
  repeat rewrite orb_false_r.
  destruct (if String.eqb (backtest.c_direction c) "above"
            then backtest.c_actual_above c
            else negb (backtest.c_actual_above c));
    [exact Hpay|reflexivity].
Qed.

(** A simulated trade is always a bet on YES with a positive edge, of
    at least a dollar and at most 5% of the bankroll; a win pays a
    positive amount and a loss costs the stake, so the bankroll after
    the trade keeps at least 95% of the bankroll before it and is never
    below 19: the backtest's branch for a bet on NO and its bankruptcy
    exit are never taken. *)
Theorem simulated_trade_is_safe (min_edge : Q) (c : backtest.Candidate)
    (st st' : backtest.Tally) :
  backtest.simulate_trade min_edge c st = Some st' ->
  exists t,
    backtest.trades st' = (backtest.trades st ++ [t])%list
    /\ 0 < backtest.t_edge t
    /\ config.MIN_BET_SIZE_USD <= backtest.t_bet_size t
       <= backtest.bankroll st * config.MAX_SINGLE_BET_PCT
    /\ - backtest.t_bet_size t <= backtest.t_pnl t
    /\ (backtest.t_won t = true -> 0 < backtest.t_pnl t)
    /\ (95 # 100) * backtest.bankroll st <= backtest.bankroll st'
    /\ 19 <= backtest.bankroll st'
    /\ Qle_bool (backtest.bankroll st') 0 = false.
Proof.
  intro Hsim.
  destruct (simulate_trade_cases min_edge c st st' Hsim)
    as (t & Htr & _ & Hb & _ & _ & Hedge & Hmin & Hcap & Hpnl).
  exists t.
  unfold config.MIN_BET_SIZE_USD, config.MAX_SINGLE_BET_PCT in *.
  assert (Hlow : - backtest.t_bet_size t <= backtest.t_pnl t).
  { destruct (backtest.t_won t); [lra|rewrite Hpnl; apply Qle_refl]. }
  split; [exact Htr|]. split; [exact Hedge|]. split; [split; assumption|].
  split; [exact Hlow|].
  split; [intro Hw; rewrite Hw in Hpnl; exact Hpnl|].
  rewrite Hb.
  split; [lra|]. split; [lra|].
  apply Qle_bool_false. lra.
Qed.

Lemma simulated_trade_is_safe_witness :
  exists st' t,
    backtest.simulate_trade (3 # 100)
      {| backtest.c_our_prob := 60 # 100; backtest.c_noise := 0;
         backtest.c_direction := "above"; backtest.c_actual_above := true |}
      {| backtest.bankroll := 1000; backtest.trades := [];
         backtest.wins := 0; backtest.losses := 0;
         backtest.total_pnl := 0 |} = Some st'
    /\ backtest.trades st' = [t]
    /\ 0 < backtest.t_edge t
    /\ 19 <= backtest.bankroll st'.
Proof.
  eexists.
  assert (Hrun : backtest.simulate_trade (3 # 100)
            {| backtest.c_our_prob := 60 # 100; backtest.c_noise := 0;
               backtest.c_direction := "above";
               backtest.c_actual_above := true |}
            {| backtest.bankroll := 1000; backtest.trades := [];
               backtest.wins := 0; backtest.losses := 0;
               backtest.total_pnl := 0 |} = Some _)
    by (vm_compute; reflexivity).
  destruct (simulated_trade_is_safe _ _ _ _ Hrun)
    as (t & Htr & Hedge & _ & _ & _ & _ & Hb & _).
  exists t. split; [exact Hrun|]. split; [exact Htr|]. split; assumption.
Defined.

Lemma simulate_trade_tally (initial min_edge : Q) (c : backtest.Candidate)
    (st st' : backtest.Tally) :
  tally_ok initial st ->
  backtest.simulate_trade min_edge c st = Some st' ->
  tally_ok initial st' /\ Qle_bool (backtest.bankroll st') 0 = false.
Proof.
  intros (Hcount & Hpnl & Htrades & _) Hsim.
  destruct (simulate_trade_cases min_edge c st st' Hsim)
    as (t & Htr & Htb & Hb & Htot & Hwl & Hedge & Hmin & Hcap & Hout).
  unfold config.MIN_BET_SIZE_USD, config.MAX_SINGLE_BET_PCT in *.
  assert (Hlow : - backtest.t_bet_size t <= backtest.t_pnl t).
  { destruct (backtest.t_won t); [lra|rewrite Hout; apply Qle_refl]. }
  assert (Hfloor : 19 <= backtest.bankroll st') by (rewrite Hb; lra).
  split; [|apply Qle_bool_false; lra].
  unfold tally_ok. rewrite Htr, Htot, Hwl, length_app. cbn [length].
  split; [lia|].
  split; [rewrite Hb, Hpnl; ring|].
  split; [|intros _; lra].
  apply Forall_app. split; [exact Htrades|].
  constructor; [|constructor].
  split; [exact Hedge|rewrite Htb; exact Hfloor].
Qed.

Lemma offsets_loop_tally (initial min_edge : Q)
    (cands : list backtest.Candidate) (st : backtest.Tally) :
  tally_ok initial st ->
  tally_ok initial (backtest.offsets_loop min_edge cands st).
Proof.
  revert st. induction cands as [|c cands IH]; intros st Hst;
    cbn [backtest.offsets_loop]; [exact Hst|].
  destruct (backtest.simulate_trade min_edge c st) as [st'|] eqn:Hsim;
    [|apply IH; exact Hst].
  destruct (simulate_trade_tally initial min_edge c st st' Hst Hsim)
    as [Hst' Hpos].
  rewrite Hpos. apply IH. exact Hst'.
Qed.

Lemma windows_loop_tally (initial min_edge : Q)
    (windows : list (list backtest.Candidate)) (st : backtest.Tally) :
  tally_ok initial st ->
  tally_ok initial (backtest.windows_loop min_edge windows st).
Proof.
  revert st. induction windows as [|w windows IH]; intros st Hst;
    cbn [backtest.windows_loop]; [exact Hst|].
  cbv zeta.
  pose proof (offsets_loop_tally initial min_edge w st Hst) as Hst'.
  destruct (Qle_bool (backtest.bankroll (backtest.offsets_loop min_edge w st)) 0);
    [exact Hst'|apply IH; exact Hst'].
Qed.

(** Over exact rationals, the results of a backtest are coherent
    whatever the candles and the noise drawn: wins and losses add up to
    the number of trades, the total PnL is the final bankroll less the
    initial one, every trade was a bet on a positive edge and left a
    bankroll of 19 or more, a positive initial bankroll is never lost,
    and the maximum drawdown computed from the trades is a fraction in
    [0, 1).  (On binary64 the two accumulators round separately, so the
    total PnL equals the difference of the bankrolls up to rounding.) *)
Theorem backtest_results_coherent (initial_bankroll min_edge : Q)
    (windows : list (list backtest.Candidate)) :
  (backtest.wins (backtest.run_loops initial_bankroll min_edge windows)
   + backtest.losses (backtest.run_loops initial_bankroll min_edge windows)
   = length
       (backtest.trades
          (backtest.run_loops initial_bankroll min_edge windows)))%nat
  /\ backtest.total_pnl (backtest.run_loops initial_bankroll min_edge windows)
     == backtest.bankroll
          (backtest.run_loops initial_bankroll min_edge windows)
        - initial_bankroll
  /\ Forall (fun t => 0 < backtest.t_edge t /\ 19 <= backtest.t_bankroll t)
       (backtest.trades
          (backtest.run_loops initial_bankroll min_edge windows))
  /\ (0 < initial_bankroll ->
      0 < backtest.bankroll
            (backtest.run_loops initial_bankroll min_edge windows))
  /\ 0 <= _calc_max_drawdown
            (map backtest.t_bankroll
               (backtest.trades
                  (backtest.run_loops initial_bankroll min_edge windows)))
     < 1.
Proof.
  unfold backtest.run_loops.
  set (st0 := {| backtest.bankroll := initial_bankroll;
                 backtest.trades := []; backtest.wins := 0;
                 backtest.losses := 0; backtest.total_pnl := 0 |}).
  assert (H0 : tally_ok initial_bankroll st0).
  { unfold tally_ok, st0. cbn. repeat split; auto; ring. }
  destruct (windows_loop_tally initial_bankroll min_edge windows st0 H0)
    as (Hcount & Hpnl & Htrades & Hpos).
  repeat (split; [assumption|]).
  assert (Hbank : Forall (fun b => 0 < b)
                    (map backtest.t_bankroll
                       (backtest.trades
                          (backtest.windows_loop min_edge windows st0)))).
  { apply Forall_forall. intros b Hb.
    apply in_map_iff in Hb as (t & <- & Ht).
    apply (proj1 (Forall_forall _ _) Htrades) in Ht as [_ Ht]. lra. }
  unfold _calc_max_drawdown.
  destruct (map backtest.t_bankroll _) as [|b0 rest] eqn:Hmap; [lra|].
  apply drawdown_loop_range; [|exact Hbank|lra].
  inversion Hbank; assumption.
Qed.

(** ** polymarket_client.py: deduplication *)

Lemma NoDup_map_Some {A : Type} (l : list A) :
  NoDup l -> NoDup (map Some l).
Proof.
  induction 1 as [|x l Hx _ IH]; cbn [map]; constructor; [|exact IH].
  intro Hin. apply in_map_iff in Hin as (y & [= ->] & Hy). contradiction.
Qed.

Lemma deduplicate_loop_spec (Market Id : Type) (get_id : Market -> option Id)
    (Id_eqb : Id -> Id -> bool) :
  (forall a b, Id_eqb a b = true <-> a = b) ->
  forall (markets : list Market) (seen : list Id) (unique result : list Market),
    map get_id unique = map Some (rev seen) ->
    NoDup seen ->
    polymarket_client.deduplicate_loop Market Id get_id Id_eqb markets seen
      unique = Some result ->
    NoDup (map get_id result)
    /\ (exists kept, result = (unique ++ kept)%list /\ incl kept markets)
    /\ (forall m, In m (unique ++ markets)%list ->
          exists m', In m' result /\ get_id m' = get_id m).
Proof.
  intro Hspec. induction markets as [|m markets IH];
    intros seen unique result Hseen Hnodup;
    cbn [polymarket_client.deduplicate_loop].
  - intros [= <-]. split; [|split].
    + rewrite Hseen. apply NoDup_map_Some, NoDup_rev. exact Hnodup.
    + exists []. rewrite app_nil_r. split; [reflexivity|apply incl_refl].
    + intros m Hm. rewrite app_nil_r in Hm. exists m. auto.
  - destruct (get_id m) as [i|] eqn:Hid; [|discriminate].
    destruct (existsb (Id_eqb i) seen) eqn:Hin; intro Hrun.
    + destruct (IH seen unique result Hseen Hnodup Hrun)
        as (Hnd & (kept & Hres & Hincl) & Hcover).
      split; [exact Hnd|]. split.
      * exists kept. split; [exact Hres|].
        apply incl_tl. exact Hincl.
      * intros m0 Hm0. apply in_app_or in Hm0 as [Hm0 | [<- | Hm0]].
        -- apply Hcover. apply in_or_app. left. exact Hm0.
        -- apply existsb_exists in Hin as (j & Hj & Heq).
           apply Hspec in Heq. subst j.
           assert (Hsome : In (Some i) (map get_id unique)).
           { rewrite Hseen. apply in_map. apply in_rev in Hj. exact Hj. }
           apply in_map_iff in Hsome as (m0 & Hm0 & Hin0).
           destruct (Hcover m0) as (m' & Hm' & Heq');
             [apply in_or_app; left; exact Hin0|].
           exists m'. split; [exact Hm'|]. rewrite Heq', Hm0, Hid. reflexivity.
        -- apply Hcover. apply in_or_app. right. exact Hm0.
    + assert (Hfresh : ~ In i seen).
      { intro Hi. assert (Ht : existsb (Id_eqb i) seen = true).
        { apply existsb_exists. exists i. split; [exact Hi|].
          apply Hspec. reflexivity. }
        rewrite Ht in Hin. discriminate. }
      assert (Hseen' : map get_id (unique ++ [m])%list
                       = map Some (rev (i :: seen))).
      { rewrite map_app. cbn [rev map]. rewrite map_app, Hseen, Hid.
        reflexivity. }
      destruct (IH (i :: seen) (unique ++ [m])%list result Hseen'
                  (NoDup_cons i Hfresh Hnodup) Hrun)
        as (Hnd & (kept & Hres & Hincl) & Hcover).
      split; [exact Hnd|]. split.
      * exists (m :: kept). split.
        -- rewrite Hres, <- app_assoc. reflexivity.
        -- intros x [<- | Hx]; [left; reflexivity|right; apply Hincl; exact Hx].
      * intros m0 Hm0. apply Hcover.
        rewrite <- app_assoc. exact Hm0.
Qed.

(** The deduplication that closes [find_btc_markets] (when every market
    carries an id and equality on ids is what the set tests): no two
    markets returned share an id, every market returned was found, and
    every id found is still represented. *)
Theorem deduplicate_by_id (Market Id : Type) (get_id : Market -> option Id)
    (Id_eqb : Id -> Id -> bool) (markets unique : list Market) :
  (forall a b, Id_eqb a b = true <-> a = b) ->
  polymarket_client.deduplicate Market Id get_id Id_eqb markets
  = Some unique ->
  NoDup (map get_id unique)
  /\ incl unique markets
  /\ (forall m, In m markets ->
        exists m', In m' unique /\ get_id m' = get_id m).
Proof.
  intros Hspec Hrun.
  destruct (deduplicate_loop_spec Market Id get_id Id_eqb Hspec markets [] []
              unique eq_refl (NoDup_nil Id) Hrun)
    as (Hnd & (kept & Hres & Hincl) & Hcover).
  split; [exact Hnd|]. split.
  - rewrite Hres. exact Hincl.
  - intros m Hm. apply Hcover. exact Hm.
Qed.

Lemma deduplicate_by_id_witness :
  NoDup (map (fun m : string * nat => Some (fst m)) [("a", 1%nat); ("b", 2%nat)])
  /\ incl [("a", 1%nat); ("b", 2%nat)]
          [("a", 1%nat); ("b", 2%nat); ("a", 3%nat)]
  /\ (forall m, In m [("a", 1%nat); ("b", 2%nat); ("a", 3%nat)] ->
        exists m', In m' [("a", 1%nat); ("b", 2%nat)]
                   /\ Some (fst m') = Some (fst m)).
Proof.
  apply (deduplicate_by_id (string * nat) string
           (fun m => Some (fst m)) String.eqb
           [("a", 1%nat); ("b", 2%nat); ("a", 3%nat)]
           [("a", 1%nat); ("b", 2%nat)]).
  - intros a b. apply String.eqb_eq.
  - reflexivity.
Defined.
